(** * Verification of the Mastodon follow/like bot ([mastodon_bot.py]) and of
      its configuration web UI ([web_ui.py])

    Shallow embedding of the Python sources:
    - Python values read from JSON and YAML files are [pyval]; the hashable
      ones that can live in a Python [set] are [hashable];
    - the status records returned by the API are [status], the like rules
      of the configuration are [like_rule];
    - [MastodonRepostBot] methods are functions in a state-and-exception
      monad [M] over [bot_state] (the three id sets, their files and the log
      of remote actions attempted), against a fixed remote [api];
    - the Flask routes of the web UI are functions on the two YAML files. *)

From Stdlib Require Import Ascii String ZArith Lia.
From stdpp Require Import base gmap strings list.

#[local] Set Warnings "-register-all".

Open Scope Z_scope.

(* ------------------------------------------------------------------ *)
(** ** Python values *)

(** Values produced by [json.load] and [yaml.load]: dictionaries keep
    their insertion order and have string keys.  JSON numbers are modelled
    as integers. *)
Inductive pyval :=
| PNone
| PBool (b : bool)
| PInt (z : Z)
| PStr (s : string)
| PList (l : list pyval)
| PDict (kvs : list (string * pyval)).

(** Python truthiness ([bool(v)]). *)
Definition truthy (v : pyval) : bool :=
  match v with
  | PNone => false
  | PBool b => b
  | PInt z => negb (z =? 0)
  | PStr s => negb (String.eqb s "")
  | PList l => negb (length l =? 0)%nat
  | PDict kvs => negb (length kvs =? 0)%nat
  end.

(** [d.get(k)] on a dictionary. *)
Fixpoint dict_get (k : string) (kvs : list (string * pyval)) : option pyval :=
  match kvs with
  | [] => None
  | (k', v) :: rest => if String.eqb k k' then Some v else dict_get k rest
  end.

(** [d[k] = v]: replaces the value in place or appends a new key. *)
Fixpoint dict_set (k : string) (v : pyval) (kvs : list (string * pyval))
  : list (string * pyval) :=
  match kvs with
  | [] => [(k, v)]
  | (k', v') :: rest =>
      if String.eqb k k' then (k', v) :: rest else (k', v') :: dict_set k v rest
  end.

(** Python exceptions that the modelled code raises or catches.  Following
    the exception classes of the [Mastodon.py] client, [MastodonAPIError]
    stands for the API errors (not found, unauthorized, server errors, all
    subclasses of [MastodonAPIError]), while [MastodonNetworkError] (a
    subclass of [MastodonIOError]) and [MastodonRatelimitError] are
    [MastodonError]s that are not [MastodonAPIError]s. *)
Inductive exn :=
| MastodonAPIError
| MastodonNetworkError
| MastodonRatelimitError
| JSONDecodeError
| AttributeError
| TypeError
| KeyError
| ValueError
| YAMLError
| RuntimeError.

Definition is_api_error (e : exn) : bool :=
  match e with MastodonAPIError => true | _ => false end.

(** Outcome of a Python computation: a value or a raised exception. *)
Inductive outcome (A : Type) :=
| Ok (a : A)
| Err (e : exn).
Arguments Ok {A} a.
Arguments Err {A} e.

(** Hashable values found in the JSON dedup files, the members of a Python
    [set].  JSON booleans hash and compare like the integers 1 and 0. *)
Inductive hashable :=
| HStr (s : string)
| HInt (z : Z)
| HNone.

Global Instance hashable_eq_dec : EqDecision hashable.
Proof. solve_decision. Defined.

Definition hashable_to_sum (h : hashable) : string + (Z + unit) :=
  match h with HStr s => inl s | HInt z => inr (inl z) | HNone => inr (inr tt) end.
Definition hashable_of_sum (x : string + (Z + unit)) : hashable :=
  match x with inl s => HStr s | inr (inl z) => HInt z | inr (inr _) => HNone end.

Global Instance hashable_countable : Countable hashable.
Proof.
  apply (inj_countable' hashable_to_sum hashable_of_sum).
  intros []; reflexivity.
Defined.

(** [hash(v)] for an element of an iterable passed to [set(...)]. *)
Definition to_hashable (v : pyval) : outcome hashable :=
  match v with
  | PStr s => Ok (HStr s)
  | PInt z => Ok (HInt z)
  | PBool b => Ok (HInt (if b then 1 else 0))
  | PNone => Ok HNone
  | PList _ | PDict _ => Err TypeError
  end.

(** A set member written back by [json.dump]. *)
Definition of_hashable (h : hashable) : pyval :=
  match h with HStr s => PStr s | HInt z => PInt z | HNone => PNone end.

(** Iteration over a value, as [set(x)] and [for x in v] do it: a list
    yields its items, a string its one-character strings, a dictionary its
    keys; anything else is not iterable. *)
Fixpoint string_chars (s : string) : list pyval :=
  match s with
  | EmptyString => []
  | String c rest => PStr (String c EmptyString) :: string_chars rest
  end.

Definition py_iter (v : pyval) : outcome (list pyval) :=
  match v with
  | PList l => Ok l
  | PStr s => Ok (string_chars s)
  | PDict kvs => Ok (map (fun kv => PStr kv.1) kvs)
  | _ => Err TypeError
  end.

Fixpoint hash_all (l : list pyval) : outcome (list hashable) :=
  match l with
  | [] => Ok []
  | v :: rest =>
      match to_hashable v with
      | Err e => Err e
      | Ok h => match hash_all rest with
                | Err e => Err e
                | Ok hs => Ok (h :: hs)
                end
      end
  end.

(** [set(v)]. *)
Definition py_set (v : pyval) : outcome (gset hashable) :=
  match py_iter v with
  | Err e => Err e
  | Ok l => match hash_all l with
            | Err e => Err e
            | Ok hs => Ok (list_to_set hs)
            end
  end.

(* ------------------------------------------------------------------ *)
(** ** Strings *)

(** [str.lower()] on one character, read as a Latin-1 code point (as
    [is_space] below reads them): the capitals [A]-[Z], U+00C0-U+00D6 and
    U+00D8-U+00DE map to the letter 32 code points higher; every other code
    point below 256 is its own lower case. *)
Definition ascii_lower (c : ascii) : ascii :=
  let n := nat_of_ascii c in
  if ((65 <=? n) && (n <=? 90))%nat || ((192 <=? n) && (n <=? 214))%nat
     || ((216 <=? n) && (n <=? 222))%nat
  then ascii_of_nat (n + 32) else c.

Fixpoint lower (s : string) : string :=
  match s with
  | EmptyString => EmptyString
  | String c rest => String (ascii_lower c) (lower rest)
  end.

(** [str.upper()] on one Latin-1 character: [a]-[z], U+00E0-U+00F6 and
    U+00F8-U+00FE map to the letter 32 code points lower, U+00DF (sharp s)
    to the two letters [SS]; U+00B5 and U+00FF have upper cases outside
    Latin-1 ([None]); every other code point is its own upper case. *)
Definition ascii_upper (c : ascii) : option string :=
  let n := nat_of_ascii c in
  if ((97 <=? n) && (n <=? 122))%nat || ((224 <=? n) && (n <=? 246))%nat
     || ((248 <=? n) && (n <=? 254))%nat
  then Some (String (ascii_of_nat (n - 32)) EmptyString)
  else if (n =? 223)%nat then Some "SS"%string
  else if ((n =? 181) || (n =? 255))%nat then None
  else Some (String c EmptyString).

Fixpoint upper (s : string) : option string :=
  match s with
  | EmptyString => Some EmptyString
  | String c rest =>
      match ascii_upper c, upper rest with
      | Some u, Some v => Some (u ++ v)%string
      | _, _ => None
      end
  end.

(* ------------------------------------------------------------------ *)
(** ** Statuses and like rules *)

(** A status dictionary as returned by [Mastodon.py]: [str(status['id'])],
    [status['account']['acct']], [status['content']],
    [status.get('in_reply_to_id')], [status.get('reblog')] (the wrapped
    status, if any), [status.get('media_attachments')] and the names
    [tag['name']] of [status.get('tags', [])]. *)
Inductive status := mkStatus {
  status_id : string;
  account_acct : string;
  content : string;
  in_reply_to_id : pyval;
  reblog : option status;
  media_attachments : list pyval;
  tags : list string
}.

(** Truthiness of [status.get('reblog')]: a status dictionary is never
    empty. *)
Definition reblog_truthy (s : status) : bool :=
  match reblog s with Some _ => true | None => false end.

Definition media_truthy (s : status) : bool :=
  negb (List.length (media_attachments s) =? 0)%nat.

Module Like.
(** One entry of the [likes] list of [config.yaml]; boolean fields hold the
    truthiness of [like_config.get(key, False)], [hashtags] is
    [like_config.get('hashtags', [])]. *)
Record rule := mkRule {
  account : string;
  like_everything : bool;
  exclude_replies : bool;
  require_media : bool;
  hashtags : list string
}.
End Like.

(** The settings read by [MastodonRepostBot.__init__]. *)
Record bot_config := mkBotConfig {
  accounts_to_monitor : list string;
  check_interval : Z;
  boost_only : bool;
  exclude_replies : bool;
  exclude_reblogs : bool;
  like_accounts : list Like.rule;
  max_likes_per_check : Z;
  enable_follow_back : bool
}.

(** [_should_repost]. *)
Definition should_repost (cfg : bot_config) (s : status) : bool :=
  if exclude_replies cfg && truthy (in_reply_to_id s) then false
  else if exclude_reblogs cfg && reblog_truthy s then false
  else if boost_only cfg && negb (media_truthy s) then false
  else true.

(** [_extract_hashtags]. *)
Definition extract_hashtags (s : status) : gset string :=
  list_to_set (map lower (tags s)).

(** [_should_like]. *)
Definition should_like (s : status) (r : Like.rule) : bool :=
  if Like.like_everything r then true
  else if Like.exclude_replies r && truthy (in_reply_to_id s) then false
  else if Like.require_media r && negb (media_truthy s) then false
  else
    let required_hashtags := Like.hashtags r in
    if negb (List.length required_hashtags =? 0)%nat then
      let status_hashtags := extract_hashtags s in
      if negb (existsb (fun tag => bool_decide (lower tag ∈ status_hashtags))
                       required_hashtags)
      then false else true
    else true.

(* ------------------------------------------------------------------ *)
(** ** Files, bot state and the remote API *)

(** Content of a file on disk, as [json.load] sees it: bytes that do not
    decode in the file encoding (the read raises [UnicodeDecodeError], a
    [ValueError] that is not a [JSONDecodeError]), text that is not JSON
    ([JSONDecodeError]), or a JSON document.  [json.dump] followed by
    [json.load] gives back the dumped value. *)
Inductive file_content :=
| BadEncoding
| NotJson
| Json (v : pyval).

(** Remote actions, recorded when the call is issued (whether it then
    succeeds or fails). *)
Inductive action :=
| Reblog (id : string)
| Favourite (id : string)
| Follow (id : string).

Record bot_state := mkBotState {
  processed_posts : gset hashable;
  liked_posts : gset hashable;
  followed_accounts : gset hashable;
  disk : gmap string file_content;
  actions : list action   (* most recent first *)
}.

Definition processed_file : string := "processed_posts.json".
Definition liked_file : string := "liked_posts.json".
Definition followed_file : string := "followed_accounts.json".

(** The [Mastodon.py] client during one cycle; identifiers are already
    passed through [str(...)]. *)
Record api := mkApi {
  account_search : string -> outcome (list string);
  account_statuses : string -> bool -> bool -> outcome (list status);
  status_reblog : string -> outcome unit;
  status_favourite : string -> outcome unit;
  me : outcome string;
  account_followers : string -> outcome (list (string * string));
  account_follow : string -> outcome unit
}.

(** State and exception monad: a raised exception keeps the mutations
    made before it. *)
Definition M (A : Type) : Type := bot_state -> outcome A * bot_state.

Definition ret {A} (a : A) : M A := fun st => (Ok a, st).

Definition bind {A B} (m : M A) (k : A -> M B) : M B :=
  fun st => match m st with
            | (Ok a, st') => k a st'
            | (Err e, st') => (Err e, st')
            end.

Notation "x <- m ;; k" := (bind m (fun x => k))
  (at level 100, m at next level, right associativity).
Notation "m ;;; k" := (bind m (fun _ => k))
  (at level 100, right associativity).

(** A call whose result is [o]. *)
Definition call {A} (o : outcome A) : M A := fun st => (o, st).

Definition modify (f : bot_state -> bot_state) : M unit :=
  fun st => (Ok tt, f st).

Definition gets {A} (f : bot_state -> A) : M A := fun st => (Ok (f st), st).

(** [try: m except MastodonAPIError: h]. *)
Definition try_api {A} (m : M A) (h : M A) : M A :=
  fun st => match m st with
            | (Err e, st') => if is_api_error e then h st' else (Err e, st')
            | r => r
            end.

Definition log_action (a : action) : M unit :=
  modify (fun st => mkBotState (processed_posts st) (liked_posts st)
                      (followed_accounts st) (disk st) (a :: actions st)).

Definition set_processed (p : gset hashable) : M unit :=
  modify (fun st => mkBotState p (liked_posts st) (followed_accounts st)
                      (disk st) (actions st)).
Definition set_liked (p : gset hashable) : M unit :=
  modify (fun st => mkBotState (processed_posts st) p (followed_accounts st)
                      (disk st) (actions st)).
Definition set_followed (p : gset hashable) : M unit :=
  modify (fun st => mkBotState (processed_posts st) (liked_posts st) p
                      (disk st) (actions st)).

Definition write_file (fname : string) (c : file_content) : M unit :=
  modify (fun st => mkBotState (processed_posts st) (liked_posts st)
                      (followed_accounts st) (<[fname := c]> (disk st))
                      (actions st)).

(** [json.dump({key: list(s)}, f)]. *)
Definition dump_ids (key : string) (s : gset hashable) : file_content :=
  Json (PDict [(key, PList (map of_hashable (elements s)))]).

(** The body shared by the three loaders: [current] is the set held before
    the call, kept when the file does not exist.
<<
    if Path(file).exists():
        try:
            with open(file, 'r') as f:
                data = json.load(f)
                ids = set(data.get(key, []))
        except json.JSONDecodeError:
            ids = set()
>> *)
Definition read_ids (d : gmap string file_content) (fname key : string)
    (current : gset hashable) : outcome (gset hashable) :=
  match d !! fname with
  | None => Ok current
  | Some BadEncoding => Err ValueError
  | Some NotJson => Ok ∅
  | Some (Json (PDict kvs)) =>
      py_set (match dict_get key kvs with Some v => v | None => PList [] end)
  | Some (Json _) => Err AttributeError
  end.

(** [_load_processed_posts], [_load_liked_posts], [_load_followed_accounts]. *)
Definition load_processed_posts : M unit :=
  fun st => match read_ids (disk st) processed_file "posts" (processed_posts st) with
            | Ok s => set_processed s st
            | Err e => (Err e, st)
            end.
Definition load_liked_posts : M unit :=
  fun st => match read_ids (disk st) liked_file "posts" (liked_posts st) with
            | Ok s => set_liked s st
            | Err e => (Err e, st)
            end.
Definition load_followed_accounts : M unit :=
  fun st => match read_ids (disk st) followed_file "accounts" (followed_accounts st) with
            | Ok s => set_followed s st
            | Err e => (Err e, st)
            end.

(** [_save_processed_posts], [_save_liked_posts], [_save_followed_accounts]. *)
Definition save_processed_posts : M unit :=
  s <- gets processed_posts ;; write_file processed_file (dump_ids "posts" s).
Definition save_liked_posts : M unit :=
  s <- gets liked_posts ;; write_file liked_file (dump_ids "posts" s).
Definition save_followed_accounts : M unit :=
  s <- gets followed_accounts ;; write_file followed_file (dump_ids "accounts" s).

(* ------------------------------------------------------------------ *)
(** ** The poll cycle *)

Section Bot.
Variable cfg : bot_config.
Variable mastodon : api.

(** [_get_account_id]: [None] when the search finds nothing or raises a
    [MastodonAPIError]. *)
Definition get_account_id (account_handle : string) : M (option string) :=
  try_api
    (results <- call (account_search mastodon account_handle) ;;
     match results with
     | account_id :: _ => ret (Some account_id)
     | [] => ret None
     end)
    (ret None).

(** [if not account_id]. *)
Definition no_account (account_id : option string) : bool :=
  match account_id with
  | None => true
  | Some a => String.eqb a ""
  end.

(** [_repost_status]; the log line built after a successful reblog reads
    fields that every [status] has. *)
Definition repost_status (s : status) : M bool :=
  let sid := status_id s in
  p <- gets processed_posts ;;
  if bool_decide (HStr sid ∈ p) then ret false
  else if negb (should_repost cfg s) then ret false
  else
    try_api
      (log_action (Reblog sid) ;;;
       call (status_reblog mastodon sid) ;;;
       p' <- gets processed_posts ;;
       set_processed ({[HStr sid]} ∪ p') ;;;
       save_processed_posts ;;;
       ret true)
      (ret false).

(** [_like_status]. *)
Definition like_status (s : status) : M bool :=
  let sid := status_id s in
  l <- gets liked_posts ;;
  if bool_decide (HStr sid ∈ l) then ret false
  else
    try_api
      (log_action (Favourite sid) ;;;
       call (status_favourite mastodon sid) ;;;
       l' <- gets liked_posts ;;
       set_liked ({[HStr sid]} ∪ l') ;;;
       save_liked_posts ;;;
       ret true)
      (ret false).

(** The inner loop of [check_new_posts]; returns [reposted_count]. *)
Fixpoint repost_statuses (statuses : list status) (reposted_count : Z) : M Z :=
  match statuses with
  | [] => ret reposted_count
  | s :: rest =>
      b <- repost_status s ;;
      repost_statuses rest (if b then reposted_count + 1 else reposted_count)
  end.

Fixpoint check_new_posts_loop (handles : list string) : M unit :=
  match handles with
  | [] => ret tt
  | account_handle :: rest =>
      account_id <- get_account_id account_handle ;;
      match account_id with
      | Some a =>
          if String.eqb a "" then check_new_posts_loop rest
          else
            try_api
              (statuses <- call (account_statuses mastodon a
                                   (exclude_replies cfg) (exclude_reblogs cfg)) ;;
               _ <- repost_statuses statuses 0 ;;
               ret tt)
              (ret tt) ;;;
            check_new_posts_loop rest
      | None => check_new_posts_loop rest
      end
  end.

(** [check_new_posts]. *)
Definition check_new_posts : M unit :=
  check_new_posts_loop (accounts_to_monitor cfg).

(** The inner loop of [check_likes] over the statuses of one like rule,
    threading [liked_count]; [break] when the quota is reached. *)
Fixpoint like_statuses (like_config : Like.rule) (statuses : list status)
    (liked_count : Z) : M Z :=
  match statuses with
  | [] => ret liked_count
  | s :: rest =>
      if max_likes_per_check cfg <=? liked_count then ret liked_count
      else if should_like s like_config then
        b <- like_status s ;;
        like_statuses like_config rest (if b then liked_count + 1 else liked_count)
      else like_statuses like_config rest liked_count
  end.

(** The outer loop of [check_likes] over the like rules.  A
    [MastodonAPIError] caught by the [try] can only come from
    [account_statuses], before [liked_count] is touched ([_like_status]
    catches its own), so the handler resumes with the count held before
    the [try]. *)
Fixpoint check_likes_loop (rules : list Like.rule) (liked_count : Z) : M Z :=
  match rules with
  | [] => ret liked_count
  | like_config :: rest =>
      account_id <- get_account_id (Like.account like_config) ;;
      match account_id with
      | Some a =>
          if String.eqb a "" then check_likes_loop rest liked_count
          else if max_likes_per_check cfg <=? liked_count then ret liked_count
          else
            c <- try_api
                   (statuses <- call (account_statuses mastodon a
                                        (Like.exclude_replies like_config) false) ;;
                    like_statuses like_config statuses liked_count)
                   (ret liked_count) ;;
            check_likes_loop rest c
      | None => check_likes_loop rest liked_count
      end
  end.

(** [check_likes], returning the final [liked_count]. *)
Definition check_likes : M Z :=
  match like_accounts cfg with
  | [] => ret 0
  | rules => check_likes_loop rules 0
  end.

(** The loop of [check_follow_back]; returns [followed_count]. *)
Fixpoint follow_all (followers : list (string * string)) (followed_count : Z) : M Z :=
  match followers with
  | [] => ret followed_count
  | (account_id, _) :: rest =>
      f <- gets followed_accounts ;;
      if bool_decide (HStr account_id ∈ f) then follow_all rest followed_count
      else
        c <- try_api
               (log_action (Follow account_id) ;;;
                call (account_follow mastodon account_id) ;;;
                f' <- gets followed_accounts ;;
                set_followed ({[HStr account_id]} ∪ f') ;;;
                save_followed_accounts ;;;
                ret (followed_count + 1))
               (ret followed_count) ;;
        follow_all rest c
  end.

(** [check_follow_back]. *)
Definition check_follow_back : M unit :=
  if negb (enable_follow_back cfg) then ret tt
  else
    try_api
      (me_id <- call (me mastodon) ;;
       followers <- call (account_followers mastodon me_id) ;;
       match followers with
       | [] => ret tt
       | _ => _ <- follow_all followers 0 ;; ret tt
       end)
      (ret tt).

(** One iteration of the [while True] loop of [run] (before the sleep). *)
Definition run_cycle : M unit :=
  check_new_posts ;;; _ <- check_likes ;; check_follow_back.

(** [run]: the [while True] loop, here for [n] cycles after which the
    operator's [KeyboardInterrupt] (caught, logged) ends it normally; the
    sleep between cycles has no effect on the state.  Any other exception
    is logged and re-raised by [raise], so it leaves [run] unchanged. *)
Fixpoint run_loop (n : nat) : M unit :=
  match n with
  | O => ret tt
  | S n' => run_cycle ;;; run_loop n'
  end.

End Bot.

(* ------------------------------------------------------------------ *)
(** ** Bot start-up: [_init_mastodon] *)

Definition default_instance_url : string := "https://mastodon.social".

(** [key in config] for the value [yaml.safe_load] returned. *)
Definition py_contains (key : string) (container : pyval) : outcome bool :=
  match container with
  | PDict kvs => Ok (match dict_get key kvs with Some _ => true | None => false end)
  | PList l => Ok (existsb (fun v => match v with PStr s => String.eqb s key | _ => false end) l)
  | PStr s => Ok (match String.index 0 key s with Some _ => true | None => false end)
  | _ => Err TypeError
  end.

Definition opt_str_truthy (o : option string) : bool :=
  match o with Some s => negb (String.eqb s "") | None => false end.

(** [_init_mastodon]: the token and the base URL handed to [Mastodon(...)];
    [env] is [os.getenv]. *)
Definition init_mastodon (env : string -> option string) (config : pyval)
    : outcome (string * pyval) :=
  let access_token := env "MASTODON_ACCESS_TOKEN" in
  let instance_url := env "MASTODON_INSTANCE_URL" in
  let resolved :=
    if negb (opt_str_truthy instance_url) then
      match py_contains "mastodon" config with
      | Err e => Err e
      | Ok true =>
          match config with
          | PDict kvs =>
              match dict_get "mastodon" kvs with
              | Some (PDict m) =>
                  Ok (match dict_get "instance_url" m with
                      | Some v => v
                      | None => PStr default_instance_url
                      end)
              | _ => Err AttributeError
              end
          | _ => Err TypeError
          end
      | Ok false => Ok (PStr default_instance_url)
      end
    else Ok (PStr (match instance_url with Some u => u | None => "" end)) in
  match resolved with
  | Err e => Err e
  | Ok url =>
      match access_token with
      | Some t => if String.eqb t "" then Err ValueError else Ok (t, url)
      | None => Err ValueError
      end
  end.

(* ------------------------------------------------------------------ *)
(** ** Web UI ([web_ui.py]) *)

(** [str.isspace()] on the characters of a string, read as Latin-1 code
    points. *)
Definition is_space (c : ascii) : bool :=
  let n := nat_of_ascii c in
  ((9 <=? n) && (n <=? 13))%nat || ((28 <=? n) && (n <=? 32))%nat
  || (n =? 133)%nat || (n =? 160)%nat.

(** Line boundaries of [str.splitlines()]. *)
Definition is_line_break (c : ascii) : bool :=
  let n := nat_of_ascii c in
  ((10 <=? n) && (n <=? 13))%nat || ((28 <=? n) && (n <=? 30))%nat || (n =? 133)%nat.

Fixpoint drop_spaces (l : list ascii) : list ascii :=
  match l with
  | c :: rest => if is_space c then drop_spaces rest else l
  | [] => []
  end.

(** [str.strip()]. *)
Definition strip (s : string) : string :=
  string_of_list_ascii (rev (drop_spaces (rev (drop_spaces (list_ascii_of_string s))))).

(** [str.splitlines()]; [cur] is the current line, reversed, and
    [after_cr] says the previous character was a ["\r"], so that ["\r\n"]
    is a single boundary; a last empty line is not reported. *)
Fixpoint splitlines_aux (s : string) (cur : list ascii) (after_cr : bool)
    : list string :=
  match s with
  | EmptyString =>
      match cur with [] => [] | _ => [string_of_list_ascii (rev cur)] end
  | String c rest =>
      if after_cr && (nat_of_ascii c =? 10)%nat then splitlines_aux rest cur false
      else if is_line_break c then
        string_of_list_ascii (rev cur) :: splitlines_aux rest [] (nat_of_ascii c =? 13)%nat
      else splitlines_aux rest (c :: cur) false
  end.

Definition splitlines (s : string) : list string := splitlines_aux s [] false.

(** [_normalize_accounts]. *)
Definition normalize_accounts (text : string) : list string :=
  let lines := map strip (splitlines text) in
  let accounts := List.filter (fun line => negb (String.eqb line "")) lines in
  (fold_left (fun (acc : list string * gset string) account =>
                let '(unique, seen) := acc in
                if bool_decide (account ∈ seen) then acc
                else (unique ++ [account], {[account]} ∪ seen))
             accounts ([], ∅)).1.

(** [d.pop(k, None)]. *)
Definition dict_remove (k : string) (kvs : list (string * pyval)) : list (string * pyval) :=
  List.filter (fun kv => negb (String.eqb kv.1 k)) kvs.

Definition get_or (d : pyval) (k : string) (kvs : list (string * pyval)) : pyval :=
  match dict_get k kvs with Some v => v | None => d end.

Fixpoint drop_slashes (l : list ascii) : list ascii :=
  match l with
  | c :: rest => if (nat_of_ascii c =? 47)%nat then drop_slashes rest else l
  | [] => []
  end.

(** [s.rstrip('/')]. *)
Definition rstrip_slash (s : string) : string :=
  string_of_list_ascii (rev (drop_slashes (rev (list_ascii_of_string s)))).

(** What a route returns: a redirect to the index page with a status
    message and the error flag, the rendered page, or an uncaught
    exception (an HTTP 500 from Flask). *)
Inductive response :=
| Redirect (status : string) (error : bool)
| Page
| InternalError (e : exn).

(** The web UI's requests (form fields [None] when absent). *)
Inductive request :=
| Index
| SaveInstance (instance_url : option string)
| SaveToken (access_token : option string)
| SaveAccounts (boost_accounts like_accounts : option string).

Definition form_get (field : option string) : string :=
  match field with Some v => v | None => "" end.

(** [yaml.load] of a file. *)
Definition parse_yaml (c : file_content) : outcome pyval :=
  match c with Json v => Ok v | _ => Err YAMLError end.

(** [yaml.load(...) or {}]. *)
Definition or_empty (v : pyval) : pyval := if truthy v then v else PDict [].

(** [v or []]. *)
Definition or_empty' (v : pyval) : pyval := if truthy v then v else PList [].

Section WebUI.
Variables CONFIG_PATH DEFAULT_CONFIG_PATH : string.
(** [requests.get(url, ...)].status_code == 200, [False] on a
    [RequestException]. *)
Variable verify_credentials : string -> string -> bool.
(** [_get_fernet()]'s encryption, [None] when [TOKEN_ENC_KEY] is missing or
    invalid. *)
Variable fernet : option (string -> string).

(** [_save_config]. *)
Definition save_config (config : pyval) (d : gmap string file_content)
    : gmap string file_content :=
  <[CONFIG_PATH := Json config]> d.

(** [_load_config]: the configuration and the disk afterwards (the default
    file is copied to [CONFIG_PATH] when only it exists). *)
Definition load_config (d : gmap string file_content)
    : outcome pyval * gmap string file_content :=
  match d !! CONFIG_PATH with
  | Some c =>
      match parse_yaml c with
      | Ok v => (Ok (or_empty v), d)
      | Err e => (Err e, d)
      end
  | None =>
      match d !! DEFAULT_CONFIG_PATH with
      | Some c =>
          match parse_yaml c with
          | Ok v => (Ok (or_empty v), save_config (or_empty v) d)
          | Err e => (Err e, d)
          end
      | None => (Ok (PDict []), d)
      end
  end.

(** [_get_instance_url]. *)
Definition get_instance_url (config : pyval) : outcome pyval :=
  match config with
  | PDict kvs =>
      match or_empty (get_or (PDict []) "mastodon" kvs) with
      | PDict m => Ok (get_or (PStr "") "instance_url" m)
      | _ => Err AttributeError
      end
  | _ => Err AttributeError
  end.

(** [_validate_token]. *)
Definition validate_token (instance_url : pyval) (token : string) : outcome bool :=
  if negb (truthy instance_url) || String.eqb token "" then Ok false
  else match instance_url with
       | PStr u => Ok (verify_credentials
                         (rstrip_slash u ++ "/api/v1/accounts/verify_credentials") token)
       | _ => Err AttributeError
       end.

(** [config.setdefault("mastodon", {})] for a dictionary [config]: the
    section to update in place. *)
Definition mastodon_section (kvs : list (string * pyval))
    : outcome (list (string * pyval)) :=
  match dict_get "mastodon" kvs with
  | None => Ok []
  | Some (PDict m) => Ok m
  | Some _ => Err TypeError
  end.

(** [save_instance]. *)
Definition save_instance (form : option string) (d : gmap string file_content)
    : response * gmap string file_content :=
  match load_config d with
  | (Err e, d1) => (InternalError e, d1)
  | (Ok config, d1) =>
      let instance_url := strip (form_get form) in
      if String.eqb instance_url "" then (Redirect "Instance URL required." true, d1)
      else
        match config with
        | PDict kvs =>
            match mastodon_section kvs with
            | Err e => (InternalError e, d1)
            | Ok m =>
                let m' := dict_set "token_valid" (PBool false)
                            (dict_set "instance_url" (PStr instance_url) m) in
                (Redirect "Instance saved." false,
                 save_config (PDict (dict_set "mastodon" (PDict m') kvs)) d1)
            end
        | _ => (InternalError AttributeError, d1)
        end
  end.

(** The [try] block of [save_token]: [None] when validation fails, the
    configuration to save otherwise. *)
Definition store_token (config : pyval) (token : string) : outcome (option pyval) :=
  match get_instance_url config with
  | Err e => Err e
  | Ok instance_url =>
      match validate_token instance_url token with
      | Err e => Err e
      | Ok false => Ok None
      | Ok true =>
          match fernet with
          | None => Err RuntimeError
          | Some encrypt =>
              match config with
              | PDict kvs =>
                  match mastodon_section kvs with
                  | Err e => Err e
                  | Ok m =>
                      let m1 := dict_set "access_token_encrypted" (PStr (encrypt token)) m in
                      let m2 := dict_set "token_valid" (PBool true)
                                  (dict_remove "access_token" m1) in
                      Ok (Some (PDict (dict_set "mastodon" (PDict m2) kvs)))
                  end
              | _ => Err AttributeError
              end
          end
      end
  end.

(** [save_token]. *)
Definition save_token (form : option string) (d : gmap string file_content)
    : response * gmap string file_content :=
  let token := strip (form_get form) in
  if String.eqb token "" then (Redirect "Token missing." true, d)
  else
    match load_config d with
    | (Err e, d1) => (InternalError e, d1)
    | (Ok config, d1) =>
        match store_token config token with
        | Err _ => (Redirect "Token save failed." true, d1)
        | Ok None => (Redirect "Token validation failed." true, d1)
        | Ok (Some config') =>
            (Redirect "Token verified and stored." false, save_config config' d1)
        end
    end.

(** The [existing_like_configs] dictionary of [save_accounts], as the list
    of its insertions ([item["account"]], [dict(item)]); a later insertion
    under the same key wins. *)
Definition existing_like_configs (items : list pyval)
    : list (pyval * list (string * pyval)) :=
  flat_map (fun item =>
              match item with
              | PDict m =>
                  match dict_get "account" m with
                  | Some a => if truthy a then [(a, m)] else []
                  | None => []
                  end
              | _ => []
              end) items.

(** The exception of the [existing_like_configs] loop: the first dict item
    whose truthy [account] cannot be a dictionary key (a list or a dict)
    makes [existing_like_configs[item["account"]] = ...] raise. *)
Fixpoint existing_like_error (items : list pyval) : option exn :=
  match items with
  | [] => None
  | PDict m :: rest =>
      match dict_get "account" m with
      | Some a =>
          if truthy a then
            match to_hashable a with
            | Err e => Some e
            | Ok _ => existing_like_error rest
            end
          else existing_like_error rest
      | None => existing_like_error rest
      end
  | _ :: rest => existing_like_error rest
  end.

(** [account in existing_like_configs] and the entry found. *)
Definition lookup_existing (account : string) (ex : list (pyval * list (string * pyval)))
    : option (list (string * pyval)) :=
  match List.filter (fun e => match e.1 with PStr a => String.eqb a account | _ => false end)
               (rev ex) with
  | (_, m) :: _ => Some m
  | [] => None
  end.

Definition new_like_entry (ex : list (pyval * list (string * pyval))) (account : string)
    : pyval :=
  match lookup_existing account ex with
  | Some m => PDict (dict_set "account" (PStr account) m)
  | None => PDict [("account", PStr account); ("like_everything", PBool true)]
  end.

(** [save_accounts]. *)
Definition save_accounts (boost_form like_form : option string)
    (d : gmap string file_content) : response * gmap string file_content :=
  match load_config d with
  | (Err e, d1) => (InternalError e, d1)
  | (Ok (PDict kvs), d1) =>
      match get_or (PDict []) "mastodon" kvs with
      | PDict mastodon_cfg =>
          if negb (truthy (get_or PNone "instance_url" mastodon_cfg)
                   && truthy (get_or PNone "token_valid" mastodon_cfg))
          then (Redirect "Save token first." true, d1)
          else
            let kvs1 :=
              match boost_form with
              | Some text =>
                  dict_set "accounts_to_monitor"
                    (PList (map PStr (normalize_accounts text))) kvs
              | None => kvs
              end in
            match py_iter (or_empty' (get_or (PList []) "likes" kvs1)) with
            | Err e => (InternalError e, d1)
            | Ok items =>
                match existing_like_error items with
                | Some e => (InternalError e, d1)
                | None =>
                    let ex := existing_like_configs items in
                    let kvs2 :=
                      match like_form with
                      | Some text =>
                          dict_set "likes"
                            (PList (map (new_like_entry ex) (normalize_accounts text))) kvs1
                      | None => kvs1
                      end in
                    (Redirect "Accounts saved." false, save_config (PDict kvs2) d1)
                end
            end
      | _ => (InternalError AttributeError, d1)
      end
  | (Ok _, d1) => (InternalError AttributeError, d1)
  end.

(** [_token_status]; a [Fernet] object is always truthy. *)
Definition token_status (config : pyval) : outcome string :=
  match fernet with
  | None => Ok "TOKEN_ENC_KEY missing or invalid."
  | Some _ =>
      match config with
      | PDict kvs =>
          match get_or (PDict []) "mastodon" kvs with
          | PDict mastodon_cfg =>
              if truthy (get_or PNone "access_token_encrypted" mastodon_cfg)
              then Ok "Token stored (encrypted)."
              else if truthy (get_or PNone "access_token" mastodon_cfg)
              then Ok "Token stored (plain text)."
              else Ok "No token stored yet."
          | _ => Err AttributeError
          end
      | _ => Err AttributeError
      end
  end.

(** The values [index] hands to the template. *)
Record page := mkPage {
  page_instance_url : pyval;
  page_boost_accounts : pyval;
  page_like_accounts : list pyval;
  page_token_status : string;
  page_can_edit_accounts : bool
}.

(** The [for item in config.get("likes", []) or []] loop of [index]. *)
Definition like_account_names (items : list pyval) : list pyval :=
  flat_map (fun item =>
              match item with
              | PDict m =>
                  match dict_get "account" m with
                  | Some a => if truthy a then [a] else []
                  | None => []
                  end
              | _ => []
              end) items.

(** [index] with the page it renders ([index] below keeps only its
    response and its effect on the disk); the [status] and [error] query
    arguments are passed through to the template unchanged and left out. *)
Definition index_view (d : gmap string file_content)
    : outcome page * gmap string file_content :=
  match load_config d with
  | (Err e, d1) => (Err e, d1)
  | (Ok (PDict kvs), d1) =>
      let boost_accounts := or_empty' (get_or (PList []) "accounts_to_monitor" kvs) in
      match py_iter (or_empty' (get_or (PList []) "likes" kvs)) with
      | Err e => (Err e, d1)
      | Ok items =>
          let like_accounts := like_account_names items in
          match get_or (PDict []) "mastodon" kvs with
          | PDict mastodon_cfg =>
              let can_edit_accounts :=
                truthy (get_or PNone "instance_url" mastodon_cfg)
                && truthy (get_or PNone "token_valid" mastodon_cfg) in
              match get_instance_url (PDict kvs) with
              | Err e => (Err e, d1)
              | Ok instance_url =>
                  match token_status (PDict kvs) with
                  | Err e => (Err e, d1)
                  | Ok ts =>
                      (Ok (mkPage instance_url boost_accounts like_accounts ts
                             can_edit_accounts), d1)
                  end
              end
          | _ => (Err AttributeError, d1)
          end
      end
  | (Ok _, d1) => (Err AttributeError, d1)
  end.

(** [index]: renders the page built by [index_view]; only [_load_config]
    touches the disk. *)
Definition index (d : gmap string file_content) : response * gmap string file_content :=
  match index_view d with
  | (Err e, d1) => (InternalError e, d1)
  | (Ok _, d1) => (Page, d1)
  end.

(** Dispatch of a request to its route. *)
Definition handle (r : request) (d : gmap string file_content)
    : response * gmap string file_content :=
  match r with
  | Index => index d
  | SaveInstance u => save_instance u d
  | SaveToken t => save_token t d
  | SaveAccounts b l => save_accounts b l d
  end.
End WebUI.


(* ================================================================== *)
(** * Properties *)

(* ------------------------------------------------------------------ *)
(** ** Filter engine *)

Lemma existsb_lower_in (hs : list string) (X : gset string) :
  existsb (fun tag => bool_decide (lower tag ∈ X)) hs = true <->
  exists t, In t hs /\ lower t ∈ X.
Proof.
  rewrite existsb_exists. split.
  - intros [t [Hin Hb]]. exists t. split; [exact Hin|]. by apply bool_decide_eq_true in Hb.
  - intros [t [Hin Hx]]. exists t. split; [exact Hin|]. by apply bool_decide_eq_true.
Qed.

Lemma elem_of_extract_hashtags (s : status) (x : string) :
  x ∈ extract_hashtags s <-> exists u, In u (tags s) /\ x = lower u.
Proof.
  unfold extract_hashtags. rewrite elem_of_list_to_set, list_elem_of_In, in_map_iff.
  split; intros [u [H1 H2]]; exists u; auto.
Qed.

Lemma length_zero_iff {A} (l : list A) : (List.length l =? 0)%nat = true <-> l = [].
Proof. destruct l; simpl; split; congruence. Qed.

Lemma should_like_unfold (s : status) (r : Like.rule) :
  Like.like_everything r = false ->
  should_like s r =
  negb (Like.exclude_replies r && truthy (in_reply_to_id s)) &&
  negb (Like.require_media r && negb (media_truthy s)) &&
  ((List.length (Like.hashtags r) =? 0)%nat ||
   existsb (fun tag => bool_decide (lower tag ∈ extract_hashtags s)) (Like.hashtags r)).
Proof.
  intros H. unfold should_like. rewrite H.
  destruct (Like.exclude_replies r && truthy (in_reply_to_id s)); [reflexivity|].
  destruct (Like.require_media r && negb (media_truthy s)); [reflexivity|].
  destruct ((List.length (Like.hashtags r) =? 0)%nat); [reflexivity|].
  destruct (existsb _ _); reflexivity.
Qed.

Lemma media_truthy_false (s : status) :
  media_truthy s = false <-> media_attachments s = [].
Proof.
  unfold media_truthy. destruct (media_attachments s); simpl; split; congruence.
Qed.

Lemma hashtag_match_iff (s : status) (hs : list string) :
  ((List.length hs =? 0)%nat ||
   existsb (fun tag => bool_decide (lower tag ∈ extract_hashtags s)) hs) = true <->
  (hs <> [] -> exists t u, In t hs /\ In u (tags s) /\ lower t = lower u).
Proof.
  rewrite orb_true_iff, length_zero_iff, existsb_lower_in. split.
  - intros [Hn | [t [Ht Hx]]] Hne; [contradiction|].
    apply elem_of_extract_hashtags in Hx as [u [Hu Heq]]. eauto.
  - intros Himp. destruct hs as [|h hs]; [left; reflexivity|]. right.
    destruct Himp as [t [u [Ht [Hu Heq]]]]; [discriminate|].
    exists t. split; [exact Ht|]. apply elem_of_extract_hashtags. eauto.
Qed.

(** C1: [_should_like] returns [True] at once for a [like_everything] rule;
    otherwise it rejects replies under [exclude_replies], statuses without
    media under [require_media], and, when the rule lists hashtags,
    statuses whose lower-cased tags share none with the lower-cased rule
    hashtags; it accepts everything else, so a rule with no flags and no
    hashtags accepts every status. *)
Theorem should_like_conditions :
  (forall (s : status) (r : Like.rule),
      Like.like_everything r = true -> should_like s r = true) /\
  (forall (s : status) (r : Like.rule),
      Like.like_everything r = false ->
      (should_like s r = true <->
       ~ (Like.exclude_replies r = true /\ truthy (in_reply_to_id s) = true) /\
       ~ (Like.require_media r = true /\ media_attachments s = []) /\
       (Like.hashtags r <> [] ->
        exists t u, In t (Like.hashtags r) /\ In u (tags s) /\ lower t = lower u))) /\
  (forall (s : status) (acct : string),
      should_like s (Like.mkRule acct false false false []) = true).
Proof.
  split; [|split].
  - intros s r H. unfold should_like. by rewrite H.
  - intros s r H. rewrite (should_like_unfold s r H), !andb_true_iff,
      !negb_true_iff, !andb_false_iff, hashtag_match_iff.
    unfold media_truthy.
    destruct (Like.exclude_replies r), (truthy (in_reply_to_id s)),
      (Like.require_media r), (media_attachments s); simpl; intuition (try congruence).
  - intros s acct. reflexivity.
Qed.

(** C2: [_should_repost] returns [False] exactly when one enabled
    exclusion matches (a reply under [exclude_replies], a reblog under
    [exclude_reblogs], a status without media under [boost_only]), and
    [True] exactly when none does. *)
Theorem should_repost_exclusions (cfg : bot_config) (s : status) :
  (should_repost cfg s = false <->
   (exclude_replies cfg = true /\ truthy (in_reply_to_id s) = true) \/
   (exclude_reblogs cfg = true /\ reblog s <> None) \/
   (boost_only cfg = true /\ media_attachments s = [])) /\
  (should_repost cfg s = true <->
   ~ ((exclude_replies cfg = true /\ truthy (in_reply_to_id s) = true) \/
      (exclude_reblogs cfg = true /\ reblog s <> None) \/
      (boost_only cfg = true /\ media_attachments s = []))).
Proof.
  unfold should_repost, reblog_truthy, media_truthy.
  destruct (exclude_replies cfg), (truthy (in_reply_to_id s)),
    (exclude_reblogs cfg), (reblog s), (boost_only cfg), (media_attachments s);
    simpl; intuition congruence.
Qed.

(** The same rule with other hashtags, the same status with other tags. *)
Definition with_hashtags (r : Like.rule) (hs : list string) : Like.rule :=
  Like.mkRule (Like.account r) (Like.like_everything r) (Like.exclude_replies r)
    (Like.require_media r) hs.

Definition with_tags (s : status) (ts : list string) : status :=
  mkStatus (status_id s) (account_acct s) (content s) (in_reply_to_id s)
    (reblog s) (media_attachments s) ts.

(** Two lists of names with the same [str.lower()] forms, element by
    element. *)
Definition same_up_to_case (l l' : list string) : Prop :=
  Forall2 (fun a b => lower a = lower b) l l'.

Lemma same_up_to_case_map (l l' : list string) :
  same_up_to_case l l' -> map lower l = map lower l'.
Proof. induction 1; simpl; congruence. Qed.

Lemma existsb_lower_map (X : gset string) (l : list string) :
  existsb (fun tag => bool_decide (lower tag ∈ X)) l =
  existsb (fun t => bool_decide (t ∈ X)) (map lower l).
Proof. induction l; simpl; congruence. Qed.

(** The German sharp s, U+00DF. *)
Definition sharp_s : string := String (ascii_of_nat 223) EmptyString.

(** C8 (counterexample): the upper case of the tag [sharp_s] is [SS]
    ([str.upper()]), but [str.lower()] leaves [sharp_s] as it is, so a rule
    requiring ["ss"] rejects a status tagged [sharp_s] and accepts the same
    status tagged [SS]: changing the case of a tag changed the verdict. *)
Lemma sharp_s_upper_changes_match :
  upper sharp_s = Some "SS"%string /\
  should_like (mkStatus "1" "a" "" PNone None [] [sharp_s])
              (Like.mkRule "a" false false false ["ss"%string]) = false /\
  should_like (mkStatus "1" "a" "" PNone None [] ["SS"%string])
              (Like.mkRule "a" false false false ["ss"%string]) = true.
Proof. split; [|split]; vm_compute; reflexivity. Qed.

(** C8 (amended): hashtag matching in [_should_like] is exact set
    intersection of the [str.lower()] forms: replacing rule hashtags or
    status tags by names with the same lower-case forms does not change the
    verdict; a rule requiring ["Rust"] matches a status tagged [rust]; a
    hashtag rule accepts only statuses with a tag whose lower-case form
    equals that of one of its hashtags, so [rust] does not match
    [rustlang]. *)
Theorem hashtag_matching_case_insensitive :
  (forall (s : status) (r : Like.rule) (hs ts : list string),
      same_up_to_case (Like.hashtags r) hs -> same_up_to_case (tags s) ts ->
      should_like (with_tags s ts) (with_hashtags r hs) = should_like s r) /\
  (forall (s : status) (acct : string),
      In "rust"%string (tags s) ->
      should_like s (Like.mkRule acct false false false ["Rust"%string]) = true) /\
  (forall (s : status) (r : Like.rule),
      Like.like_everything r = false -> Like.hashtags r <> [] ->
      should_like s r = true ->
      exists t u, In t (Like.hashtags r) /\ In u (tags s) /\ lower t = lower u) /\
  should_like (mkStatus "1" "a" "" PNone None [] ["rustlang"%string])
              (Like.mkRule "a" false false false ["rust"%string]) = false.
Proof.
  split; [|split; [|split]].
  - intros s r hs ts Hh Ht.
    destruct (Like.like_everything r) eqn:He.
    + unfold should_like; simpl. by rewrite He.
    + rewrite (should_like_unfold s r He).
      rewrite (should_like_unfold (with_tags s ts) (with_hashtags r hs) He).
      simpl.
      assert (Hx : extract_hashtags (with_tags s ts) = extract_hashtags s).
      { unfold extract_hashtags; simpl. by rewrite (same_up_to_case_map _ _ Ht). }
      rewrite Hx, !existsb_lower_map, (same_up_to_case_map _ _ Hh).
      by rewrite (Forall2_length _ _ _ Hh).
  - intros s acct Hin. unfold should_like; simpl.
    assert (H : "rust"%string ∈ extract_hashtags s).
    { apply elem_of_extract_hashtags. exists "rust"%string. split; [exact Hin|reflexivity]. }
    change (lower "Rust") with "rust"%string.
    by rewrite (bool_decide_eq_true_2 _ H).
  - intros s r He Hne Hl.
    rewrite (should_like_unfold s r He) in Hl.
    apply andb_true_iff in Hl as [_ Hl].
    exact (proj1 (hashtag_match_iff s _) Hl Hne).
  - reflexivity.
Qed.

(* ------------------------------------------------------------------ *)
(** ** Dedup sets *)

(** C4: an id already in its dedup set is skipped without any remote
    call: [_repost_status] and [_like_status] return [False] and leave the
    whole bot state (sets, files, action log) as it was; in the repost,
    like and follow-back loops the step for such an id is a no-op, so a
    batch of already-processed statuses changes nothing. *)
Theorem dedup_skips_known_ids :
  (forall cfg mastodon (s : status) (st : bot_state),
      HStr (status_id s) ∈ processed_posts st ->
      repost_status cfg mastodon s st = (Ok false, st)) /\
  (forall cfg mastodon (ss : list status) (c : Z) (st : bot_state),
      Forall (fun s => HStr (status_id s) ∈ processed_posts st) ss ->
      repost_statuses cfg mastodon ss c st = (Ok c, st)) /\
  (forall mastodon (s : status) (st : bot_state),
      HStr (status_id s) ∈ liked_posts st ->
      like_status mastodon s st = (Ok false, st)) /\
  (forall cfg mastodon (r : Like.rule) (s : status) (rest : list status) (c : Z)
          (st : bot_state),
      HStr (status_id s) ∈ liked_posts st ->
      like_statuses cfg mastodon r (s :: rest) c st =
      like_statuses cfg mastodon r rest c st) /\
  (forall mastodon (aid acct : string) (rest : list (string * string)) (c : Z)
          (st : bot_state),
      HStr aid ∈ followed_accounts st ->
      follow_all mastodon ((aid, acct) :: rest) c st = follow_all mastodon rest c st).
Proof.
  assert (Hrep : forall cfg mastodon (s : status) (st : bot_state),
             HStr (status_id s) ∈ processed_posts st ->
             repost_status cfg mastodon s st = (Ok false, st)).
  { intros cfg mastodon s st H. unfold repost_status, bind, gets; simpl.
    by rewrite (bool_decide_eq_true_2 _ H). }
  assert (Hlike : forall mastodon (s : status) (st : bot_state),
             HStr (status_id s) ∈ liked_posts st ->
             like_status mastodon s st = (Ok false, st)).
  { intros mastodon s st H. unfold like_status, bind, gets; simpl.
    by rewrite (bool_decide_eq_true_2 _ H). }
  split; [exact Hrep|split; [|split; [exact Hlike|split]]].
  - intros cfg mastodon ss. induction ss as [|s ss IH]; intros c st Hall.
    + reflexivity.
    + inversion Hall as [|? ? Hs Hrest]; subst.
      simpl. unfold bind at 1. rewrite (Hrep _ _ _ _ Hs). by apply IH.
  - intros cfg mastodon r s rest c st H. simpl.
    destruct (max_likes_per_check cfg <=? c) eqn:Hmax.
    + destruct rest; simpl; [reflexivity|]. by rewrite Hmax.
    + destruct (should_like s r); [|reflexivity].
      unfold bind at 1. by rewrite (Hlike _ _ _ H).
  - intros mastodon aid acct rest c st H. simpl. unfold bind at 1, gets.
    by rewrite (bool_decide_eq_true_2 _ H).
Qed.

Lemma hash_all_of_hashable (l : list hashable) :
  hash_all (map of_hashable l) = Ok l.
Proof. induction l as [|[] l IH]; simpl; rewrite ?IH; reflexivity. Qed.

Lemma read_ids_dump (d : gmap string file_content) (fname key : string)
    (s cur : gset hashable) :
  read_ids (<[fname := dump_ids key s]> d) fname key cur = Ok s.
Proof.
  unfold read_ids, dump_ids. rewrite lookup_insert_eq. simpl.
  rewrite String.eqb_refl. unfold py_set. simpl.
  rewrite hash_all_of_hashable. by rewrite list_to_set_elements_L.
Qed.

(** C7: saving a dedup set and loading the file back gives the same set,
    for each of the three files and every set, the empty one included:
    the loader run on any bot state whose disk is the one left by the save
    sets its field to the saved set. *)
Theorem save_load_roundtrip :
  forall (st : bot_state) (p l f : gset hashable) (a : list action),
    load_liked_posts (mkBotState p l f (disk (save_liked_posts st).2) a) =
      (Ok tt, mkBotState p (liked_posts st) f (disk (save_liked_posts st).2) a) /\
    load_processed_posts (mkBotState p l f (disk (save_processed_posts st).2) a) =
      (Ok tt, mkBotState (processed_posts st) l f (disk (save_processed_posts st).2) a) /\
    load_followed_accounts (mkBotState p l f (disk (save_followed_accounts st).2) a) =
      (Ok tt, mkBotState p l (followed_accounts st) (disk (save_followed_accounts st).2) a).
Proof.
  intros st p l f a. split; [|split].
  - unfold load_liked_posts. simpl. by rewrite read_ids_dump.
  - unfold load_processed_posts. simpl. by rewrite read_ids_dump.
  - unfold load_followed_accounts. simpl. by rewrite read_ids_dump.
Qed.

(** A bot state whose liked-posts file holds the given content. *)
Definition state_with_liked_file (c : file_content) : bot_state :=
  mkBotState ∅ ∅ ∅ (<[liked_file := c]> ∅) [].

(** C5 (counterexample): a [liked_posts.json] holding the valid JSON
    document [[]] makes [_load_liked_posts] raise [AttributeError] ([list]
    has no [get]); one holding [{"posts": [5]}] loads the integer [5], not
    a string id. *)
Lemma load_malformed_raises :
  (load_liked_posts (state_with_liked_file (Json (PList [])))).1 = Err AttributeError /\
  (load_liked_posts (state_with_liked_file (Json (PDict [("posts"%string, PList [PInt 5])])))).2
    = mkBotState ∅ {[HInt 5]} ∅ (<[liked_file := Json (PDict [("posts"%string, PList [PInt 5])])]> ∅) [].
Proof. split; vm_compute; reflexivity. Qed.

(** A JSON value [set()] can hash: anything but an array or an object. *)
Definition json_scalar (v : pyval) : bool :=
  match v with PList _ | PDict _ => false | _ => true end.

Lemma hash_all_scalars (l : list pyval) :
  (forall v, In v l -> json_scalar v = true) ->
  exists hs, hash_all l = Ok hs /\
             forall h, In h hs <-> exists v, In v l /\ to_hashable v = Ok h.
Proof.
  induction l as [|v l IH]; intros Hs.
  - exists []. split; [reflexivity|]. intros h. split; [intros []|intros (v & [] & _)].
  - destruct IH as (hs & Hh & Hin); [intros w Hw; apply Hs; by right|].
    assert (Hv : json_scalar v = true) by (apply Hs; by left).
    destruct (to_hashable v) as [x|e] eqn:Ex; [|by destruct v].
    exists (x :: hs). simpl. rewrite Ex, Hh. split; [reflexivity|].
    intros h. simpl. rewrite Hin. split.
    + intros [<-|(w & Hw & Hw')]; [by exists v; auto|by exists w; auto].
    + intros (w & [<-|Hw] & Hw'); [left; congruence|right; by exists w].
Qed.

Lemma hash_all_nested (l : list pyval) :
  (exists v, In v l /\ json_scalar v = false) -> hash_all l = Err TypeError.
Proof.
  induction l as [|v l IH]; intros (w & Hw & Hs); [destruct Hw|].
  simpl. destruct Hw as [->|Hw].
  - by destruct w.
  - destruct (to_hashable v) as [x|e] eqn:Ex.
    + rewrite IH; [reflexivity|by exists w].
    + destruct v; try discriminate; by injection Ex as <-.
Qed.

Lemma hash_all_chars (t : string) :
  hash_all (string_chars t)
  = Ok (map (fun c => HStr (String c EmptyString)) (list_ascii_of_string t)).
Proof. induction t as [|c t IH]; simpl; [reflexivity|by rewrite IH]. Qed.

Lemma hash_all_keys (m : list (string * pyval)) :
  hash_all (map (fun kv => PStr kv.1) m) = Ok (map (fun kv => HStr kv.1) m).
Proof. induction m as [|kv m IH]; simpl; [reflexivity|by rewrite IH]. Qed.

(** C5 (amended): the loaders ([read_ids] with the file and key of
    [_load_processed_posts], [_load_liked_posts] or
    [_load_followed_accounts]) keep the set held so far (empty at start-up)
    when the file is missing and give the empty set when the file's text is
    not JSON.  When the file holds a JSON object they give [set(v)] of the
    value [v] under the key, the empty set when the key is absent: the
    entries of an array of strings, more generally the hashed entries of an
    array of strings, numbers, booleans and nulls, the one-character strings
    of a string, the keys of an object.  They raise [ValueError] when the
    bytes are not text in the file encoding, [AttributeError] when the JSON
    document is not an object, and [TypeError] when the value under the key
    is a number, boolean or null or is an array with an array or object
    among its entries. *)
Theorem load_ids_outcomes :
  forall (d : gmap string file_content) (fname key : string) (cur : gset hashable),
    (d !! fname = None -> read_ids d fname key cur = Ok cur) /\
    (d !! fname = Some NotJson -> read_ids d fname key cur = Ok ∅) /\
    (forall kvs ids, d !! fname = Some (Json (PDict kvs)) ->
       dict_get key kvs = Some (PList (map PStr ids)) ->
       read_ids d fname key cur = Ok (list_to_set (map HStr ids))) /\
    (forall kvs l, d !! fname = Some (Json (PDict kvs)) ->
       dict_get key kvs = Some (PList l) ->
       (forall v, In v l -> json_scalar v = true) ->
       exists ids, read_ids d fname key cur = Ok ids /\
         forall h, h ∈ ids <-> exists v, In v l /\ to_hashable v = Ok h) /\
    (forall kvs t, d !! fname = Some (Json (PDict kvs)) ->
       dict_get key kvs = Some (PStr t) ->
       read_ids d fname key cur
       = Ok (list_to_set (map (fun c => HStr (String c EmptyString)) (list_ascii_of_string t)))) /\
    (forall kvs m, d !! fname = Some (Json (PDict kvs)) ->
       dict_get key kvs = Some (PDict m) ->
       read_ids d fname key cur = Ok (list_to_set (map (fun kv => HStr kv.1) m))) /\
    (forall kvs, d !! fname = Some (Json (PDict kvs)) -> dict_get key kvs = None ->
       read_ids d fname key cur = Ok ∅) /\
    (d !! fname = Some BadEncoding -> read_ids d fname key cur = Err ValueError) /\
    (forall v, d !! fname = Some (Json v) -> (forall kvs, v <> PDict kvs) ->
       read_ids d fname key cur = Err AttributeError) /\
    (forall kvs v, d !! fname = Some (Json (PDict kvs)) -> dict_get key kvs = Some v ->
       (v = PNone \/ (exists b, v = PBool b) \/ (exists z, v = PInt z)) ->
       read_ids d fname key cur = Err TypeError) /\
    (forall kvs l, d !! fname = Some (Json (PDict kvs)) ->
       dict_get key kvs = Some (PList l) ->
       (exists v, In v l /\ json_scalar v = false) ->
       read_ids d fname key cur = Err TypeError).
Proof.
  intros d fname key cur. unfold read_ids.
  split; [intros H; by rewrite H|].
  split; [intros H; by rewrite H|].
  split.
  { intros kvs ids H Hk. rewrite H, Hk. unfold py_set. simpl.
    assert (Hh : hash_all (map PStr ids) = Ok (map HStr ids))
      by (clear; induction ids as [|i ids IH]; simpl; rewrite ?IH; reflexivity).
    by rewrite Hh. }
  split.
  { intros kvs l H Hk Hs. rewrite H, Hk. unfold py_set. simpl.
    destruct (hash_all_scalars l Hs) as (hs & Hh & Hin). rewrite Hh.
    eexists. split; [reflexivity|]. intros h. by rewrite elem_of_list_to_set, list_elem_of_In. }
  split.
  { intros kvs t H Hk. rewrite H, Hk. unfold py_set. simpl. by rewrite hash_all_chars. }
  split.
  { intros kvs m H Hk. rewrite H, Hk. unfold py_set. simpl. by rewrite hash_all_keys. }
  split; [intros kvs H Hk; rewrite H, Hk; reflexivity|].
  split; [intros H; by rewrite H|].
  split.
  { intros v H Hv. rewrite H. destruct v; try reflexivity. exfalso. by apply (Hv kvs). }
  split.
  { intros kvs v H Hk Hv. rewrite H, Hk.
    destruct Hv as [-> | [[b ->] | [z ->]]]; reflexivity. }
  intros kvs l H Hk Hn. rewrite H, Hk. unfold py_set. simpl. by rewrite hash_all_nested.
Qed.

(* ------------------------------------------------------------------ *)
(** ** Start-up configuration *)

Definition no_env : string -> option string := fun _ => None.

Definition config_with_token : pyval :=
  PDict [("mastodon"%string,
          PDict [("instance_url"%string, PStr "https://example.social");
                 ("access_token"%string, PStr "tok")])].

(** C9 (counterexample): with no environment variables and a configuration
    file holding both [mastodon.instance_url] and [mastodon.access_token],
    [_init_mastodon] raises [ValueError]: the file's credential is not
    used. *)
Lemma init_ignores_config_token :
  init_mastodon no_env config_with_token = Err ValueError.
Proof. reflexivity. Qed.

(** C9 (amended): [_init_mastodon] takes the access token only from
    [MASTODON_ACCESS_TOKEN]; the configuration file's token is never used.
    When the variable is unset or empty, it raises [ValueError], unless
    resolving the instance URL from the configuration raises first: with
    [MASTODON_INSTANCE_URL] unset or empty, [AttributeError] when the
    configuration's [mastodon] entry is not a mapping, and for a
    configuration that is not a mapping whatever [key in config] and
    [config['mastodon']] raise ([TypeError] for an empty file, a number or
    a boolean, and for a list or string containing ["mastodon"]; a list or
    string without it falls back to the default URL, and then
    [ValueError]).  The instance URL is [MASTODON_INSTANCE_URL] when that
    is set and non-empty; otherwise it is [mastodon.instance_url] of the
    configuration file, or [https://mastodon.social] when the file has no
    [mastodon] section or the section has no [instance_url]. *)
Theorem init_mastodon_sources :
  (forall (env : string -> option string) (config : pyval),
      opt_str_truthy (env "MASTODON_ACCESS_TOKEN") = false ->
      opt_str_truthy (env "MASTODON_INSTANCE_URL") = true ->
      init_mastodon env config = Err ValueError) /\
  (forall (env : string -> option string) (kvs : list (string * pyval)),
      opt_str_truthy (env "MASTODON_ACCESS_TOKEN") = false ->
      (dict_get "mastodon" kvs = None \/ exists m, dict_get "mastodon" kvs = Some (PDict m)) ->
      init_mastodon env (PDict kvs) = Err ValueError) /\
  (forall (env : string -> option string) (kvs : list (string * pyval)) (v : pyval),
      opt_str_truthy (env "MASTODON_ACCESS_TOKEN") = false ->
      opt_str_truthy (env "MASTODON_INSTANCE_URL") = false ->
      dict_get "mastodon" kvs = Some v -> (forall m, v <> PDict m) ->
      init_mastodon env (PDict kvs) = Err AttributeError) /\
  (forall (env : string -> option string) (config : pyval),
      opt_str_truthy (env "MASTODON_ACCESS_TOKEN") = false ->
      opt_str_truthy (env "MASTODON_INSTANCE_URL") = false ->
      (forall kvs, config <> PDict kvs) ->
      init_mastodon env config =
        Err (match py_contains "mastodon" config with
             | Ok true => TypeError
             | Ok false => ValueError
             | Err e => e
             end)) /\
  (forall (env : string -> option string) (z : Z) (b : bool),
      opt_str_truthy (env "MASTODON_ACCESS_TOKEN") = false ->
      opt_str_truthy (env "MASTODON_INSTANCE_URL") = false ->
      init_mastodon env PNone = Err TypeError /\
      init_mastodon env (PInt z) = Err TypeError /\
      init_mastodon env (PBool b) = Err TypeError) /\
  (forall (env : string -> option string) (config : pyval) (t u : string),
      env "MASTODON_ACCESS_TOKEN" = Some t -> t <> ""%string ->
      env "MASTODON_INSTANCE_URL" = Some u -> u <> ""%string ->
      init_mastodon env config = Ok (t, PStr u)) /\
  (forall (env : string -> option string) (kvs m : list (string * pyval)) (t : string),
      env "MASTODON_ACCESS_TOKEN" = Some t -> t <> ""%string ->
      opt_str_truthy (env "MASTODON_INSTANCE_URL") = false ->
      dict_get "mastodon" kvs = Some (PDict m) ->
      init_mastodon env (PDict kvs) =
        Ok (t, get_or (PStr default_instance_url) "instance_url" m)) /\
  (forall (env : string -> option string) (kvs : list (string * pyval)) (t : string),
      env "MASTODON_ACCESS_TOKEN" = Some t -> t <> ""%string ->
      opt_str_truthy (env "MASTODON_INSTANCE_URL") = false ->
      dict_get "mastodon" kvs = None ->
      init_mastodon env (PDict kvs) = Ok (t, PStr default_instance_url)).
Proof.
  assert (Htok : forall (env : string -> option string) (r : outcome pyval),
             opt_str_truthy (env "MASTODON_ACCESS_TOKEN") = false ->
             match r with
             | Err e => Err e
             | Ok url =>
                 match env "MASTODON_ACCESS_TOKEN" with
                 | Some t => if String.eqb t "" then Err ValueError else Ok (t, url)
                 | None => Err ValueError
                 end
             end = match r with Err e => Err e | Ok _ => Err ValueError end).
  { intros env r H. destruct r as [url|e]; [|reflexivity].
    destruct (env "MASTODON_ACCESS_TOKEN") as [t|]; simpl in H; [|reflexivity].
    apply negb_false_iff in H. by rewrite H. }
  split; [|split; [|split; [|split; [|split; [|split; [|split]]]]]].
  - intros env config Ht Hu. unfold init_mastodon. rewrite Htok by exact Ht.
    by rewrite Hu.
  - intros env kvs Ht Hm. unfold init_mastodon. rewrite Htok by exact Ht.
    destruct (opt_str_truthy (env "MASTODON_INSTANCE_URL")); [reflexivity|].
    simpl. destruct Hm as [-> | [m ->]]; reflexivity.
  - intros env kvs v Ht Hu Hm Hv. unfold init_mastodon. rewrite Htok by exact Ht.
    rewrite Hu. simpl. rewrite Hm. destruct v; try reflexivity. exfalso. eapply Hv; reflexivity.
  - intros env config Ht Hu Hc. unfold init_mastodon. rewrite Htok by exact Ht.
    rewrite Hu. simpl.
    destruct (py_contains "mastodon" config) as [[]|e]; try reflexivity.
    destruct config; try reflexivity. exfalso. eapply Hc; reflexivity.
  - intros env z b Ht Hu. unfold init_mastodon. rewrite !Htok by exact Ht.
    rewrite Hu. split; [reflexivity|split; reflexivity].
  - intros env config t u Ht Htne Hu Hune. unfold init_mastodon.
    rewrite Ht, Hu. simpl.
    apply String.eqb_neq in Hune. rewrite Hune. simpl.
    apply String.eqb_neq in Htne. by rewrite Htne.
  - intros env kvs m t Ht Htne Hu Hm. unfold init_mastodon.
    rewrite Ht, Hu. simpl. rewrite Hm.
    apply String.eqb_neq in Htne. rewrite Htne.
    unfold get_or. by destruct (dict_get "instance_url" m).
  - intros env kvs t Ht Htne Hu Hm. unfold init_mastodon.
    rewrite Ht, Hu. simpl. rewrite Hm.
    apply String.eqb_neq in Htne. by rewrite Htne.
Qed.

(* ------------------------------------------------------------------ *)
(** ** Like-phase quota *)

(** Number of favourite calls in an action log. *)
Definition nfav (l : list action) : nat :=
  List.length (List.filter (fun a => match a with Favourite _ => true | _ => false end) l).

Lemma nfav_cons_fav (i : string) (l : list action) :
  nfav (Favourite i :: l) = S (nfav l).
Proof. reflexivity. Qed.

Lemma get_account_id_state mastodon (h : string) (st : bot_state) :
  exists o, get_account_id mastodon h st = (o, st).
Proof.
  unfold get_account_id, try_api, bind, call.
  destruct (account_search mastodon h) as [[|a rs]|e]; simpl; eauto.
  destruct (is_api_error e); eauto.
Qed.

(** [_like_status] for a status not yet liked, when the favourite call
    succeeds. *)
Lemma like_status_new mastodon (s : status) (st : bot_state) :
  HStr (status_id s) ∉ liked_posts st ->
  status_favourite mastodon (status_id s) = Ok tt ->
  like_status mastodon s st =
  (Ok true,
   mkBotState (processed_posts st) ({[HStr (status_id s)]} ∪ liked_posts st)
     (followed_accounts st)
     (<[liked_file := dump_ids "posts" ({[HStr (status_id s)]} ∪ liked_posts st)]> (disk st))
     (Favourite (status_id s) :: actions st)).
Proof.
  intros Hn Hf. unfold like_status, bind, gets; simpl.
  rewrite (bool_decide_eq_false_2 _ Hn). unfold try_api, bind, log_action, modify, call.
  simpl. rewrite Hf. reflexivity.
Qed.

Lemma like_status_fav mastodon (s : status) (st : bot_state) :
  (forall i, status_favourite mastodon i = Ok tt) ->
  exists (b : bool) st', like_status mastodon s st = (Ok b, st') /\
    Z.of_nat (nfav (actions st')) = Z.of_nat (nfav (actions st)) + (if b then 1 else 0).
Proof.
  intros Hf.
  destruct (decide (HStr (status_id s) ∈ liked_posts st)) as [Hin|Hn].
  - exists false, st. split; [|simpl; lia].
    unfold like_status, bind, gets; simpl. by rewrite (bool_decide_eq_true_2 _ Hin).
  - eexists true, _. split; [apply (like_status_new _ _ _ Hn (Hf _))|].
    simpl. rewrite nfav_cons_fav. lia.
Qed.

Lemma like_statuses_quota cfg mastodon (r : Like.rule) (ss : list status) :
  (forall i, status_favourite mastodon i = Ok tt) ->
  forall (c : Z) (st : bot_state), c <= max_likes_per_check cfg ->
  exists c' st', like_statuses cfg mastodon r ss c st = (Ok c', st') /\
    c <= c' <= max_likes_per_check cfg /\
    Z.of_nat (nfav (actions st')) = Z.of_nat (nfav (actions st)) + (c' - c).
Proof.
  intros Hf. induction ss as [|s ss IH]; intros c st Hc; simpl.
  - exists c, st. split; [reflexivity|lia].
  - destruct (max_likes_per_check cfg <=? c) eqn:Hmax.
    + exists c, st. split; [reflexivity|lia].
    + apply Z.leb_gt in Hmax.
      destruct (should_like s r).
      * destruct (like_status_fav mastodon s st Hf) as [b [st1 [Hl Hn1]]].
        unfold bind at 1. rewrite Hl.
        destruct (IH (if b then c + 1 else c) st1) as [c' [st' [Hr [Hb Hn]]]];
          [destruct b; lia|].
        exists c', st'. split; [exact Hr|]. destruct b; lia.
      * destruct (IH c st) as [c' [st' [Hr [Hb Hn]]]]; [lia|].
        exists c', st'. split; [exact Hr|lia].
Qed.

Lemma check_likes_loop_quota cfg mastodon (rules : list Like.rule) :
  (forall i, status_favourite mastodon i = Ok tt) ->
  forall (c : Z) (st : bot_state), c <= max_likes_per_check cfg ->
  Z.of_nat (nfav (actions (check_likes_loop cfg mastodon rules c st).2))
    <= Z.of_nat (nfav (actions st)) + (max_likes_per_check cfg - c).
Proof.
  intros Hf. induction rules as [|r rules IH]; intros c st Hc; simpl.
  - lia.
  - destruct (get_account_id_state mastodon (Like.account r) st) as [o Ho].
    unfold bind at 1. rewrite Ho.
    destruct o as [[a|]|e]; simpl; [|apply IH; lia|lia].
    destruct (String.eqb a ""); [apply IH; lia|].
    destruct (max_likes_per_check cfg <=? c); [simpl; lia|].
    unfold bind at 1, try_api, call, bind.
    destruct (account_statuses mastodon a (Like.exclude_replies r) false) as [ss|e].
    + destruct (like_statuses_quota cfg mastodon r ss Hf c st Hc)
        as [c' [st' [Hr [Hb Hn]]]].
      rewrite Hr. specialize (IH c' st' (proj2 Hb)). lia.
    + destruct (is_api_error e); simpl; [apply IH; lia|lia].
Qed.

Lemma get_account_id_found mastodon (h a : string) (rs : list string) (st : bot_state) :
  account_search mastodon h = Ok (a :: rs) ->
  get_account_id mastodon h st = (Ok (Some a), st).
Proof. intros H. unfold get_account_id, try_api, bind, call. by rewrite H. Qed.

Lemma like_statuses_stop cfg mastodon (r : Like.rule) (ss : list status) (c : Z)
    (st : bot_state) :
  max_likes_per_check cfg <= c -> like_statuses cfg mastodon r ss c st = (Ok c, st).
Proof.
  intros H. apply Z.leb_le in H. destruct ss; simpl; [reflexivity|]. by rewrite H.
Qed.

Lemma like_statuses_like cfg mastodon (r : Like.rule) (s : status) (rest : list status)
    (c : Z) (st st' : bot_state) (b : bool) :
  c < max_likes_per_check cfg -> should_like s r = true ->
  like_status mastodon s st = (Ok b, st') ->
  like_statuses cfg mastodon r (s :: rest) c st =
  like_statuses cfg mastodon r rest (if b then c + 1 else c) st'.
Proof.
  intros Hc Hq Hl. apply Z.leb_gt in Hc. simpl. rewrite Hc, Hq.
  unfold bind at 1. by rewrite Hl.
Qed.

Lemma check_likes_loop_found cfg mastodon (r : Like.rule) (rest : list Like.rule)
    (a : string) (rs : list string) (ss : list status) (c c' : Z) (st st' : bot_state) :
  account_search mastodon (Like.account r) = Ok (a :: rs) -> a <> ""%string ->
  c < max_likes_per_check cfg ->
  account_statuses mastodon a (Like.exclude_replies r) false = Ok ss ->
  like_statuses cfg mastodon r ss c st = (Ok c', st') ->
  check_likes_loop cfg mastodon (r :: rest) c st = check_likes_loop cfg mastodon rest c' st'.
Proof.
  intros Hs Ha Hc Hss Hl. apply String.eqb_neq in Ha. apply Z.leb_gt in Hc.
  simpl. unfold bind at 1. rewrite (get_account_id_found _ _ _ _ _ Hs), Ha, Hc.
  unfold bind at 1, try_api, bind at 1, call. rewrite Hss. by rewrite Hl.
Qed.

Lemma check_likes_loop_full cfg mastodon (r : Like.rule) (rest : list Like.rule)
    (a : string) (rs : list string) (c : Z) (st : bot_state) :
  account_search mastodon (Like.account r) = Ok (a :: rs) -> a <> ""%string ->
  max_likes_per_check cfg <= c ->
  check_likes_loop cfg mastodon (r :: rest) c st = (Ok c, st).
Proof.
  intros Hs Ha Hc. apply String.eqb_neq in Ha. apply Z.leb_le in Hc.
  simpl. unfold bind at 1. rewrite (get_account_id_found _ _ _ _ _ Hs), Ha, Hc.
  reflexivity.
Qed.

Lemma check_likes_two_accounts cfg mastodon (st : bot_state) (r1 r2 : Like.rule)
    (a1 a2 : string) (rs1 rs2 : list string) (l1 l2 : list status) (s1 s2 s3 : status) :
  (forall i, status_favourite mastodon i = Ok tt) ->
  like_accounts cfg = [r1; r2] -> max_likes_per_check cfg = 2 ->
  account_search mastodon (Like.account r1) = Ok (a1 :: rs1) -> a1 <> ""%string ->
  account_search mastodon (Like.account r2) = Ok (a2 :: rs2) -> a2 <> ""%string ->
  account_statuses mastodon a1 (Like.exclude_replies r1) false = Ok l1 ->
  account_statuses mastodon a2 (Like.exclude_replies r2) false = Ok l2 ->
  l1 ++ l2 = [s1; s2; s3] ->
  Forall (fun s => should_like s r1 = true) l1 ->
  Forall (fun s => should_like s r2 = true) l2 ->
  NoDup [status_id s1; status_id s2; status_id s3] ->
  Forall (fun s => HStr (status_id s) ∉ liked_posts st) [s1; s2; s3] ->
  exists st', check_likes cfg mastodon st = (Ok 2, st') /\
    actions st' = Favourite (status_id s2) :: Favourite (status_id s1) :: actions st /\
    HStr (status_id s3) ∉ liked_posts st'.
Proof.
  intros Hf Hrules Hmax Hs1 Ha1 Hs2 Ha2 Hl1 Hl2 Hsplit Hq1 Hq2 Hnd Hnew.
  rewrite !Forall_cons in Hnew. destruct Hnew as [n1 [n2' [n3' _]]].
  apply NoDup_cons in Hnd as [Hnd1 Hnd]. apply NoDup_cons in Hnd as [Hnd2 _].
  assert (n2 : HStr (status_id s2) ∉ {[HStr (status_id s1)]} ∪ liked_posts st).
  { intros Hin. apply elem_of_union in Hin as [Hin|Hin]; [|contradiction].
    apply elem_of_singleton in Hin. injection Hin as Heq. apply Hnd1. rewrite Heq. left. }
  assert (n3 : HStr (status_id s3) ∉
             {[HStr (status_id s2)]} ∪ ({[HStr (status_id s1)]} ∪ liked_posts st)).
  { intros Hin. apply elem_of_union in Hin as [Hin|Hin].
    - apply elem_of_singleton in Hin. injection Hin as Heq. apply Hnd2. rewrite Heq. left.
    - apply elem_of_union in Hin as [Hin|Hin]; [|contradiction].
      apply elem_of_singleton in Hin. injection Hin as Heq. apply Hnd1. rewrite Heq. right. left. }
  assert (Hst1 : exists st1, like_status mastodon s1 st = (Ok true, st1) /\
            (HStr (status_id s2) ∉ liked_posts st1) /\
            actions st1 = Favourite (status_id s1) :: actions st /\
            (exists st2, like_status mastodon s2 st1 = (Ok true, st2) /\
             (HStr (status_id s3) ∉ liked_posts st2) /\
             actions st2 = Favourite (status_id s2) :: Favourite (status_id s1) :: actions st)).
  { eexists. split; [exact (like_status_new mastodon s1 st n1 (Hf _))|].
    split; [exact n2|]. split; [reflexivity|].
    eexists. split; [apply like_status_new; [exact n2|apply Hf]|].
    split; [exact n3|reflexivity]. }
  destruct Hst1 as [st1 [L1 [m2 [A1 [st2 [L2 [m3 A2]]]]]]].
  unfold check_likes. rewrite Hrules.
  exists st2. split; [|split; [exact A2|exact m3]].
  destruct l1 as [|x1 [|x2 [|x3 [|x4 l1]]]]; simpl in Hsplit.
  - subst l2. apply Forall_cons in Hq2 as [q1 Hq2]. apply Forall_cons in Hq2 as [q2 _].
    rewrite (check_likes_loop_found cfg mastodon r1 [r2] a1 rs1 [] 0 0 st st);
      [|assumption|assumption|lia|assumption|reflexivity].
    rewrite (check_likes_loop_found cfg mastodon r2 [] a2 rs2 [s1; s2; s3] 0 2 st st2);
      [reflexivity|assumption|assumption|lia|assumption|].
    rewrite (like_statuses_like cfg mastodon r2 s1 _ 0 st st1 true); [|lia|assumption|assumption].
    rewrite (like_statuses_like cfg mastodon r2 s2 _ 1 st1 st2 true); [|lia|assumption|assumption].
    apply like_statuses_stop. lia.
  - injection Hsplit as E1 E2. subst x1 l2.
    apply Forall_cons in Hq1 as [q1 _].
    apply Forall_cons in Hq2 as [q2 _].
    rewrite (check_likes_loop_found cfg mastodon r1 [r2] a1 rs1 [s1] 0 1 st st1);
      [|assumption|assumption|lia|assumption|].
    2:{ rewrite (like_statuses_like cfg mastodon r1 s1 _ 0 st st1 true); [reflexivity|lia|assumption|assumption]. }
    rewrite (check_likes_loop_found cfg mastodon r2 [] a2 rs2 [s2; s3] 1 2 st1 st2);
      [reflexivity|assumption|assumption|lia|assumption|].
    rewrite (like_statuses_like cfg mastodon r2 s2 _ 1 st1 st2 true); [|lia|assumption|assumption].
    apply like_statuses_stop. lia.
  - injection Hsplit as E1 E2 E3. subst x1 x2 l2.
    apply Forall_cons in Hq1 as [q1 Hq1]. apply Forall_cons in Hq1 as [q2 _].
    rewrite (check_likes_loop_found cfg mastodon r1 [r2] a1 rs1 [s1; s2] 0 2 st st2);
      [|assumption|assumption|lia|assumption|].
    2:{ rewrite (like_statuses_like cfg mastodon r1 s1 _ 0 st st1 true); [|lia|assumption|assumption].
        rewrite (like_statuses_like cfg mastodon r1 s2 _ 1 st1 st2 true); [reflexivity|lia|assumption|assumption]. }
    apply (check_likes_loop_full cfg mastodon r2 [] a2 rs2); [assumption|assumption|lia].
  - injection Hsplit as E1 E2 E3 E4. subst x1 x2 x3 l2.
    apply Forall_cons in Hq1 as [q1 Hq1]. apply Forall_cons in Hq1 as [q2 _].
    rewrite (check_likes_loop_found cfg mastodon r1 [r2] a1 rs1 [s1; s2; s3] 0 2 st st2);
      [|assumption|assumption|lia|assumption|].
    2:{ rewrite (like_statuses_like cfg mastodon r1 s1 _ 0 st st1 true); [|lia|assumption|assumption].
        rewrite (like_statuses_like cfg mastodon r1 s2 _ 1 st1 st2 true); [|lia|assumption|assumption].
        apply like_statuses_stop. lia. }
    apply (check_likes_loop_full cfg mastodon r2 [] a2 rs2); [assumption|assumption|lia].
  - discriminate.
Qed.

Lemma check_likes_quota cfg mastodon (st : bot_state) :
  (forall i, status_favourite mastodon i = Ok tt) ->
  0 <= max_likes_per_check cfg ->
  Z.of_nat (nfav (actions (check_likes cfg mastodon st).2))
    <= Z.of_nat (nfav (actions st)) + max_likes_per_check cfg.
Proof.
  intros Hf Hmax. unfold check_likes.
  destruct (like_accounts cfg) as [|r rules] eqn:Hr; [cbv [ret snd]; lia|].
  pose proof (check_likes_loop_quota cfg mastodon (r :: rules) Hf 0 st Hmax). lia.
Qed.

(** C3: in one like phase, when every favourite call succeeds, the
    favourites issued across all like-rule accounts together number at most
    [max_likes_per_check] (a non-negative quota); with quota 2, two like
    rules whose accounts resolve, and three qualifying, not-yet-liked
    statuses split over the two accounts in any way, exactly the first two
    statuses are favourited and the third is not. *)
Theorem like_quota_global cfg mastodon (st : bot_state) :
  (forall i, status_favourite mastodon i = Ok tt) ->
  0 <= max_likes_per_check cfg ->
  Z.of_nat (nfav (actions (check_likes cfg mastodon st).2)) - Z.of_nat (nfav (actions st))
    <= max_likes_per_check cfg /\
  (forall (r1 r2 : Like.rule) (a1 a2 : string) (rs1 rs2 : list string)
          (l1 l2 : list status) (s1 s2 s3 : status),
      like_accounts cfg = [r1; r2] -> max_likes_per_check cfg = 2 ->
      account_search mastodon (Like.account r1) = Ok (a1 :: rs1) -> a1 <> ""%string ->
      account_search mastodon (Like.account r2) = Ok (a2 :: rs2) -> a2 <> ""%string ->
      account_statuses mastodon a1 (Like.exclude_replies r1) false = Ok l1 ->
      account_statuses mastodon a2 (Like.exclude_replies r2) false = Ok l2 ->
      l1 ++ l2 = [s1; s2; s3] ->
      Forall (fun s => should_like s r1 = true) l1 ->
      Forall (fun s => should_like s r2 = true) l2 ->
      NoDup [status_id s1; status_id s2; status_id s3] ->
      Forall (fun s => HStr (status_id s) ∉ liked_posts st) [s1; s2; s3] ->
      exists st', check_likes cfg mastodon st = (Ok 2, st') /\
        actions st' = Favourite (status_id s2) :: Favourite (status_id s1) :: actions st /\
        HStr (status_id s3) ∉ liked_posts st').
Proof.
  intros Hf Hmax. split.
  - pose proof (check_likes_quota cfg mastodon st Hf Hmax). lia.
  - intros r1 r2 a1 a2 rs1 rs2 l1 l2 s1 s2 s3.
    exact (check_likes_two_accounts cfg mastodon st r1 r2 a1 a2 rs1 rs2 l1 l2 s1 s2 s3 Hf).
Qed.

(** A concrete like phase: two like-everything rules, for [alice] (two
    statuses) and [bob] (one status), quota 2. *)
Definition ex_status (i : string) : status := mkStatus i "someone" "" PNone None [] [].

Definition ex_like_cfg : bot_config :=
  mkBotConfig [] 60 false false false
    [Like.mkRule "alice" true false false []; Like.mkRule "bob" true false false []]
    2 false.

Definition ex_api : api :=
  mkApi (fun h => Ok [h])
        (fun a _ _ => if String.eqb a "alice" then Ok [ex_status "1"; ex_status "2"]
                      else Ok [ex_status "3"])
        (fun _ => Ok tt) (fun _ => Ok tt) (Ok "me"%string) (fun _ => Ok []) (fun _ => Ok tt).

Definition ex_state : bot_state := mkBotState ∅ ∅ ∅ ∅ [].

Lemma like_quota_global_witness :
  (forall i, status_favourite ex_api i = Ok tt) /\ 0 <= max_likes_per_check ex_like_cfg /\
  Z.of_nat (nfav (actions (check_likes ex_like_cfg ex_api ex_state).2))
    - Z.of_nat (nfav (actions ex_state)) <= max_likes_per_check ex_like_cfg.
Proof.
  assert (Hf : forall i, status_favourite ex_api i = Ok tt) by (intros; reflexivity).
  assert (Hm : 0 <= max_likes_per_check ex_like_cfg) by (simpl; lia).
  split; [exact Hf|]. split; [exact Hm|].
  exact (proj1 (like_quota_global ex_like_cfg ex_api ex_state Hf Hm)).
Defined.

(* ------------------------------------------------------------------ *)
(** ** Remote failures *)

(** The bot state after recording the remote call [a]. *)
Definition logged (a : action) (st : bot_state) : bot_state :=
  mkBotState (processed_posts st) (liked_posts st) (followed_accounts st) (disk st)
    (a :: actions st).

(** [m] raises only exceptions satisfying [P]. *)
Definition raises_only {A} (P : exn -> Prop) (m : M A) : Prop :=
  forall st e st', m st = (Err e, st') -> P e.

Definition api_error (e : exn) : Prop := is_api_error e = true.

Definition outcome_raises_only {A} (P : exn -> Prop) (o : outcome A) : Prop :=
  forall e, o = Err e -> P e.

(** Every call of the client fails, if at all, with a [MastodonAPIError]. *)
Definition api_errors_only (mastodon : api) : Prop :=
  (forall h, outcome_raises_only api_error (account_search mastodon h)) /\
  (forall a b1 b2, outcome_raises_only api_error (account_statuses mastodon a b1 b2)) /\
  (forall i, outcome_raises_only api_error (status_reblog mastodon i)) /\
  (forall i, outcome_raises_only api_error (status_favourite mastodon i)) /\
  outcome_raises_only api_error (me mastodon) /\
  (forall i, outcome_raises_only api_error (account_followers mastodon i)) /\
  (forall i, outcome_raises_only api_error (account_follow mastodon i)).

Definition never_raises {A} (m : M A) : Prop := raises_only (fun _ => False) m.

Section RaisesOnly.
Context (P : exn -> Prop).

Lemma ro_ret {A} (a : A) : raises_only P (ret a).
Proof. intros st e st' H. discriminate. Qed.

Lemma ro_call {A} (o : outcome A) : outcome_raises_only P o -> raises_only P (call o).
Proof. intros Ho st e st' H. injection H as He _. by apply Ho. Qed.

Lemma ro_modify (f : bot_state -> bot_state) : raises_only P (modify f).
Proof. intros st e st' H. discriminate. Qed.

Lemma ro_gets {A} (f : bot_state -> A) : raises_only P (gets f).
Proof. intros st e st' H. discriminate. Qed.

Lemma ro_bind {A B} (m : M A) (k : A -> M B) :
  raises_only P m -> (forall a, raises_only P (k a)) -> raises_only P (bind m k).
Proof.
  intros Hm Hk st e st' H. unfold bind in H.
  destruct (m st) as [[a|e0] st0] eqn:E.
  - exact (Hk a _ _ _ H).
  - injection H as -> _. exact (Hm _ _ _ E).
Qed.

Lemma ro_try_api {A} (m : M A) (h : M A) :
  raises_only api_error m -> raises_only P h -> raises_only P (try_api m h).
Proof.
  intros Hm Hh st e st' H. unfold try_api in H.
  destruct (m st) as [[a|e0] st0] eqn:E; [discriminate|].
  pose proof (Hm _ _ _ E) as He. unfold api_error in He. rewrite He in H.
  exact (Hh _ _ _ H).
Qed.
End RaisesOnly.

Create HintDb raises.
#[local] Hint Resolve ro_ret ro_modify ro_gets ro_call ro_try_api : raises.

Ltac raises_step :=
  match goal with
  | |- raises_only _ (bind _ _) => apply ro_bind; [|intros]
  | |- raises_only _ (if ?b then _ else _) => destruct b
  | |- raises_only _ (match ?x with _ => _ end) => destruct x
  | |- raises_only _ (try_api _ _) => apply ro_try_api
  | |- raises_only _ (call _) => apply ro_call
  | |- raises_only _ (log_action _) => apply ro_modify
  | |- raises_only _ (set_processed _) => apply ro_modify
  | |- raises_only _ (set_liked _) => apply ro_modify
  | |- raises_only _ (set_followed _) => apply ro_modify
  | |- raises_only _ (write_file _ _) => apply ro_modify
  | |- raises_only _ save_processed_posts => unfold save_processed_posts
  | |- raises_only _ save_liked_posts => unfold save_liked_posts
  | |- raises_only _ save_followed_accounts => unfold save_followed_accounts
  | |- raises_only _ (gets _) => apply ro_gets
  | |- raises_only _ (ret _) => apply ro_ret
  end.

Section NoRaise.
Variable cfg : bot_config.
Variable mastodon : api.
Hypothesis Hapi : api_errors_only mastodon.

Ltac api_call :=
  destruct Hapi as (H1 & H2 & H3 & H4 & H5 & H6 & H7);
  first [ apply H1 | apply H2 | apply H3 | apply H4 | apply H5 | apply H6 | apply H7 ].

Ltac no_raise := repeat raises_step; try api_call.

Lemma get_account_id_no_raise (h : string) : never_raises (get_account_id mastodon h).
Proof. unfold never_raises, get_account_id. no_raise. Qed.

Lemma repost_status_no_raise (s : status) : never_raises (repost_status cfg mastodon s).
Proof. unfold never_raises, repost_status. cbv zeta. no_raise. Qed.

Lemma like_status_no_raise (s : status) : never_raises (like_status mastodon s).
Proof. unfold never_raises, like_status. cbv zeta. no_raise. Qed.

Lemma repost_statuses_no_raise (ss : list status) (c : Z) :
  never_raises (repost_statuses cfg mastodon ss c).
Proof.
  revert c. induction ss as [|s ss IH]; intros c; simpl; unfold never_raises.
  - apply ro_ret.
  - apply ro_bind; [apply repost_status_no_raise|]. intros b. apply IH.
Qed.

Lemma like_statuses_no_raise (r : Like.rule) (ss : list status) (c : Z) :
  never_raises (like_statuses cfg mastodon r ss c).
Proof.
  revert c. induction ss as [|s ss IH]; intros c; simpl; unfold never_raises.
  - apply ro_ret.
  - destruct (max_likes_per_check cfg <=? c); [apply ro_ret|].
    destruct (should_like s r); [|apply IH].
    apply ro_bind; [apply like_status_no_raise|]. intros b. apply IH.
Qed.

Lemma check_new_posts_loop_no_raise (hs : list string) :
  never_raises (check_new_posts_loop cfg mastodon hs).
Proof.
  induction hs as [|h hs IH]; simpl; unfold never_raises.
  - apply ro_ret.
  - apply ro_bind; [apply get_account_id_no_raise|]. intros [a|]; [|apply IH].
    destruct (String.eqb a ""); [apply IH|].
    apply ro_bind; [|intros; apply IH].
    apply ro_try_api; [|apply ro_ret].
    apply ro_bind; [apply ro_call; api_call|]. intros ss.
    apply ro_bind; [|intros; apply ro_ret].
    intros st e st' H. exfalso. exact (repost_statuses_no_raise ss 0 st e st' H).
Qed.

Lemma check_likes_loop_no_raise (rules : list Like.rule) (c : Z) :
  never_raises (check_likes_loop cfg mastodon rules c).
Proof.
  revert c. induction rules as [|r rules IH]; intros c; simpl; unfold never_raises.
  - apply ro_ret.
  - apply ro_bind; [apply get_account_id_no_raise|]. intros [a|]; [|apply IH].
    destruct (String.eqb a ""); [apply IH|].
    destruct (max_likes_per_check cfg <=? c); [apply ro_ret|].
    apply ro_bind; [|intros; apply IH].
    apply ro_try_api; [|apply ro_ret].
    apply ro_bind; [apply ro_call; api_call|]. intros ss.
    intros st e st' H. exfalso. exact (like_statuses_no_raise r ss c st e st' H).
Qed.

Lemma follow_all_no_raise (fs : list (string * string)) (c : Z) :
  never_raises (follow_all mastodon fs c).
Proof.
  revert c. induction fs as [|[aid acct] fs IH]; intros c; simpl; unfold never_raises.
  - apply ro_ret.
  - apply ro_bind; [apply ro_gets|]. intros f.
    destruct (bool_decide _); [apply IH|].
    apply ro_bind; [|intros; apply IH].
    apply ro_try_api; [|apply ro_ret]. no_raise.
Qed.

Lemma run_cycle_no_raise : never_raises (run_cycle cfg mastodon).
Proof.
  unfold never_raises, run_cycle.
  apply ro_bind; [apply check_new_posts_loop_no_raise|]. intros _.
  apply ro_bind.
  { unfold check_likes. destruct (like_accounts cfg); [apply ro_ret|].
    apply check_likes_loop_no_raise. }
  intros _. unfold check_follow_back.
  destruct (negb (enable_follow_back cfg)); [apply ro_ret|].
  apply ro_try_api; [|apply ro_ret].
  apply ro_bind; [apply ro_call; api_call|]. intros me_id.
  apply ro_bind; [apply ro_call; api_call|]. intros [|f fs]; [apply ro_ret|].
  apply ro_bind; [|intros; apply ro_ret].
  intros st e st' H. exfalso. exact (follow_all_no_raise _ 0 st e st' H).
Qed.
End NoRaise.

Lemma get_account_id_api_error mastodon (h : string) (st : bot_state) :
  account_search mastodon h = Err MastodonAPIError ->
  get_account_id mastodon h st = (Ok None, st).
Proof. intros H. unfold get_account_id, try_api, bind, call. by rewrite H. Qed.

Lemma get_account_id_non_api mastodon (h : string) (e : exn) (st : bot_state) :
  is_api_error e = false -> account_search mastodon h = Err e ->
  get_account_id mastodon h st = (Err e, st).
Proof. intros He H. unfold get_account_id, try_api, bind, call. by rewrite H, He. Qed.

(** C6 (amended): a remote call failing with a [MastodonAPIError] is
    caught where it happens.  A failed reblog, favourite or follow returns
    without recording the id (sets and files unchanged, only the attempt is
    in the log) and the loop goes on with the next item; an account whose
    resolution or status fetch fails is skipped and the phase goes on with
    the next account; and when every failure of the client is a
    [MastodonAPIError], a poll cycle never raises.  A failure that is not a
    [MastodonAPIError] is not caught: a reblog, favourite or follow, an
    account search or status fetch, or the lookup of the bot's own account
    or of its followers failing that way raises out of its step with the
    state reached so far; a step that raises ends its loop and its phase, a
    phase that raises ends the cycle (the later phases do not run), and a
    cycle that raises ends [run], which re-raises the same exception. *)
Theorem api_errors_caught_locally :
  (forall cfg mastodon (s : status) (st : bot_state),
      HStr (status_id s) ∉ processed_posts st -> should_repost cfg s = true ->
      status_reblog mastodon (status_id s) = Err MastodonAPIError ->
      repost_status cfg mastodon s st = (Ok false, logged (Reblog (status_id s)) st)) /\
  (forall mastodon (s : status) (st : bot_state),
      HStr (status_id s) ∉ liked_posts st ->
      status_favourite mastodon (status_id s) = Err MastodonAPIError ->
      like_status mastodon s st = (Ok false, logged (Favourite (status_id s)) st)) /\
  (forall mastodon (aid acct : string) (rest : list (string * string)) (c : Z)
          (st : bot_state),
      HStr aid ∉ followed_accounts st ->
      account_follow mastodon aid = Err MastodonAPIError ->
      follow_all mastodon ((aid, acct) :: rest) c st =
      follow_all mastodon rest c (logged (Follow aid) st)) /\
  (forall cfg mastodon (h : string) (rest : list string) (st : bot_state),
      account_search mastodon h = Err MastodonAPIError ->
      check_new_posts_loop cfg mastodon (h :: rest) st =
      check_new_posts_loop cfg mastodon rest st) /\
  (forall cfg mastodon (h a : string) (rs rest : list string) (st : bot_state),
      account_search mastodon h = Ok (a :: rs) -> a <> ""%string ->
      account_statuses mastodon a (exclude_replies cfg) (exclude_reblogs cfg)
        = Err MastodonAPIError ->
      check_new_posts_loop cfg mastodon (h :: rest) st =
      check_new_posts_loop cfg mastodon rest st) /\
  (forall cfg mastodon (r : Like.rule) (rest : list Like.rule) (c : Z) (st : bot_state),
      account_search mastodon (Like.account r) = Err MastodonAPIError ->
      check_likes_loop cfg mastodon (r :: rest) c st =
      check_likes_loop cfg mastodon rest c st) /\
  (forall cfg mastodon (r : Like.rule) (a : string) (rs : list string)
          (rest : list Like.rule) (c : Z) (st : bot_state),
      account_search mastodon (Like.account r) = Ok (a :: rs) -> a <> ""%string ->
      c < max_likes_per_check cfg ->
      account_statuses mastodon a (Like.exclude_replies r) false = Err MastodonAPIError ->
      check_likes_loop cfg mastodon (r :: rest) c st =
      check_likes_loop cfg mastodon rest c st) /\
  (forall cfg mastodon (st : bot_state),
      api_errors_only mastodon -> (run_cycle cfg mastodon st).1 = Ok tt) /\
  (forall cfg mastodon (s : status) (st : bot_state) (e : exn),
      is_api_error e = false ->
      HStr (status_id s) ∉ processed_posts st -> should_repost cfg s = true ->
      status_reblog mastodon (status_id s) = Err e ->
      repost_status cfg mastodon s st = (Err e, logged (Reblog (status_id s)) st)) /\
  (forall mastodon (s : status) (st : bot_state) (e : exn),
      is_api_error e = false ->
      HStr (status_id s) ∉ liked_posts st ->
      status_favourite mastodon (status_id s) = Err e ->
      like_status mastodon s st = (Err e, logged (Favourite (status_id s)) st)) /\
  (forall mastodon (aid acct : string) (rest : list (string * string)) (c : Z)
          (st : bot_state) (e : exn),
      is_api_error e = false ->
      HStr aid ∉ followed_accounts st ->
      account_follow mastodon aid = Err e ->
      follow_all mastodon ((aid, acct) :: rest) c st = (Err e, logged (Follow aid) st)) /\
  (forall cfg mastodon (h : string) (rest : list string) (st : bot_state) (e : exn),
      is_api_error e = false ->
      account_search mastodon h = Err e ->
      check_new_posts_loop cfg mastodon (h :: rest) st = (Err e, st)) /\
  (forall cfg mastodon (h a : string) (rs rest : list string) (st : bot_state) (e : exn),
      is_api_error e = false ->
      account_search mastodon h = Ok (a :: rs) -> a <> ""%string ->
      account_statuses mastodon a (exclude_replies cfg) (exclude_reblogs cfg) = Err e ->
      check_new_posts_loop cfg mastodon (h :: rest) st = (Err e, st)) /\
  (forall cfg mastodon (r : Like.rule) (rest : list Like.rule) (c : Z) (st : bot_state)
          (e : exn),
      is_api_error e = false ->
      account_search mastodon (Like.account r) = Err e ->
      check_likes_loop cfg mastodon (r :: rest) c st = (Err e, st)) /\
  (forall cfg mastodon (r : Like.rule) (a : string) (rs : list string)
          (rest : list Like.rule) (c : Z) (st : bot_state) (e : exn),
      is_api_error e = false ->
      account_search mastodon (Like.account r) = Ok (a :: rs) -> a <> ""%string ->
      c < max_likes_per_check cfg ->
      account_statuses mastodon a (Like.exclude_replies r) false = Err e ->
      check_likes_loop cfg mastodon (r :: rest) c st = (Err e, st)) /\
  (forall cfg mastodon (st : bot_state) (e : exn),
      is_api_error e = false -> enable_follow_back cfg = true ->
      me mastodon = Err e ->
      check_follow_back cfg mastodon st = (Err e, st)) /\
  (forall cfg mastodon (me_id : string) (st : bot_state) (e : exn),
      is_api_error e = false -> enable_follow_back cfg = true ->
      me mastodon = Ok me_id -> account_followers mastodon me_id = Err e ->
      check_follow_back cfg mastodon st = (Err e, st)) /\
  (forall cfg mastodon (s : status) (rest : list status) (c : Z) (st st1 : bot_state)
          (e : exn),
      repost_status cfg mastodon s st = (Err e, st1) ->
      repost_statuses cfg mastodon (s :: rest) c st = (Err e, st1)) /\
  (forall cfg mastodon (h a : string) (rs rest : list string) (ss : list status)
          (st st1 : bot_state) (e : exn),
      is_api_error e = false ->
      account_search mastodon h = Ok (a :: rs) -> a <> ""%string ->
      account_statuses mastodon a (exclude_replies cfg) (exclude_reblogs cfg) = Ok ss ->
      repost_statuses cfg mastodon ss 0 st = (Err e, st1) ->
      check_new_posts_loop cfg mastodon (h :: rest) st = (Err e, st1)) /\
  (forall cfg mastodon (r : Like.rule) (s : status) (rest : list status) (c : Z)
          (st st1 : bot_state) (e : exn),
      c < max_likes_per_check cfg -> should_like s r = true ->
      like_status mastodon s st = (Err e, st1) ->
      like_statuses cfg mastodon r (s :: rest) c st = (Err e, st1)) /\
  (forall cfg mastodon (r : Like.rule) (a : string) (rs : list string)
          (rest : list Like.rule) (ss : list status) (c : Z) (st st1 : bot_state) (e : exn),
      is_api_error e = false ->
      account_search mastodon (Like.account r) = Ok (a :: rs) -> a <> ""%string ->
      c < max_likes_per_check cfg ->
      account_statuses mastodon a (Like.exclude_replies r) false = Ok ss ->
      like_statuses cfg mastodon r ss c st = (Err e, st1) ->
      check_likes_loop cfg mastodon (r :: rest) c st = (Err e, st1)) /\
  (forall cfg mastodon (me_id : string) (fl : list (string * string)) (st st1 : bot_state)
          (e : exn),
      is_api_error e = false -> enable_follow_back cfg = true ->
      me mastodon = Ok me_id -> account_followers mastodon me_id = Ok fl ->
      follow_all mastodon fl 0 st = (Err e, st1) ->
      check_follow_back cfg mastodon st = (Err e, st1)) /\
  (forall cfg mastodon (st st1 : bot_state) (e : exn),
      check_new_posts cfg mastodon st = (Err e, st1) ->
      run_cycle cfg mastodon st = (Err e, st1)) /\
  (forall cfg mastodon (st st1 st2 : bot_state) (e : exn),
      check_new_posts cfg mastodon st = (Ok tt, st1) ->
      check_likes cfg mastodon st1 = (Err e, st2) ->
      run_cycle cfg mastodon st = (Err e, st2)) /\
  (forall cfg mastodon (st st1 st2 st3 : bot_state) (c : Z) (e : exn),
      check_new_posts cfg mastodon st = (Ok tt, st1) ->
      check_likes cfg mastodon st1 = (Ok c, st2) ->
      check_follow_back cfg mastodon st2 = (Err e, st3) ->
      run_cycle cfg mastodon st = (Err e, st3)) /\
  (forall cfg mastodon (n : nat) (st st1 : bot_state) (e : exn),
      run_cycle cfg mastodon st = (Err e, st1) ->
      run_loop cfg mastodon (S n) st = (Err e, st1)).
Proof.
  split; [|split; [|split; [|split; [|split; [|split; [|split]]]]]].
  - intros cfg mastodon s st Hn Hq Hr. unfold repost_status, bind, gets. simpl.
    rewrite (bool_decide_eq_false_2 _ Hn), Hq. simpl.
    unfold try_api, bind, log_action, modify, call. simpl. by rewrite Hr.
  - intros mastodon s st Hn Hf. unfold like_status, bind, gets. simpl.
    rewrite (bool_decide_eq_false_2 _ Hn).
    unfold try_api, bind, log_action, modify, call. simpl. by rewrite Hf.
  - intros mastodon aid acct rest c st Hn Hf. simpl. unfold bind at 1, gets.
    rewrite (bool_decide_eq_false_2 _ Hn).
    unfold bind at 1, try_api, bind, log_action, modify, call. simpl. by rewrite Hf.
  - intros cfg mastodon h rest st Hs. simpl. unfold bind at 1.
    by rewrite (get_account_id_api_error _ _ _ Hs).
  - intros cfg mastodon h a rs rest st Hs Ha Hf. apply String.eqb_neq in Ha.
    simpl. unfold bind at 1. rewrite (get_account_id_found _ _ _ _ _ Hs), Ha.
    unfold bind at 1, try_api, bind at 1, call. by rewrite Hf.
  - intros cfg mastodon r rest c st Hs. simpl. unfold bind at 1.
    by rewrite (get_account_id_api_error _ _ _ Hs).
  - intros cfg mastodon r a rs rest c st Hs Ha Hc Hf. apply String.eqb_neq in Ha.
    apply Z.leb_gt in Hc.
    simpl. unfold bind at 1. rewrite (get_account_id_found _ _ _ _ _ Hs), Ha, Hc.
    unfold bind at 1, try_api, bind at 1, call. by rewrite Hf.
  - split.
    { intros cfg mastodon st Hapi.
      destruct (run_cycle cfg mastodon st) as [[[]|e] st'] eqn:E; [reflexivity|].
      exfalso. exact (run_cycle_no_raise cfg mastodon Hapi st e st' E). }
    split.
    { intros cfg mastodon s st e He Hn Hq Hr. unfold repost_status, bind, gets. simpl.
      rewrite (bool_decide_eq_false_2 _ Hn), Hq. simpl.
      unfold try_api, bind, log_action, modify, call. simpl. rewrite Hr. simpl. by rewrite He. }
    split.
    { intros mastodon s st e He Hn Hf. unfold like_status, bind, gets. simpl.
      rewrite (bool_decide_eq_false_2 _ Hn).
      unfold try_api, bind, log_action, modify, call. simpl. rewrite Hf. simpl. by rewrite He. }
    split.
    { intros mastodon aid acct rest c st e He Hn Hf. simpl. unfold bind at 1, gets.
      rewrite (bool_decide_eq_false_2 _ Hn).
      unfold bind at 1, try_api, bind, log_action, modify, call. simpl. rewrite Hf. simpl.
      by rewrite He. }
    split.
    { intros cfg mastodon h rest st e He Hs. simpl. unfold bind at 1.
      by rewrite (get_account_id_non_api _ _ _ _ He Hs). }
    split.
    { intros cfg mastodon h a rs rest st e He Hs Ha Hf. apply String.eqb_neq in Ha.
      simpl. unfold bind at 1. rewrite (get_account_id_found _ _ _ _ _ Hs), Ha.
      cbv [bind try_api call]. by rewrite Hf, He. }
    split.
    { intros cfg mastodon r rest c st e He Hs. simpl. unfold bind at 1.
      by rewrite (get_account_id_non_api _ _ _ _ He Hs). }
    split.
    { intros cfg mastodon r a rs rest c st e He Hs Ha Hc Hf. apply String.eqb_neq in Ha.
      apply Z.leb_gt in Hc.
      simpl. unfold bind at 1. rewrite (get_account_id_found _ _ _ _ _ Hs), Ha, Hc.
      cbv [bind try_api call]. by rewrite Hf, He. }
    split.
    { intros cfg mastodon st e He Hen Hm. unfold check_follow_back. rewrite Hen.
      cbv [negb bind try_api call]. by rewrite Hm, He. }
    split.
    { intros cfg mastodon me_id st e He Hen Hm Hf. unfold check_follow_back. rewrite Hen.
      cbv [negb bind try_api call]. by rewrite Hm, Hf, He. }
    split.
    { intros cfg mastodon s rest c st st1 e H. simpl. unfold bind at 1. by rewrite H. }
    split.
    { intros cfg mastodon h a rs rest ss st st1 e He Hs Ha Hf Hr. apply String.eqb_neq in Ha.
      simpl. unfold bind at 1. rewrite (get_account_id_found _ _ _ _ _ Hs), Ha.
      cbv [bind try_api call]. by rewrite Hf, Hr, He. }
    split.
    { intros cfg mastodon r s rest c st st1 e Hc Hs H. apply Z.leb_gt in Hc.
      simpl. rewrite Hc, Hs. unfold bind at 1. by rewrite H. }
    split.
    { intros cfg mastodon r a rs rest ss c st st1 e He Hs Ha Hc Hf Hl.
      apply String.eqb_neq in Ha. apply Z.leb_gt in Hc.
      simpl. unfold bind at 1. rewrite (get_account_id_found _ _ _ _ _ Hs), Ha, Hc.
      cbv [bind try_api call]. by rewrite Hf, Hl, He. }
    split.
    { intros cfg mastodon me_id fl st st1 e He Hen Hm Hf Hfa. unfold check_follow_back.
      rewrite Hen. cbv [negb bind try_api call]. rewrite Hm, Hf.
      destruct fl as [|f fs]; [discriminate Hfa|]. by rewrite Hfa, He. }
    split.
    { intros cfg mastodon st st1 e H. unfold run_cycle, bind at 1. by rewrite H. }
    split.
    { intros cfg mastodon st st1 st2 e H1 H2. unfold run_cycle, bind at 1. rewrite H1.
      unfold bind. by rewrite H2. }
    split.
    { intros cfg mastodon st st1 st2 st3 c e H1 H2 H3. unfold run_cycle, bind at 1.
      rewrite H1. unfold bind. by rewrite H2, H3. }
    intros cfg mastodon n st st1 e H. simpl. unfold bind. by rewrite H.
Qed.

(** A repost configuration watching [alice] then [bob], against a client
    whose status fetch for [alice] fails with a network error. *)
Definition ex_repost_cfg : bot_config :=
  mkBotConfig ["alice"%string; "bob"%string] 60 false false false [] 50 false.

Definition ex_flaky_api : api :=
  mkApi (fun h => Ok [h])
        (fun a _ _ => if String.eqb a "alice" then Err MastodonNetworkError
                      else Ok [ex_status "7"])
        (fun _ => Ok tt) (fun _ => Ok tt) (Ok "me"%string) (fun _ => Ok []) (fun _ => Ok tt).

(** C6 (counterexample): a [MastodonNetworkError] from the status fetch of
    the first monitored account is not caught ([check_new_posts] only
    catches [MastodonAPIError]): the poll cycle raises it, and the second
    account, [bob], is never processed (no reblog is issued). *)
Lemma network_error_aborts_cycle :
  run_cycle ex_repost_cfg ex_flaky_api ex_state = (Err MastodonNetworkError, ex_state).
Proof. vm_compute. reflexivity. Qed.

(* ------------------------------------------------------------------ *)
(** ** Web UI: the instance URL and the account-list gate *)

Lemma dict_get_set_eq (k : string) (v : pyval) (kvs : list (string * pyval)) :
  dict_get k (dict_set k v kvs) = Some v.
Proof.
  induction kvs as [|[k' v'] kvs IH]; simpl.
  - by rewrite String.eqb_refl.
  - destruct (String.eqb k k') eqn:E; simpl; rewrite E; [reflexivity|exact IH].
Qed.

Lemma dict_get_set_ne (k k2 : string) (v : pyval) (kvs : list (string * pyval)) :
  k2 <> k -> dict_get k2 (dict_set k v kvs) = dict_get k2 kvs.
Proof.
  intros Hne. apply String.eqb_neq in Hne.
  induction kvs as [|[k' v'] kvs IH]; simpl.
  - by rewrite Hne.
  - destruct (String.eqb k k') eqn:E; simpl.
    + apply String.eqb_eq in E. subst k'. by rewrite Hne.
    + destruct (String.eqb k2 k'); [reflexivity|exact IH].
Qed.

Lemma or_empty_dict (kvs : list (string * pyval)) (k : string) (v : pyval) :
  dict_get k kvs = Some v -> or_empty (PDict kvs) = PDict kvs.
Proof. intros H. destruct kvs; [discriminate|reflexivity]. Qed.

(** The two watch-lists of the configuration file: [accounts_to_monitor]
    and [likes]. *)
Definition watch_lists (CONFIG_PATH : string) (d : gmap string file_content)
    : option pyval * option pyval :=
  match d !! CONFIG_PATH with
  | Some (Json (PDict kvs)) => (dict_get "accounts_to_monitor" kvs, dict_get "likes" kvs)
  | _ => (None, None)
  end.

(** The configuration file is a dictionary whose [mastodon] section is a
    dictionary with a falsy [token_valid]. *)
Definition token_unvalidated (CONFIG_PATH : string) (d : gmap string file_content) : Prop :=
  exists kvs m, d !! CONFIG_PATH = Some (Json (PDict kvs)) /\
    dict_get "mastodon" kvs = Some (PDict m) /\
    truthy (get_or PNone "token_valid" m) = false.

(** The index page writes only what loading the configuration writes. *)
Lemma index_disk (CONFIG_PATH DEFAULT_CONFIG_PATH : string) (fernet : option (string -> string))
    (d : gmap string file_content) :
  (index CONFIG_PATH DEFAULT_CONFIG_PATH fernet d).2
  = (load_config CONFIG_PATH DEFAULT_CONFIG_PATH d).2.
Proof.
  unfold index, index_view.
  destruct (load_config CONFIG_PATH DEFAULT_CONFIG_PATH d) as [[[| | | | |kvs]|e] d1];
    try reflexivity.
  cbv zeta. destruct (py_iter _); [|reflexivity].
  destruct (get_or (PDict []) "mastodon" kvs); try reflexivity.
  destruct (get_instance_url _); [|reflexivity].
  by destruct (token_status _ _).
Qed.

Section Gate.
Variables CONFIG_PATH DEFAULT_CONFIG_PATH : string.
Variable verify_credentials : string -> string -> bool.
Variable fernet : option (string -> string).

Definition handle' := handle CONFIG_PATH DEFAULT_CONFIG_PATH verify_credentials fernet.

(** Whether [save_token] with this form field validates the token against
    the instance URL of the configuration. *)
Definition token_validates (d : gmap string file_content) (t : option string) : bool :=
  match (load_config CONFIG_PATH DEFAULT_CONFIG_PATH d).1 with
  | Ok config =>
      match get_instance_url config with
      | Ok url =>
          match validate_token verify_credentials url (strip (form_get t)) with
          | Ok b => b
          | Err _ => false
          end
      | Err _ => false
      end
  | Err _ => false
  end.

Fixpoint run_requests (d : gmap string file_content) (rs : list request)
    : gmap string file_content :=
  match rs with
  | [] => d
  | r :: rest => run_requests (handle' r d).2 rest
  end.

(** No [save_token] request of the run validates its token. *)
Fixpoint no_token_validated (d : gmap string file_content) (rs : list request) : Prop :=
  match rs with
  | [] => True
  | r :: rest =>
      (forall t, r = SaveToken t -> token_validates d t = false) /\
      no_token_validated (handle' r d).2 rest
  end.

Lemma load_config_unvalidated (d : gmap string file_content) :
  token_unvalidated CONFIG_PATH d ->
  exists kvs m, load_config CONFIG_PATH DEFAULT_CONFIG_PATH d = (Ok (PDict kvs), d) /\
    d !! CONFIG_PATH = Some (Json (PDict kvs)) /\
    dict_get "mastodon" kvs = Some (PDict m) /\
    truthy (get_or PNone "token_valid" m) = false.
Proof.
  intros (kvs & m & Hd & Hm & Ht). exists kvs, m.
  unfold load_config. rewrite Hd. simpl. by rewrite (or_empty_dict _ _ _ Hm).
Qed.

Lemma save_accounts_unvalidated (boost_form like_form : option string)
    (d : gmap string file_content) :
  token_unvalidated CONFIG_PATH d ->
  save_accounts CONFIG_PATH DEFAULT_CONFIG_PATH boost_form like_form d
  = (Redirect "Save token first." true, d).
Proof.
  intros H.
  destruct (load_config_unvalidated d H) as (kvs & m & Hl & _ & Hm & Ht).
  unfold save_accounts. rewrite Hl. unfold get_or at 1. rewrite Hm, Ht.
  by rewrite andb_false_r.
Qed.

Lemma handle_keeps_unvalidated (r : request) (d : gmap string file_content) :
  token_unvalidated CONFIG_PATH d ->
  (forall t, r = SaveToken t -> token_validates d t = false) ->
  token_unvalidated CONFIG_PATH (handle' r d).2 /\
  watch_lists CONFIG_PATH (handle' r d).2 = watch_lists CONFIG_PATH d.
Proof.
  intros H Hv.
  pose proof (load_config_unvalidated d H) as (kvs & m & Hl & Hd & Hm & Ht).
  unfold handle', handle. destruct r as [|u|t|b l].
  - rewrite index_disk, Hl. by split.
  - unfold save_instance. rewrite Hl.
    destruct (String.eqb (strip (form_get u)) "") eqn:E; [by split|].
    unfold mastodon_section. rewrite Hm. simpl. unfold save_config.
    split.
    + eexists _, _. split; [apply lookup_insert_eq|].
      split; [apply dict_get_set_eq|].
      unfold get_or. by rewrite dict_get_set_eq.
    + unfold watch_lists. rewrite lookup_insert_eq, Hd.
      by rewrite !dict_get_set_ne.
  - specialize (Hv t eq_refl). unfold token_validates in Hv. rewrite Hl in Hv.
    cbn [fst] in Hv. unfold save_token.
    destruct (String.eqb (strip (form_get t)) ""); [by split|].
    rewrite Hl. unfold store_token.
    destruct (get_instance_url (PDict kvs)) as [url|e]; [|by split].
    destruct (validate_token verify_credentials url (strip (form_get t)))
      as [[|]|e]; [discriminate| by split | by split].
  - rewrite (save_accounts_unvalidated b l d H). by split.
Qed.

Lemma run_keeps_unvalidated (rs : list request) (d : gmap string file_content) :
  token_unvalidated CONFIG_PATH d ->
  no_token_validated d rs ->
  token_unvalidated CONFIG_PATH (run_requests d rs) /\
  watch_lists CONFIG_PATH (run_requests d rs) = watch_lists CONFIG_PATH d.
Proof.
  revert d. induction rs as [|r rs IH]; intros d H Hn; simpl; [by split|].
  destruct Hn as [Hv Hn].
  destruct (handle_keeps_unvalidated r d H Hv) as [H1 W1].
  destruct (IH _ H1 Hn) as [H2 W2]. split; [exact H2|congruence].
Qed.

Lemma save_instance_result (form : option string) (d d' : gmap string file_content) :
  save_instance CONFIG_PATH DEFAULT_CONFIG_PATH form d
  = (Redirect "Instance saved." false, d') ->
  exists kvs m, d' !! CONFIG_PATH = Some (Json (PDict kvs)) /\
    dict_get "mastodon" kvs = Some (PDict m) /\
    dict_get "instance_url" m = Some (PStr (strip (form_get form))) /\
    dict_get "token_valid" m = Some (PBool false).
Proof.
  unfold save_instance.
  destruct (load_config CONFIG_PATH DEFAULT_CONFIG_PATH d) as [[config|e] d1];
    [|discriminate].
  destruct (String.eqb (strip (form_get form)) ""); [discriminate|].
  destruct config as [| | | | |kvs]; try discriminate.
  destruct (mastodon_section kvs) as [m|e]; [|discriminate].
  intros [= <-]. unfold save_config.
  eexists _, _. split; [apply lookup_insert_eq|].
  split; [apply dict_get_set_eq|].
  split; [|apply dict_get_set_eq].
  by rewrite dict_get_set_ne, dict_get_set_eq.
Qed.
End Gate.

(** C10: a successful [save_instance] stores the new instance URL with
    [mastodon.token_valid] set to false. From then on, through any sequence
    of requests in which no [save_token] validates a token against the
    configured instance, the watch-lists [accounts_to_monitor] and [likes]
    stay as they are, and [save_accounts] answers "Save token first." with
    the disk unchanged. *)
Theorem save_instance_locks_accounts (CONFIG_PATH DEFAULT_CONFIG_PATH : string)
    (verify_credentials : string -> string -> bool) (fernet : option (string -> string))
    (form : option string) (d d' : gmap string file_content) (rs : list request) :
  save_instance CONFIG_PATH DEFAULT_CONFIG_PATH form d
  = (Redirect "Instance saved." false, d') ->
  no_token_validated CONFIG_PATH DEFAULT_CONFIG_PATH verify_credentials fernet d' rs ->
  (exists kvs m, d' !! CONFIG_PATH = Some (Json (PDict kvs)) /\
     dict_get "mastodon" kvs = Some (PDict m) /\
     dict_get "instance_url" m = Some (PStr (strip (form_get form))) /\
     dict_get "token_valid" m = Some (PBool false)) /\
  let d'' := run_requests CONFIG_PATH DEFAULT_CONFIG_PATH verify_credentials fernet d' rs in
  watch_lists CONFIG_PATH d'' = watch_lists CONFIG_PATH d' /\
  forall boost_form like_form,
    save_accounts CONFIG_PATH DEFAULT_CONFIG_PATH boost_form like_form d''
    = (Redirect "Save token first." true, d'').
Proof.
  intros Hs Hn.
  pose proof (save_instance_result CONFIG_PATH DEFAULT_CONFIG_PATH form d d' Hs)
    as (kvs & m & Hd & Hm & Hu & Ht).
  split; [by exists kvs, m|].
  assert (H0 : token_unvalidated CONFIG_PATH d').
  { exists kvs, m. split; [exact Hd|]. split; [exact Hm|].
    unfold get_or. by rewrite Ht. }
  destruct (run_keeps_unvalidated CONFIG_PATH DEFAULT_CONFIG_PATH verify_credentials
              fernet rs d' H0 Hn) as [H1 W1].
  split; [exact W1|].
  intros b l. exact (save_accounts_unvalidated CONFIG_PATH DEFAULT_CONFIG_PATH b l _ H1).
Qed.

Definition ex_disk : gmap string file_content :=
  <["config.yaml" := Json (PDict [("accounts_to_monitor", PList [PStr "alice@example.org"]);
                                  ("mastodon", PDict [("instance_url", PStr "https://old.example");
                                                      ("token_valid", PBool true)])])]> ∅.

Definition ex_requests : list request :=
  [SaveAccounts (Some "bob") None; SaveToken (Some "bad-token"); Index;
   SaveAccounts None (Some "carol")].

Lemma save_instance_locks_accounts_witness :
  let d' := (save_instance "config.yaml" "config.example.yaml"
               (Some " https://new.example ") ex_disk).2 in
  save_instance "config.yaml" "config.example.yaml" (Some " https://new.example ") ex_disk
  = (Redirect "Instance saved." false, d') /\
  no_token_validated "config.yaml" "config.example.yaml" (fun _ _ => false) None d'
    ex_requests /\
  ((exists kvs m, d' !! "config.yaml" = Some (Json (PDict kvs)) /\
     dict_get "mastodon" kvs = Some (PDict m) /\
     dict_get "instance_url" m = Some (PStr (strip (form_get (Some " https://new.example ")))) /\
     dict_get "token_valid" m = Some (PBool false)) /\
   let d'' := run_requests "config.yaml" "config.example.yaml" (fun _ _ => false) None d'
                 ex_requests in
   watch_lists "config.yaml" d'' = watch_lists "config.yaml" d' /\
   forall boost_form like_form,
     save_accounts "config.yaml" "config.example.yaml" boost_form like_form d''
     = (Redirect "Save token first." true, d'')).
Proof.
  intros d'.
  assert (Hs : save_instance "config.yaml" "config.example.yaml"
                 (Some " https://new.example ") ex_disk
               = (Redirect "Instance saved." false, d')) by (vm_compute; reflexivity).
  assert (Hn : no_token_validated "config.yaml" "config.example.yaml" (fun _ _ => false)
                 None d' ex_requests).
  { cbn [no_token_validated ex_requests].
    repeat split; intros t Ht; inversion Ht; subst; vm_compute; reflexivity. }
  split; [exact Hs|]. split; [exact Hn|].
  exact (save_instance_locks_accounts "config.yaml" "config.example.yaml" (fun _ _ => false)
           None _ ex_disk d' ex_requests Hs Hn).
Defined.

(* ------------------------------------------------------------------ *)
(** ** Web UI: further properties *)

(** *** [str.strip()] and [_normalize_accounts] *)

Lemma drop_spaces_app_nonspace (l : list ascii) (c : ascii) :
  is_space c = false -> drop_spaces (l ++ [c]) = drop_spaces l ++ [c].
Proof.
  intros Hc. induction l as [|x l IH]; simpl.
  - by rewrite Hc.
  - destruct (is_space x); [exact IH|reflexivity].
Qed.

Lemma drop_spaces_shape (l : list ascii) :
  drop_spaces l = [] \/ exists c r, drop_spaces l = c :: r /\ is_space c = false.
Proof.
  induction l as [|x l IH]; simpl; [by left|].
  destruct (is_space x) eqn:E; [exact IH|right; by exists x, l].
Qed.

Lemma drop_spaces_idem (l : list ascii) : drop_spaces (drop_spaces l) = drop_spaces l.
Proof.
  destruct (drop_spaces_shape l) as [-> | (c & r & -> & Hc)]; [reflexivity|].
  simpl. by rewrite Hc.
Qed.

Lemma strip_idem (s : string) : strip (strip s) = strip s.
Proof.
  unfold strip. rewrite list_ascii_of_string_of_list_ascii. f_equal.
  destruct (drop_spaces_shape (list_ascii_of_string s)) as [-> | (c & r & -> & Hc)];
    [reflexivity|].
  assert (E0 : drop_spaces (rev (c :: r)) = drop_spaces (rev r) ++ [c])
    by (simpl; by apply drop_spaces_app_nonspace).
  rewrite E0. set (y := drop_spaces (rev r)).
  assert (E1 : drop_spaces (rev (y ++ [c])) = rev (y ++ [c]))
    by (rewrite rev_app_distr; simpl; by rewrite Hc).
  rewrite E1, rev_involutive, (drop_spaces_app_nonspace _ _ Hc).
  subst y. by rewrite drop_spaces_idem.
Qed.

Lemma normalize_fold (accounts unique : list string) (seen : gset string) :
  (forall x, x ∈ seen <-> In x unique) -> NoDup unique ->
  let r := (fold_left (fun (acc : list string * gset string) account =>
                let '(unique, seen) := acc in
                if bool_decide (account ∈ seen) then acc
                else (unique ++ [account], {[account]} ∪ seen))
             accounts (unique, seen)).1 in
  NoDup r /\ (forall x, In x r <-> In x unique \/ In x accounts).
Proof.
  revert unique seen. induction accounts as [|a accounts IH]; intros unique seen Hs Hn; simpl.
  - split; [exact Hn|]. intros x. tauto.
  - case_bool_decide as Ha.
    + destruct (IH unique seen Hs Hn) as [H1 H2]. split; [exact H1|].
      intros x. rewrite H2. apply Hs in Ha. split; [tauto|].
      intros [H|[<-|H]]; tauto.
    + assert (Hs' : forall x, x ∈ {[a]} ∪ seen <-> In x (unique ++ [a])).
      { intros x. rewrite elem_of_union, elem_of_singleton, in_app_iff, Hs. simpl. intuition congruence. }
      assert (Hn' : NoDup (unique ++ [a])).
      { apply NoDup_app. split; [exact Hn|]. split; [|apply NoDup_singleton].
        intros x Hx Hx'. apply list_elem_of_singleton in Hx'. subst x.
        apply Ha, Hs. by apply list_elem_of_In. }
      destruct (IH _ _ Hs' Hn') as [H1 H2]. split; [exact H1|].
      intros x. rewrite H2, in_app_iff. simpl. tauto.
Qed.

(** *** [_validate_token] *)

Lemma list_ascii_of_string_app (u v : string) :
  list_ascii_of_string (u ++ v) = list_ascii_of_string u ++ list_ascii_of_string v.
Proof. induction u as [|c u IH]; simpl; [reflexivity|by rewrite IH]. Qed.

Lemma rstrip_slash_trailing (u : string) : rstrip_slash (u ++ "/") = rstrip_slash u.
Proof.
  unfold rstrip_slash. rewrite list_ascii_of_string_app.
  simpl list_ascii_of_string. rewrite rev_app_distr. reflexivity.
Qed.

Lemma append_nonempty (u v : string) : v <> ""%string -> (u ++ v)%string <> ""%string.
Proof. destruct u; [done|discriminate]. Qed.

Lemma validate_token_true (verify_credentials : string -> string -> bool)
    (url : pyval) (token : string) :
  validate_token verify_credentials url token = Ok true ->
  exists u, url = PStr u /\ u <> ""%string /\ token <> ""%string /\
    verify_credentials (rstrip_slash u ++ "/api/v1/accounts/verify_credentials")%string token = true.
Proof.
  unfold validate_token.
  destruct (negb (truthy url) || String.eqb token "") eqn:E; [discriminate|].
  apply orb_false_iff in E as [E1 E2]. apply negb_false_iff in E1.
  apply String.eqb_neq in E2.
  destruct url as [| | |u| |]; try discriminate. intros [= H].
  exists u. simpl in E1. apply negb_true_iff, String.eqb_neq in E1. done.
Qed.

(** *** Dictionary updates *)

Lemma dict_get_remove_eq (k : string) (kvs : list (string * pyval)) :
  dict_get k (dict_remove k kvs) = None.
Proof.
  induction kvs as [|[k' v] kvs IH]; simpl; [reflexivity|].
  destruct (String.eqb k' k) eqn:E; simpl; [exact IH|].
  rewrite String.eqb_sym, E. exact IH.
Qed.

Lemma dict_get_remove_ne (k k2 : string) (kvs : list (string * pyval)) :
  k2 <> k -> dict_get k2 (dict_remove k kvs) = dict_get k2 kvs.
Proof.
  intros Hne. induction kvs as [|[k' v] kvs IH]; simpl; [reflexivity|].
  destruct (String.eqb k' k) eqn:E; simpl.
  - apply String.eqb_eq in E. subst k'. apply String.eqb_neq in Hne. by rewrite Hne.
  - destruct (String.eqb k2 k'); [reflexivity|exact IH].
Qed.

Lemma or_empty_idem (v : pyval) : or_empty (or_empty v) = or_empty v.
Proof. unfold or_empty. destruct (truthy v) eqn:E; [by rewrite E|reflexivity]. Qed.

Lemma mastodon_section_instance_url (kvs m : list (string * pyval)) :
  mastodon_section kvs = Ok m ->
  get_instance_url (PDict kvs) = Ok (get_or (PStr "") "instance_url" m).
Proof.
  unfold mastodon_section, get_instance_url, get_or.
  destruct (dict_get "mastodon" kvs) as [[| | | | |m0]|]; try discriminate;
    intros [= <-]; [|reflexivity].
  unfold or_empty. destruct m0; reflexivity.
Qed.

(** *** [_load_config] *)

Lemma load_config_disk (CONFIG_PATH DEFAULT_CONFIG_PATH : string)
    (d : gmap string file_content) :
  d !! CONFIG_PATH <> None ->
  (load_config CONFIG_PATH DEFAULT_CONFIG_PATH d).2 = d.
Proof.
  unfold load_config. destruct (d !! CONFIG_PATH) as [c|]; [|done].
  intros _. by destruct (parse_yaml c).
Qed.

Lemma load_config_only_config (CONFIG_PATH DEFAULT_CONFIG_PATH f : string)
    (d : gmap string file_content) :
  f <> CONFIG_PATH ->
  (load_config CONFIG_PATH DEFAULT_CONFIG_PATH d).2 !! f = d !! f.
Proof.
  intros Hf. unfold load_config.
  destruct (d !! CONFIG_PATH) as [c|]; [by destruct (parse_yaml c)|].
  destruct (d !! DEFAULT_CONFIG_PATH) as [c|]; [|done].
  destruct (parse_yaml c); [|done]. simpl. unfold save_config.
  by rewrite lookup_insert_ne.
Qed.

(** *** Successful [save_token] *)

Lemma save_token_result (CONFIG_PATH DEFAULT_CONFIG_PATH : string)
    (verify_credentials : string -> string -> bool) (encrypt : string -> string)
    (form : option string) (d d' : gmap string file_content) :
  save_token CONFIG_PATH DEFAULT_CONFIG_PATH verify_credentials (Some encrypt) form d
  = (Redirect "Token verified and stored." false, d') ->
  exists kvs m kvs' m' u,
    (load_config CONFIG_PATH DEFAULT_CONFIG_PATH d).1 = Ok (PDict kvs) /\
    mastodon_section kvs = Ok m /\
    d' = <[CONFIG_PATH := Json (PDict kvs')]> (load_config CONFIG_PATH DEFAULT_CONFIG_PATH d).2 /\
    dict_get "mastodon" kvs' = Some (PDict m') /\
    dict_get "access_token_encrypted" m' = Some (PStr (encrypt (strip (form_get form)))) /\
    dict_get "access_token" m' = None /\
    dict_get "token_valid" m' = Some (PBool true) /\
    (forall k, k <> "mastodon"%string -> dict_get k kvs' = dict_get k kvs) /\
    (forall k, k <> "access_token_encrypted"%string -> k <> "access_token"%string ->
       k <> "token_valid"%string -> dict_get k m' = dict_get k m) /\
    dict_get "instance_url" m = Some (PStr u) /\ u <> ""%string /\
    verify_credentials (rstrip_slash u ++ "/api/v1/accounts/verify_credentials")%string
      (strip (form_get form)) = true.
Proof.
  unfold save_token.
  destruct (String.eqb (strip (form_get form)) "") eqn:Et; [discriminate|].
  destruct (load_config CONFIG_PATH DEFAULT_CONFIG_PATH d) as [[config|e] d1] eqn:Hl;
    [|discriminate].
  unfold store_token.
  destruct (get_instance_url config) as [url|e] eqn:Hu; [|discriminate].
  destruct (validate_token verify_credentials url (strip (form_get form)))
    as [[|]|e] eqn:Hv; try discriminate.
  destruct config as [| | | | |kvs]; try discriminate.
  destruct (mastodon_section kvs) as [m|e] eqn:Hm; [|discriminate].
  intros [= <-].
  rewrite (mastodon_section_instance_url _ _ Hm) in Hu. injection Hu as <-.
  apply validate_token_true in Hv as (u & Hu & Hne & _ & Hvc).
  eexists kvs, m, _, _, u.
  split; [reflexivity|]. split; [exact Hm|]. split; [reflexivity|].
  split; [apply dict_get_set_eq|].
  split; [by rewrite dict_get_set_ne, dict_get_remove_ne, dict_get_set_eq|].
  split; [by rewrite dict_get_set_ne, dict_get_remove_eq|].
  split; [apply dict_get_set_eq|].
  split; [intros k Hk; by apply dict_get_set_ne|].
  split; [intros k H1 H2 H3; by rewrite dict_get_set_ne, dict_get_remove_ne, dict_get_set_ne|].
  unfold get_or in Hu. destruct (dict_get "instance_url" m) as [v|].
  - subst v. done.
  - injection Hu as <-. done.
Qed.

Lemma save_accounts_gate_passes (CONFIG_PATH DEFAULT_CONFIG_PATH : string)
    (boost_form like_form : option string) (d : gmap string file_content)
    (kvs m : list (string * pyval)) :
  (load_config CONFIG_PATH DEFAULT_CONFIG_PATH d).1 = Ok (PDict kvs) ->
  get_or (PDict []) "mastodon" kvs = PDict m ->
  truthy (get_or PNone "instance_url" m) && truthy (get_or PNone "token_valid" m) = true ->
  (save_accounts CONFIG_PATH DEFAULT_CONFIG_PATH boost_form like_form d).1
  <> Redirect "Save token first." true.
Proof.
  intros Hl Hm Hg. unfold save_accounts.
  destruct (load_config CONFIG_PATH DEFAULT_CONFIG_PATH d) as [o d1]. simpl in Hl. subst o.
  rewrite Hm, Hg. simpl.
  match goal with |- context [match py_iter ?v with _ => _ end] => destruct (py_iter v) end; [destruct (existing_like_error _)|];
    discriminate.
Qed.

(** *** Successful [save_accounts] *)

Lemma new_like_entry_account (ex : list (pyval * list (string * pyval))) (a : string) :
  exists m, new_like_entry ex a = PDict m /\ dict_get "account" m = Some (PStr a).
Proof.
  unfold new_like_entry. destruct (lookup_existing a ex) as [m|].
  - eexists. split; [reflexivity|apply dict_get_set_eq].
  - eexists. split; [reflexivity|]. reflexivity.
Qed.

Lemma new_like_entries_accounts (ex : list (pyval * list (string * pyval)))
    (accounts : list string) :
  Forall2 (fun e a => exists m, e = PDict m /\ dict_get "account" m = Some (PStr a))
    (map (new_like_entry ex) accounts) accounts.
Proof.
  induction accounts as [|a accounts IH]; simpl; constructor; [|exact IH].
  apply new_like_entry_account.
Qed.

Lemma existing_like_configs_key (items : list pyval) (e : pyval * list (string * pyval)) :
  In e (existing_like_configs items) ->
  exists m, In (PDict m) items /\ dict_get "account" m = Some e.1.
Proof.
  unfold existing_like_configs. rewrite in_flat_map.
  intros (item & Hi & He).
  destruct item as [| | | | |m]; try contradiction.
  destruct (dict_get "account" m) as [a|] eqn:Ha; [|contradiction].
  destruct (truthy a); [|contradiction].
  destruct He as [<-|[]]. by exists m.
Qed.

Lemma filter_none {A} (f : A -> bool) (l : list A) :
  (forall x, In x l -> f x = false) -> List.filter f l = [].
Proof.
  induction l as [|x l IH]; intros H; simpl; [reflexivity|].
  rewrite (H x (or_introl eq_refl)). apply IH. intros y Hy. apply H. by right.
Qed.

Lemma lookup_existing_none (a : string) (ex : list (pyval * list (string * pyval))) :
  (forall e, In e ex -> e.1 <> PStr a) -> lookup_existing a ex = None.
Proof.
  intros H. unfold lookup_existing. rewrite filter_none; [reflexivity|].
  intros [k m] Hx. apply in_rev in Hx. specialize (H _ Hx). simpl in *.
  destruct k; try reflexivity. apply String.eqb_neq. congruence.
Qed.

Lemma lookup_existing_last (a : string) (m : list (string * pyval))
    (ex1 ex2 : list (pyval * list (string * pyval))) :
  (forall e, In e ex2 -> e.1 <> PStr a) ->
  lookup_existing a (ex1 ++ (PStr a, m) :: ex2) = Some m.
Proof.
  intros H. unfold lookup_existing.
  replace (rev (ex1 ++ (PStr a, m) :: ex2)) with (rev ex2 ++ (PStr a, m) :: rev ex1)
    by (rewrite rev_app_distr; simpl; by rewrite <- app_assoc).
  rewrite List.filter_app, (filter_none _ (rev ex2)).
  - simpl. by rewrite String.eqb_refl.
  - intros [k m'] Hx. apply in_rev in Hx. specialize (H _ Hx). simpl in *.
    destruct k; try reflexivity. apply String.eqb_neq. congruence.
Qed.

Lemma load_config_written (CONFIG_PATH DEFAULT_CONFIG_PATH : string)
    (d : gmap string file_content) (kvs : list (string * pyval)) (k : string) (v : pyval) :
  dict_get k kvs = Some v ->
  load_config CONFIG_PATH DEFAULT_CONFIG_PATH (<[CONFIG_PATH := Json (PDict kvs)]> d)
  = (Ok (PDict kvs), <[CONFIG_PATH := Json (PDict kvs)]> d).
Proof.
  intros H. unfold load_config. rewrite lookup_insert_eq. simpl.
  by rewrite (or_empty_dict _ _ _ H).
Qed.

(** X1: [_normalize_accounts] returns each account once; the accounts are
    exactly the non-empty stripped lines of the text, and each is already
    stripped. *)
Theorem normalize_accounts_clean (text : string) :
  let accounts := normalize_accounts text in
  NoDup accounts /\
  (forall a, In a accounts <->
     a <> ""%string /\ exists line, In line (splitlines text) /\ strip line = a) /\
  (forall a, In a accounts -> strip a = a).
Proof.
  unfold normalize_accounts. cbv zeta.
  match goal with |- context [fold_left ?f ?l ([], ∅)] =>
    destruct (normalize_fold l [] ∅) as [H1 H2] end.
  { intros x. split; [intros Hx; by apply elem_of_empty in Hx|intros []]. }
  { constructor. }
  assert (Hm : forall a, In a (List.filter (fun line => negb (String.eqb line ""))
                                 (map strip (splitlines text))) <->
                 a <> ""%string /\ exists line, In line (splitlines text) /\ strip line = a).
  { intros a. rewrite filter_In, in_map_iff, negb_true_iff, String.eqb_neq.
    split; [intros [(l & Hl & Hi) Hne]; split; [done|by exists l]|].
    intros [Hne (l & Hi & Hl)]. split; [by exists l|done]. }
  split; [exact H1|]. split.
  - intros a. rewrite H2, <- Hm. simpl. tauto.
  - intros a Ha. apply H2 in Ha as [[]|Ha]. apply Hm in Ha as [_ (l & _ & <-)].
    apply strip_idem.
Qed.

(** X2: [_validate_token] makes no request and answers [False] when the
    instance URL is falsy or the token is empty; a trailing slash on the
    instance URL does not change the request it makes. *)
Theorem validate_token_edges :
  (forall verify_credentials url token,
     truthy url = false \/ token = ""%string ->
     validate_token verify_credentials url token = Ok false) /\
  (forall verify_credentials u token, u <> ""%string ->
     validate_token verify_credentials (PStr (u ++ "/")) token
     = validate_token verify_credentials (PStr u) token).
Proof.
  split.
  - intros vc url token [H|H]; unfold validate_token; rewrite H; simpl; [reflexivity|].
    by rewrite orb_true_r.
  - intros vc u token Hu. unfold validate_token. simpl truthy.
    assert (E1 : String.eqb (u ++ "/") "" = false)
      by (apply String.eqb_neq, append_nonempty; discriminate).
    assert (E2 : String.eqb u "" = false) by (by apply String.eqb_neq).
    rewrite E1, E2. simpl. by rewrite rstrip_slash_trailing.
Qed.

(** X3: a successful [save_token] writes the configuration with the token
    encrypted under [mastodon.access_token_encrypted], no plain
    [mastodon.access_token] and [mastodon.token_valid] true, every other
    setting kept; it happens only when the configured instance URL is
    non-empty and the instance accepted the stripped token. *)
Theorem save_token_stores_encrypted (CONFIG_PATH DEFAULT_CONFIG_PATH : string)
    (verify_credentials : string -> string -> bool) (encrypt : string -> string)
    (form : option string) (d d' : gmap string file_content) :
  save_token CONFIG_PATH DEFAULT_CONFIG_PATH verify_credentials (Some encrypt) form d
  = (Redirect "Token verified and stored." false, d') ->
  exists kvs m kvs' m' u,
    (load_config CONFIG_PATH DEFAULT_CONFIG_PATH d).1 = Ok (PDict kvs) /\
    mastodon_section kvs = Ok m /\
    d' = <[CONFIG_PATH := Json (PDict kvs')]> (load_config CONFIG_PATH DEFAULT_CONFIG_PATH d).2 /\
    dict_get "mastodon" kvs' = Some (PDict m') /\
    dict_get "access_token_encrypted" m' = Some (PStr (encrypt (strip (form_get form)))) /\
    dict_get "access_token" m' = None /\
    dict_get "token_valid" m' = Some (PBool true) /\
    (forall k, k <> "mastodon"%string -> dict_get k kvs' = dict_get k kvs) /\
    (forall k, k <> "access_token_encrypted"%string -> k <> "access_token"%string ->
       k <> "token_valid"%string -> dict_get k m' = dict_get k m) /\
    dict_get "instance_url" m = Some (PStr u) /\ u <> ""%string /\
    verify_credentials (rstrip_slash u ++ "/api/v1/accounts/verify_credentials")%string
      (strip (form_get form)) = true.
Proof. apply save_token_result. Qed.

(** X4: after a successful [save_token], [save_accounts] no longer answers
    "Save token first.", and the index page, when it renders, offers the
    account lists for editing and reports the token as stored encrypted. *)
Theorem save_token_unlocks_accounts (CONFIG_PATH DEFAULT_CONFIG_PATH : string)
    (verify_credentials : string -> string -> bool) (encrypt : string -> string)
    (form : option string) (d d' : gmap string file_content) :
  (forall x, encrypt x <> ""%string) ->
  save_token CONFIG_PATH DEFAULT_CONFIG_PATH verify_credentials (Some encrypt) form d
  = (Redirect "Token verified and stored." false, d') ->
  (forall boost_form like_form,
     (save_accounts CONFIG_PATH DEFAULT_CONFIG_PATH boost_form like_form d').1
     <> Redirect "Save token first." true) /\
  (forall p d'', index_view CONFIG_PATH DEFAULT_CONFIG_PATH (Some encrypt) d' = (Ok p, d'') ->
     page_can_edit_accounts p = true /\ page_token_status p = "Token stored (encrypted)."%string).
Proof.
  intros Henc Hs.
  destruct (save_token_result _ _ _ _ _ _ _ Hs)
    as (kvs & m & kvs' & m' & u & _ & _ & -> & Hm' & Henc' & _ & Hv & _ & Hk & Hu & Hne & _).
  pose proof (load_config_written CONFIG_PATH DEFAULT_CONFIG_PATH
                (load_config CONFIG_PATH DEFAULT_CONFIG_PATH d).2 _ _ _ Hm') as Hl.
  assert (Hg : get_or (PDict []) "mastodon" kvs' = PDict m') by (unfold get_or; by rewrite Hm').
  assert (Hi : get_or PNone "instance_url" m' = PStr u)
    by (unfold get_or; rewrite Hk; [by rewrite Hu|discriminate..]).
  assert (Hgate : truthy (get_or PNone "instance_url" m') && truthy (get_or PNone "token_valid" m')
                  = true).
  { rewrite Hi. unfold get_or. rewrite Hv. simpl. apply String.eqb_neq in Hne. by rewrite Hne. }
  split.
  - intros b l. eapply save_accounts_gate_passes; [by rewrite Hl|exact Hg|exact Hgate].
  - intros p d'' H. unfold index_view in H. rewrite Hl in H. cbv zeta in H.
    destruct (py_iter _) as [items|e]; [|discriminate]. rewrite Hg in H.
    destruct (get_instance_url _) as [url|e]; [|discriminate].
    unfold token_status in H. rewrite Hg in H.
    assert (Ht : truthy (get_or PNone "access_token_encrypted" m') = true).
    { unfold get_or. rewrite Henc'. simpl. apply negb_true_iff, String.eqb_neq, Henc. }
    rewrite Ht in H. injection H as <- _. simpl. split; [exact Hgate|reflexivity].
Qed.

(** X5: the index page offers the account lists for editing exactly when
    [save_accounts] would pass its gate: when it does not, [save_accounts]
    answers "Save token first." and writes nothing beyond what loading the
    configuration wrote. *)
Theorem index_can_edit_matches_gate (CONFIG_PATH DEFAULT_CONFIG_PATH : string)
    (fernet : option (string -> string)) (d d1 : gmap string file_content) (p : page) :
  index_view CONFIG_PATH DEFAULT_CONFIG_PATH fernet d = (Ok p, d1) ->
  (page_can_edit_accounts p = false ->
     forall boost_form like_form,
       save_accounts CONFIG_PATH DEFAULT_CONFIG_PATH boost_form like_form d
       = (Redirect "Save token first." true, d1)) /\
  (page_can_edit_accounts p = true ->
     forall boost_form like_form,
       (save_accounts CONFIG_PATH DEFAULT_CONFIG_PATH boost_form like_form d).1
       <> Redirect "Save token first." true).
Proof.
  intros H. unfold index_view in H.
  destruct (load_config CONFIG_PATH DEFAULT_CONFIG_PATH d) as [[config|e] d0] eqn:Hl;
    [|discriminate].
  destruct config as [| | | | |kvs]; try discriminate. cbv zeta in H.
  destruct (py_iter _) as [items|e]; [|discriminate].
  destruct (get_or (PDict []) "mastodon" kvs) as [| | | | |m] eqn:Hm; try discriminate.
  destruct (get_instance_url _) as [url|e]; [|discriminate].
  destruct (token_status _ _) as [ts|e]; [|discriminate].
  injection H as <- <-. simpl. split.
  - intros Hc b l. unfold save_accounts. rewrite Hl, Hm, Hc. reflexivity.
  - intros Hc b l. eapply save_accounts_gate_passes; [by rewrite Hl|exact Hm|exact Hc].
Qed.

(** X6: a successful [save_accounts] writes [accounts_to_monitor] as the
    normalised boost list when that field was sent, [likes] as one rule per
    normalised like account, in order, when that field was sent, leaves a
    list whose field was not sent as it was, and keeps every other setting. *)
Theorem save_accounts_saved_lists (CONFIG_PATH DEFAULT_CONFIG_PATH : string)
    (boost_form like_form : option string) (d d' : gmap string file_content) :
  save_accounts CONFIG_PATH DEFAULT_CONFIG_PATH boost_form like_form d
  = (Redirect "Accounts saved." false, d') ->
  exists kvs kvs',
    (load_config CONFIG_PATH DEFAULT_CONFIG_PATH d).1 = Ok (PDict kvs) /\
    d' = <[CONFIG_PATH := Json (PDict kvs')]> (load_config CONFIG_PATH DEFAULT_CONFIG_PATH d).2 /\
    dict_get "accounts_to_monitor" kvs' =
      match boost_form with
      | Some text => Some (PList (map PStr (normalize_accounts text)))
      | None => dict_get "accounts_to_monitor" kvs
      end /\
    match like_form with
    | Some text =>
        exists entries, dict_get "likes" kvs' = Some (PList entries) /\
          Forall2 (fun e a => exists m, e = PDict m /\ dict_get "account" m = Some (PStr a))
            entries (normalize_accounts text)
    | None => dict_get "likes" kvs' = dict_get "likes" kvs
    end /\
    (forall k, k <> "accounts_to_monitor"%string -> k <> "likes"%string ->
       dict_get k kvs' = dict_get k kvs).
Proof.
  unfold save_accounts.
  destruct (load_config CONFIG_PATH DEFAULT_CONFIG_PATH d) as [[config|e] d1];
    [|discriminate].
  destruct config as [| | | | |kvs]; try discriminate.
  destruct (get_or (PDict []) "mastodon" kvs) as [| | | | |m]; try discriminate.
  destruct (negb _); [discriminate|].
  match goal with |- context [match py_iter ?v with _ => _ end] =>
    destruct (py_iter v) as [items|e] end; [|discriminate].
  destruct (existing_like_error items); [discriminate|].
  intros [= <-]. unfold save_config. eexists kvs, _.
  split; [reflexivity|]. split; [reflexivity|].
  destruct boost_form as [bt|], like_form as [lt|].
  - rewrite dict_get_set_ne, dict_get_set_eq by discriminate.
    split; [reflexivity|]. split.
    + eexists. split; [apply dict_get_set_eq|apply new_like_entries_accounts].
    + intros k H1 H2. by rewrite !dict_get_set_ne.
  - rewrite dict_get_set_eq. split; [reflexivity|]. split.
    + by rewrite dict_get_set_ne.
    + intros k H1 H2. by rewrite dict_get_set_ne.
  - rewrite dict_get_set_ne by discriminate. split; [reflexivity|]. split.
    + eexists. split; [apply dict_get_set_eq|apply new_like_entries_accounts].
    + intros k H1 H2. by rewrite dict_get_set_ne.
  - split; [reflexivity|]. split; [reflexivity|]. done.
Qed.

(** X7: in [save_accounts], a like account that already had a rule keeps
    that rule with all its settings (the last rule listed for the account
    wins), and a new like account gets [{"account": a, "like_everything":
    True}]. *)
Theorem like_entry_keeps_rule (pre post : list pyval) (m : list (string * pyval))
    (a : string) :
  a <> ""%string ->
  dict_get "account" m = Some (PStr a) ->
  (forall m', In (PDict m') post -> dict_get "account" m' <> Some (PStr a)) ->
  new_like_entry (existing_like_configs (pre ++ PDict m :: post)) a
  = PDict (dict_set "account" (PStr a) m) /\
  (forall k, k <> "account"%string ->
     dict_get k (dict_set "account" (PStr a) m) = dict_get k m) /\
  (forall items, (forall m', In (PDict m') items -> dict_get "account" m' <> Some (PStr a)) ->
     new_like_entry (existing_like_configs items) a
     = PDict [("account", PStr a); ("like_everything", PBool true)]).
Proof.
  intros Ha Hm Hpost.
  assert (Hno : forall items, (forall m', In (PDict m') items -> dict_get "account" m' <> Some (PStr a)) ->
                forall e, In e (existing_like_configs items) -> e.1 <> PStr a).
  { intros items Hi e He Heq. destruct (existing_like_configs_key _ _ He) as (m' & Hin & Hk).
    rewrite Heq in Hk. exact (Hi _ Hin Hk). }
  split; [|split].
  - unfold existing_like_configs. rewrite flat_map_app. simpl. rewrite Hm.
    simpl. apply String.eqb_neq in Ha. rewrite Ha. simpl.
    unfold new_like_entry. rewrite lookup_existing_last; [reflexivity|].
    exact (Hno _ Hpost).
  - intros k Hk. by apply dict_get_set_ne.
  - intros items Hi. unfold new_like_entry. by rewrite lookup_existing_none; [|apply Hno].
Qed.

(** X8: [_load_config] is idempotent: loading again after a load returns
    the same configuration and writes nothing; it only ever writes
    [CONFIG_PATH], and never when that file exists. *)
Theorem load_config_stable (CONFIG_PATH DEFAULT_CONFIG_PATH : string)
    (d : gmap string file_content) :
  load_config CONFIG_PATH DEFAULT_CONFIG_PATH (load_config CONFIG_PATH DEFAULT_CONFIG_PATH d).2
  = load_config CONFIG_PATH DEFAULT_CONFIG_PATH d /\
  (forall f, f <> CONFIG_PATH ->
     (load_config CONFIG_PATH DEFAULT_CONFIG_PATH d).2 !! f = d !! f) /\
  (d !! CONFIG_PATH <> None -> (load_config CONFIG_PATH DEFAULT_CONFIG_PATH d).2 = d).
Proof.
  split; [|split; [intros f; apply load_config_only_config|apply load_config_disk]].
  unfold load_config. destruct (d !! CONFIG_PATH) as [c|] eqn:E1.
  - destruct (parse_yaml c) eqn:E; simpl; by rewrite E1, E.
  - destruct (d !! DEFAULT_CONFIG_PATH) as [c|] eqn:E2.
    + destruct (parse_yaml c) as [v|e] eqn:E3; simpl.
      * unfold save_config. rewrite lookup_insert_eq. simpl. by rewrite or_empty_idem.
      * by rewrite E1, E2, E3.
    + simpl. by rewrite E1, E2.
Qed.

(** X9: a successful [save_instance] stores the stripped, non-empty URL as
    [mastodon.instance_url], sets [mastodon.token_valid] to false and keeps
    every other setting, including a stored token. *)
Theorem save_instance_keeps_settings (CONFIG_PATH DEFAULT_CONFIG_PATH : string)
    (form : option string) (d d' : gmap string file_content) :
  save_instance CONFIG_PATH DEFAULT_CONFIG_PATH form d = (Redirect "Instance saved." false, d') ->
  exists kvs m kvs' m',
    (load_config CONFIG_PATH DEFAULT_CONFIG_PATH d).1 = Ok (PDict kvs) /\
    mastodon_section kvs = Ok m /\
    d' = <[CONFIG_PATH := Json (PDict kvs')]> (load_config CONFIG_PATH DEFAULT_CONFIG_PATH d).2 /\
    dict_get "mastodon" kvs' = Some (PDict m') /\
    dict_get "instance_url" m' = Some (PStr (strip (form_get form))) /\
    strip (form_get form) <> ""%string /\
    dict_get "token_valid" m' = Some (PBool false) /\
    (forall k, k <> "mastodon"%string -> dict_get k kvs' = dict_get k kvs) /\
    (forall k, k <> "instance_url"%string -> k <> "token_valid"%string ->
       dict_get k m' = dict_get k m).
Proof.
  unfold save_instance.
  destruct (load_config CONFIG_PATH DEFAULT_CONFIG_PATH d) as [[config|e] d1];
    [|discriminate].
  destruct (String.eqb (strip (form_get form)) "") eqn:E; [discriminate|].
  apply String.eqb_neq in E.
  destruct config as [| | | | |kvs]; try discriminate.
  destruct (mastodon_section kvs) as [m|e] eqn:Hm; [|discriminate].
  intros [= <-]. unfold save_config. eexists kvs, m, _, _.
  split; [reflexivity|]. split; [exact Hm|]. split; [reflexivity|].
  split; [apply dict_get_set_eq|].
  split; [by rewrite dict_get_set_ne, dict_get_set_eq|].
  split; [exact E|].
  split; [apply dict_get_set_eq|].
  split; [intros k Hk; by apply dict_get_set_ne|].
  intros k H1 H2. by rewrite !dict_get_set_ne.
Qed.

(** X10: when the configuration file exists, every request either ends in
    a success redirect (error flag off) or leaves the files unchanged. *)
Theorem failed_requests_write_nothing (CONFIG_PATH DEFAULT_CONFIG_PATH : string)
    (verify_credentials : string -> string -> bool) (fernet : option (string -> string))
    (r : request) (d : gmap string file_content) :
  d !! CONFIG_PATH <> None ->
  (handle CONFIG_PATH DEFAULT_CONFIG_PATH verify_credentials fernet r d).2 = d \/
  exists msg, (handle CONFIG_PATH DEFAULT_CONFIG_PATH verify_credentials fernet r d).1
              = Redirect msg false.
Proof.
  intros Hc. pose proof (load_config_disk CONFIG_PATH DEFAULT_CONFIG_PATH d Hc) as Hd.
  unfold handle. destruct r as [|u|t|b l]; [left; by rewrite index_disk|..];
    [unfold save_instance|unfold save_token|unfold save_accounts];
    try (destruct (String.eqb _ _); [by left|]);
    destruct (load_config CONFIG_PATH DEFAULT_CONFIG_PATH d) as [o d1];
    simpl in Hd; subst d1;
    repeat (case_match; simpl); try (by left); right; by eexists.
Qed.

(** X11: without a usable [TOKEN_ENC_KEY], [save_token] never reports
    success and writes nothing beyond what loading the configuration
    wrote. *)
Theorem save_token_needs_key (CONFIG_PATH DEFAULT_CONFIG_PATH : string)
    (verify_credentials : string -> string -> bool) (form : option string)
    (d : gmap string file_content) :
  (save_token CONFIG_PATH DEFAULT_CONFIG_PATH verify_credentials None form d).1
  <> Redirect "Token verified and stored." false /\
  ((save_token CONFIG_PATH DEFAULT_CONFIG_PATH verify_credentials None form d).2 = d \/
   (save_token CONFIG_PATH DEFAULT_CONFIG_PATH verify_credentials None form d).2
   = (load_config CONFIG_PATH DEFAULT_CONFIG_PATH d).2).
Proof.
  unfold save_token.
  destruct (String.eqb (strip (form_get form)) ""); [split; [discriminate|by left]|].
  destruct (load_config CONFIG_PATH DEFAULT_CONFIG_PATH d) as [o d1]. simpl.
  destruct o as [config|e]; [|split; [discriminate|by right]].
  unfold store_token.
  repeat (case_match; simpl); split; try discriminate; by right.
Qed.

Definition ex_verify (url token : string) : bool :=
  String.eqb url "https://old.example/api/v1/accounts/verify_credentials"
  && String.eqb token "secret".

Definition ex_encrypt (token : string) : string := "gAAAA" ++ token.

Lemma save_token_stores_encrypted_witness :
  let d' := (save_token "config.yaml" "config.example.yaml" ex_verify (Some ex_encrypt)
               (Some " secret ") ex_disk).2 in
  save_token "config.yaml" "config.example.yaml" ex_verify (Some ex_encrypt)
    (Some " secret ") ex_disk = (Redirect "Token verified and stored." false, d') /\
  exists kvs m kvs' m' u,
    (load_config "config.yaml" "config.example.yaml" ex_disk).1 = Ok (PDict kvs) /\
    mastodon_section kvs = Ok m /\
    d' = <["config.yaml" := Json (PDict kvs')]>
           (load_config "config.yaml" "config.example.yaml" ex_disk).2 /\
    dict_get "mastodon" kvs' = Some (PDict m') /\
    dict_get "access_token_encrypted" m' = Some (PStr (ex_encrypt (strip (form_get (Some " secret "))))) /\
    dict_get "access_token" m' = None /\
    dict_get "token_valid" m' = Some (PBool true) /\
    (forall k, k <> "mastodon"%string -> dict_get k kvs' = dict_get k kvs) /\
    (forall k, k <> "access_token_encrypted"%string -> k <> "access_token"%string ->
       k <> "token_valid"%string -> dict_get k m' = dict_get k m) /\
    dict_get "instance_url" m = Some (PStr u) /\ u <> ""%string /\
    ex_verify (rstrip_slash u ++ "/api/v1/accounts/verify_credentials")%string
      (strip (form_get (Some " secret "))) = true.
Proof.
  intros d'.
  assert (Hs : save_token "config.yaml" "config.example.yaml" ex_verify (Some ex_encrypt)
                 (Some " secret ") ex_disk = (Redirect "Token verified and stored." false, d'))
    by (vm_compute; reflexivity).
  split; [exact Hs|].
  exact (save_token_stores_encrypted _ _ _ _ _ _ _ Hs).
Defined.

Lemma save_token_unlocks_accounts_witness :
  let d' := (save_token "config.yaml" "config.example.yaml" ex_verify (Some ex_encrypt)
               (Some " secret ") ex_disk).2 in
  (forall x, ex_encrypt x <> ""%string) /\
  save_token "config.yaml" "config.example.yaml" ex_verify (Some ex_encrypt)
    (Some " secret ") ex_disk = (Redirect "Token verified and stored." false, d') /\
  (forall boost_form like_form,
     (save_accounts "config.yaml" "config.example.yaml" boost_form like_form d').1
     <> Redirect "Save token first." true) /\
  (forall p d'', index_view "config.yaml" "config.example.yaml" (Some ex_encrypt) d' = (Ok p, d'') ->
     page_can_edit_accounts p = true /\ page_token_status p = "Token stored (encrypted)."%string).
Proof.
  intros d'.
  assert (He : forall x, ex_encrypt x <> ""%string) by (intros x; discriminate).
  assert (Hs : save_token "config.yaml" "config.example.yaml" ex_verify (Some ex_encrypt)
                 (Some " secret ") ex_disk = (Redirect "Token verified and stored." false, d'))
    by (vm_compute; reflexivity).
  split; [exact He|]. split; [exact Hs|].
  exact (save_token_unlocks_accounts _ _ _ _ _ _ _ He Hs).
Defined.

Lemma index_can_edit_matches_gate_witness :
  index_view "config.yaml" "config.example.yaml" (Some ex_encrypt) ex_disk
  = (Ok (mkPage (PStr "https://old.example") (PList [PStr "alice@example.org"]) []
           "No token stored yet." true), ex_disk) /\
  (true = false ->
     forall boost_form like_form,
       save_accounts "config.yaml" "config.example.yaml" boost_form like_form ex_disk
       = (Redirect "Save token first." true, ex_disk)) /\
  (true = true ->
     forall boost_form like_form,
       (save_accounts "config.yaml" "config.example.yaml" boost_form like_form ex_disk).1
       <> Redirect "Save token first." true).
Proof.
  assert (Hi : index_view "config.yaml" "config.example.yaml" (Some ex_encrypt) ex_disk
               = (Ok (mkPage (PStr "https://old.example") (PList [PStr "alice@example.org"]) []
                        "No token stored yet." true), ex_disk)) by (vm_compute; reflexivity).
  split; [exact Hi|].
  exact (index_can_edit_matches_gate _ _ _ _ _ _ Hi).
Defined.

Lemma save_accounts_saved_lists_witness :
  let d' := (save_accounts "config.yaml" "config.example.yaml"
               (Some "bob@example.org
 bob@example.org 

dave@example.org") (Some "carol@example.org") ex_disk).2 in
  save_accounts "config.yaml" "config.example.yaml"
    (Some "bob@example.org
 bob@example.org 

dave@example.org") (Some "carol@example.org") ex_disk
  = (Redirect "Accounts saved." false, d') /\
  exists kvs kvs',
    (load_config "config.yaml" "config.example.yaml" ex_disk).1 = Ok (PDict kvs) /\
    d' = <["config.yaml" := Json (PDict kvs')]>
           (load_config "config.yaml" "config.example.yaml" ex_disk).2 /\
    dict_get "accounts_to_monitor" kvs' =
      Some (PList (map PStr (normalize_accounts "bob@example.org
 bob@example.org 

dave@example.org"))) /\
    (exists entries, dict_get "likes" kvs' = Some (PList entries) /\
       Forall2 (fun e a => exists m, e = PDict m /\ dict_get "account" m = Some (PStr a))
         entries (normalize_accounts "carol@example.org")) /\
    (forall k, k <> "accounts_to_monitor"%string -> k <> "likes"%string ->
       dict_get k kvs' = dict_get k kvs).
Proof.
  intros d'.
  assert (Hs : save_accounts "config.yaml" "config.example.yaml"
                 (Some "bob@example.org
 bob@example.org 

dave@example.org") (Some "carol@example.org") ex_disk
               = (Redirect "Accounts saved." false, d')) by (vm_compute; reflexivity).
  split; [exact Hs|].
  exact (save_accounts_saved_lists _ _ _ _ _ _ Hs).
Defined.

Lemma like_entry_keeps_rule_witness :
  let m := [("account", PStr "alice@example.org"); ("require_media", PBool true)] in
  ("alice@example.org" <> ""%string /\
   dict_get "account" m = Some (PStr "alice@example.org") /\
   (forall m', In (PDict m') [PStr "junk"] ->
      dict_get "account" m' <> Some (PStr "alice@example.org"))) /\
  new_like_entry (existing_like_configs
                    ([PDict [("account", PStr "alice@example.org"); ("like_everything", PBool true)]]
                     ++ PDict m :: [PStr "junk"])) "alice@example.org"
  = PDict (dict_set "account" (PStr "alice@example.org") m) /\
  (forall k, k <> "account"%string ->
     dict_get k (dict_set "account" (PStr "alice@example.org") m) = dict_get k m) /\
  (forall items, (forall m', In (PDict m') items ->
                    dict_get "account" m' <> Some (PStr "alice@example.org")) ->
     new_like_entry (existing_like_configs items) "alice@example.org"
     = PDict [("account", PStr "alice@example.org"); ("like_everything", PBool true)]).
Proof.
  intros m.
  assert (H1 : "alice@example.org" <> ""%string) by discriminate.
  assert (H2 : dict_get "account" m = Some (PStr "alice@example.org")) by reflexivity.
  assert (H3 : forall m', In (PDict m') [PStr "junk"] ->
                 dict_get "account" m' <> Some (PStr "alice@example.org"))
    by (intros m' [H|[]]; discriminate).
  split; [split; [exact H1|split; [exact H2|exact H3]]|].
  exact (like_entry_keeps_rule _ _ _ _ H1 H2 H3).
Defined.

Lemma save_instance_keeps_settings_witness :
  let d' := (save_instance "config.yaml" "config.example.yaml"
               (Some " https://new.example ") ex_disk).2 in
  save_instance "config.yaml" "config.example.yaml" (Some " https://new.example ") ex_disk
  = (Redirect "Instance saved." false, d') /\
  exists kvs m kvs' m',
    (load_config "config.yaml" "config.example.yaml" ex_disk).1 = Ok (PDict kvs) /\
    mastodon_section kvs = Ok m /\
    d' = <["config.yaml" := Json (PDict kvs')]>
           (load_config "config.yaml" "config.example.yaml" ex_disk).2 /\
    dict_get "mastodon" kvs' = Some (PDict m') /\
    dict_get "instance_url" m' = Some (PStr (strip (form_get (Some " https://new.example ")))) /\
    strip (form_get (Some " https://new.example ")) <> ""%string /\
    dict_get "token_valid" m' = Some (PBool false) /\
    (forall k, k <> "mastodon"%string -> dict_get k kvs' = dict_get k kvs) /\
    (forall k, k <> "instance_url"%string -> k <> "token_valid"%string ->
       dict_get k m' = dict_get k m).
Proof.
  intros d'.
  assert (Hs : save_instance "config.yaml" "config.example.yaml" (Some " https://new.example ")
                 ex_disk = (Redirect "Instance saved." false, d')) by (vm_compute; reflexivity).
  split; [exact Hs|].
  exact (save_instance_keeps_settings _ _ _ _ _ Hs).
Defined.

Lemma failed_requests_write_nothing_witness :
  ex_disk !! "config.yaml" <> None /\
  ((handle "config.yaml" "config.example.yaml" ex_verify None
      (SaveAccounts (Some "bob@example.org") None) ex_disk).2 = ex_disk \/
   exists msg, (handle "config.yaml" "config.example.yaml" ex_verify None
                  (SaveAccounts (Some "bob@example.org") None) ex_disk).1
               = Redirect msg false).
Proof.
  assert (Hc : ex_disk !! "config.yaml" <> None) by (intros H; vm_compute in H; discriminate H).
  split; [exact Hc|].
  exact (failed_requests_write_nothing _ _ _ _ _ _ Hc).
Defined.

(* ------------------------------------------------------------------ *)
(** ** The poll cycle: what a cycle keeps and what it does *)

(** Reloading the three files would give back the sets held in memory. *)
Definition synced (st : bot_state) : Prop :=
  read_ids (disk st) processed_file "posts" (processed_posts st) = Ok (processed_posts st) /\
  read_ids (disk st) liked_file "posts" (liked_posts st) = Ok (liked_posts st) /\
  read_ids (disk st) followed_file "accounts" (followed_accounts st) = Ok (followed_accounts st).

Lemma read_ids_insert_ne (d : gmap string file_content) (f fname key : string)
    (c : file_content) (cur : gset hashable) :
  f <> fname -> read_ids (<[f := c]> d) fname key cur = read_ids d fname key cur.
Proof. intros H. unfold read_ids. by rewrite lookup_insert_ne. Qed.

Ltac file_names := unfold processed_file, liked_file, followed_file; discriminate.

Section Evolve.
Variable cfg : bot_config.
Variable mastodon : api.

(** [s] is among the statuses the client returned for a monitored
    account that the search resolved, fetched as [check_new_posts] does. *)
Definition repost_candidate (s : status) : Prop :=
  exists h aid rest ss,
    In h (accounts_to_monitor cfg) /\ account_search mastodon h = Ok (aid :: rest) /\
    aid <> ""%string /\
    account_statuses mastodon aid (exclude_replies cfg) (exclude_reblogs cfg) = Ok ss /\
    In s ss.

(** [s] is among the statuses the client returned for the account of the
    like rule [r] of the configuration, fetched as [check_likes] does. *)
Definition like_candidate (r : Like.rule) (s : status) : Prop :=
  In r (like_accounts cfg) /\
  exists aid rest ss,
    account_search mastodon (Like.account r) = Ok (aid :: rest) /\ aid <> ""%string /\
    account_statuses mastodon aid (Like.exclude_replies r) false = Ok ss /\ In s ss.

(** Follow-back is enabled and [i] is the id of one of the followers the
    client returned for the bot's own account. *)
Definition follow_candidate (i : string) : Prop :=
  enable_follow_back cfg = true /\
  exists me_id fl acct,
    me mastodon = Ok me_id /\ account_followers mastodon me_id = Ok fl /\ In (i, acct) fl.

(** A remote action issued from state [st0] on: a reblog of a fetched
    status that was not processed at [st0] and that [_should_repost]
    accepts, a favourite of a status fetched for a like rule, not liked at
    [st0], that this rule accepts, a follow of a listed follower not
    followed at [st0]. *)
Definition action_ok (st0 : bot_state) (a : action) : Prop :=
  match a with
  | Reblog i => (HStr i ∉ processed_posts st0) /\
                exists s, status_id s = i /\ should_repost cfg s = true /\ repost_candidate s
  | Favourite i => (HStr i ∉ liked_posts st0) /\
                   exists s r, status_id s = i /\ should_like s r = true /\
                               like_candidate r s
  | Follow i => (HStr i ∉ followed_accounts st0) /\ follow_candidate i
  end.

(** From [st] to [st']: no id leaves a set, the files stay in step with
    the sets, and the actions issued meanwhile satisfy [action_ok st]. *)
Definition evolves (st st' : bot_state) : Prop :=
  processed_posts st ⊆ processed_posts st' /\
  liked_posts st ⊆ liked_posts st' /\
  followed_accounts st ⊆ followed_accounts st' /\
  (synced st -> synced st') /\
  exists new, actions st' = new ++ actions st /\ Forall (action_ok st) new.

Definition preserves {A} (m : M A) : Prop := forall st, evolves st (m st).2.

Lemma evolves_refl (st : bot_state) : evolves st st.
Proof.
  split; [done|]. split; [done|]. split; [done|]. split; [done|].
  by exists [].
Qed.

Lemma action_ok_mono (st st' : bot_state) (a : action) :
  processed_posts st ⊆ processed_posts st' -> liked_posts st ⊆ liked_posts st' ->
  followed_accounts st ⊆ followed_accounts st' ->
  action_ok st' a -> action_ok st a.
Proof.
  intros H1 H2 H3. destruct a; simpl; intros [Hn Hs]; (split; [set_solver|exact Hs]).
Qed.

Lemma evolves_trans (st1 st2 st3 : bot_state) :
  evolves st1 st2 -> evolves st2 st3 -> evolves st1 st3.
Proof.
  intros (P1 & L1 & F1 & S1 & n1 & A1 & O1) (P2 & L2 & F2 & S2 & n2 & A2 & O2).
  split; [set_solver|]. split; [set_solver|]. split; [set_solver|].
  split; [tauto|]. exists (n2 ++ n1). split; [by rewrite A2, A1, app_assoc|].
  apply Forall_app. split; [|exact O1].
  eapply Forall_impl; [exact O2|]. intros a. by apply action_ok_mono.
Qed.

Lemma ev_bind {A B} (m : M A) (k : A -> M B) (st : bot_state) :
  evolves st (m st).2 -> (forall a, preserves (k a)) -> evolves st (bind m k st).2.
Proof.
  intros Hm Hk. unfold bind. destruct (m st) as [[a|e] st1]; simpl in *; [|exact Hm].
  exact (evolves_trans _ _ _ Hm (Hk a st1)).
Qed.

Lemma pr_bind {A B} (m : M A) (k : A -> M B) :
  preserves m -> (forall a, preserves (k a)) -> preserves (bind m k).
Proof. intros Hm Hk st. apply ev_bind; [apply Hm|exact Hk]. Qed.

Lemma ev_try_api {A} (m h : M A) (st : bot_state) :
  evolves st (m st).2 -> preserves h -> evolves st (try_api m h st).2.
Proof.
  intros Hm Hh. unfold try_api. destruct (m st) as [[a|e] st1]; simpl in *; [exact Hm|].
  destruct (is_api_error e); [exact (evolves_trans _ _ _ Hm (Hh st1))|exact Hm].
Qed.

Lemma pr_try_api {A} (m h : M A) : preserves m -> preserves h -> preserves (try_api m h).
Proof. intros Hm Hh st. apply ev_try_api; [apply Hm|exact Hh]. Qed.

Lemma pr_ret {A} (a : A) : preserves (ret a).
Proof. intros st. apply evolves_refl. Qed.

Lemma pr_call {A} (o : outcome A) : preserves (call o).
Proof. intros st. apply evolves_refl. Qed.

Lemma pr_gets_bind {A B} (f : bot_state -> A) (k : A -> M B) :
  (forall st, evolves st (k (f st) st).2) -> preserves (bind (gets f) k).
Proof. intros H st. apply H. Qed.

Lemma synced_actions (st : bot_state) (acts : list action) :
  synced st ->
  synced (mkBotState (processed_posts st) (liked_posts st) (followed_accounts st) (disk st) acts).
Proof. done. Qed.

Lemma evolves_log (st : bot_state) (a : action) :
  action_ok st a ->
  evolves st (mkBotState (processed_posts st) (liked_posts st) (followed_accounts st)
                (disk st) (a :: actions st)).
Proof.
  intros Ha. split; [done|]. split; [done|]. split; [done|].
  split; [apply synced_actions|]. exists [a]. split; [reflexivity|by constructor].
Qed.

Lemma ev_reblog_block (st : bot_state) (s : status) :
  HStr (status_id s) ∉ processed_posts st -> should_repost cfg s = true ->
  repost_candidate s ->
  evolves st ((log_action (Reblog (status_id s)) ;;;
               call (status_reblog mastodon (status_id s)) ;;;
               p' <- gets processed_posts ;;
               set_processed ({[HStr (status_id s)]} ∪ p') ;;;
               save_processed_posts ;;;
               ret true) st).2.
Proof.
  intros Hn Hs Hc.
  assert (Ha : action_ok st (Reblog (status_id s))) by (split; [exact Hn|by exists s]).
  unfold bind, log_action, call, modify, gets, set_processed, save_processed_posts,
    write_file, ret; simpl.
  destruct (status_reblog mastodon (status_id s)) as [[]|e]; simpl; [|by apply evolves_log].
  split; [set_solver|]. split; [done|]. split; [done|].
  split.
  - intros (H1 & H2 & H3). unfold synced; simpl.
    rewrite read_ids_dump, !read_ids_insert_ne by file_names. done.
  - exists [Reblog (status_id s)]. split; [reflexivity|by constructor].
Qed.

Lemma ev_like_block (st : bot_state) (s : status) (r : Like.rule) :
  HStr (status_id s) ∉ liked_posts st -> like_candidate r s -> should_like s r = true ->
  evolves st ((log_action (Favourite (status_id s)) ;;;
               call (status_favourite mastodon (status_id s)) ;;;
               l' <- gets liked_posts ;;
               set_liked ({[HStr (status_id s)]} ∪ l') ;;;
               save_liked_posts ;;;
               ret true) st).2.
Proof.
  intros Hn Hr Hs.
  assert (Ha : action_ok st (Favourite (status_id s)))
    by (split; [exact Hn|by exists s, r]).
  unfold bind, log_action, call, modify, gets, set_liked, save_liked_posts,
    write_file, ret; simpl.
  destruct (status_favourite mastodon (status_id s)) as [[]|e]; simpl; [|by apply evolves_log].
  split; [done|]. split; [set_solver|]. split; [done|].
  split.
  - intros (H1 & H2 & H3). unfold synced; simpl.
    rewrite read_ids_dump, !read_ids_insert_ne by file_names. done.
  - exists [Favourite (status_id s)]. split; [reflexivity|by constructor].
Qed.

Lemma ev_follow_block (st : bot_state) (account_id : string) (c : Z) :
  HStr account_id ∉ followed_accounts st -> follow_candidate account_id ->
  evolves st ((log_action (Follow account_id) ;;;
               call (account_follow mastodon account_id) ;;;
               f' <- gets followed_accounts ;;
               set_followed ({[HStr account_id]} ∪ f') ;;;
               save_followed_accounts ;;;
               ret (c + 1)) st).2.
Proof.
  intros Hn Hc.
  assert (Ha : action_ok st (Follow account_id)) by (split; [exact Hn|exact Hc]).
  unfold bind, log_action, call, modify, gets, set_followed, save_followed_accounts,
    write_file, ret; simpl.
  destruct (account_follow mastodon account_id) as [[]|e]; simpl; [|by apply evolves_log].
  split; [done|]. split; [done|]. split; [set_solver|].
  split.
  - intros (H1 & H2 & H3). unfold synced; simpl.
    rewrite read_ids_dump, !read_ids_insert_ne by file_names. done.
  - exists [Follow account_id]. split; [reflexivity|by constructor].
Qed.

Lemma get_account_id_preserves (h : string) : preserves (get_account_id mastodon h).
Proof.
  intros st. destruct (get_account_id_state mastodon h st) as [o ->]. apply evolves_refl.
Qed.

Lemma get_account_id_some (h a : string) (st st' : bot_state) :
  get_account_id mastodon h st = (Ok (Some a), st') ->
  exists rest, account_search mastodon h = Ok (a :: rest).
Proof.
  unfold get_account_id, try_api, bind, call.
  destruct (account_search mastodon h) as [[|x xs]|e]; simpl.
  - discriminate.
  - intros [= -> _]. by exists xs.
  - destruct (is_api_error e); discriminate.
Qed.

Lemma pr_bind_account {B} (h : string) (k : option string -> M B) :
  (forall a rest, account_search mastodon h = Ok (a :: rest) -> preserves (k (Some a))) ->
  preserves (k None) -> preserves (bind (get_account_id mastodon h) k).
Proof.
  intros Hs Hn st. unfold bind.
  destruct (get_account_id_state mastodon h st) as [o Ho]. rewrite Ho.
  destruct o as [[a|]|e]; simpl.
  - destruct (get_account_id_some h a st st Ho) as [rest Hr]. exact (Hs a rest Hr st).
  - apply Hn.
  - apply evolves_refl.
Qed.

Lemma pr_bind_call {A B} (o : outcome A) (k : A -> M B) :
  (forall a, o = Ok a -> preserves (k a)) -> preserves (bind (call o) k).
Proof.
  intros H st. unfold bind, call. destruct o as [a|e]; [by apply H|apply evolves_refl].
Qed.

Lemma repost_status_preserves (s : status) :
  repost_candidate s -> preserves (repost_status cfg mastodon s).
Proof.
  intros Hc. unfold repost_status. cbv zeta. apply pr_gets_bind. intros st.
  case_bool_decide as Hin; [apply evolves_refl|].
  destruct (should_repost cfg s) eqn:Hs; simpl; [|apply evolves_refl].
  apply ev_try_api; [by apply ev_reblog_block|apply pr_ret].
Qed.

Lemma like_status_preserves (s : status) (r : Like.rule) :
  like_candidate r s -> should_like s r = true -> preserves (like_status mastodon s).
Proof.
  intros Hr Hs. unfold like_status. cbv zeta. apply pr_gets_bind. intros st.
  case_bool_decide as Hin; [apply evolves_refl|].
  apply ev_try_api; [by eapply ev_like_block|apply pr_ret].
Qed.

Lemma repost_statuses_preserves (ss : list status) (c : Z) :
  (forall s, In s ss -> repost_candidate s) ->
  preserves (repost_statuses cfg mastodon ss c).
Proof.
  revert c. induction ss as [|s ss IH]; intros c Hss; simpl; [apply pr_ret|].
  apply pr_bind; [apply repost_status_preserves; apply Hss; by left|].
  intros b. apply IH. intros s' H. apply Hss. by right.
Qed.

Lemma check_new_posts_loop_preserves (hs : list string) :
  (forall h, In h hs -> In h (accounts_to_monitor cfg)) ->
  preserves (check_new_posts_loop cfg mastodon hs).
Proof.
  induction hs as [|h hs IH]; intros Hhs; simpl; [apply pr_ret|].
  assert (Hh : In h (accounts_to_monitor cfg)) by (apply Hhs; by left).
  assert (Hrest : preserves (check_new_posts_loop cfg mastodon hs))
    by (apply IH; intros h' H; apply Hhs; by right).
  apply pr_bind_account; [|exact Hrest]. intros a rest Hs. cbv beta iota.
  destruct (String.eqb a "") eqn:Ha; [exact Hrest|].
  apply pr_bind; [|intros _; exact Hrest].
  apply pr_try_api; [|apply pr_ret].
  apply pr_bind_call. intros ss Hss.
  apply pr_bind; [|intros _; apply pr_ret].
  apply repost_statuses_preserves. intros s Hin.
  exists h, a, rest, ss. apply String.eqb_neq in Ha. done.
Qed.

Lemma like_statuses_preserves (r : Like.rule) (ss : list status) (c : Z) :
  (forall s, In s ss -> like_candidate r s) -> preserves (like_statuses cfg mastodon r ss c).
Proof.
  revert c. induction ss as [|s ss IH]; intros c Hss; simpl; [apply pr_ret|].
  assert (Hrest : forall c', preserves (like_statuses cfg mastodon r ss c'))
    by (intros c'; apply IH; intros s' H; apply Hss; by right).
  destruct (max_likes_per_check cfg <=? c); [apply pr_ret|].
  destruct (should_like s r) eqn:Hs; [|apply Hrest].
  apply pr_bind; [|intros b; apply Hrest].
  eapply like_status_preserves; [apply Hss; by left|exact Hs].
Qed.

Lemma check_likes_loop_preserves (rules : list Like.rule) (c : Z) :
  (forall r, In r rules -> In r (like_accounts cfg)) ->
  preserves (check_likes_loop cfg mastodon rules c).
Proof.
  revert c. induction rules as [|r rules IH]; intros c Hrs; simpl; [apply pr_ret|].
  assert (Hr : In r (like_accounts cfg)) by (apply Hrs; by left).
  assert (Hrest : forall r', In r' rules -> In r' (like_accounts cfg))
    by (intros r' H; apply Hrs; by right).
  apply pr_bind_account; [|by apply IH]. intros a rest Hs. cbv beta iota.
  destruct (String.eqb a "") eqn:Ha; [by apply IH|].
  destruct (max_likes_per_check cfg <=? c); [apply pr_ret|].
  apply pr_bind; [|intros c'; by apply IH].
  apply pr_try_api; [|apply pr_ret].
  apply pr_bind_call. intros ss Hss. apply like_statuses_preserves.
  intros s Hin. split; [exact Hr|]. exists a, rest, ss.
  apply String.eqb_neq in Ha. done.
Qed.

Lemma check_likes_preserves : preserves (check_likes cfg mastodon).
Proof.
  unfold check_likes. destruct (like_accounts cfg) as [|r rules] eqn:E; [apply pr_ret|].
  rewrite <- E. apply check_likes_loop_preserves. done.
Qed.

Lemma follow_all_preserves (fs : list (string * string)) (c : Z) :
  (forall i acct, In (i, acct) fs -> follow_candidate i) ->
  preserves (follow_all mastodon fs c).
Proof.
  revert c. induction fs as [|[aid acct] fs IH]; intros c Hfs; simpl; [apply pr_ret|].
  assert (Hrest : forall c', preserves (follow_all mastodon fs c'))
    by (intros c'; apply IH; intros i a H; apply (Hfs i a); by right).
  apply pr_gets_bind. intros st.
  case_bool_decide as Hin; [apply Hrest|].
  apply ev_bind; [|intros c'; apply Hrest].
  apply ev_try_api; [|apply pr_ret].
  apply ev_follow_block; [exact Hin|apply (Hfs aid acct); by left].
Qed.

Lemma check_follow_back_preserves : preserves (check_follow_back cfg mastodon).
Proof.
  unfold check_follow_back. destruct (enable_follow_back cfg) eqn:He; simpl; [|apply pr_ret].
  apply pr_try_api; [|apply pr_ret].
  apply pr_bind_call. intros me_id Hme.
  apply pr_bind_call. intros [|f fs] Hfl; [apply pr_ret|].
  apply pr_bind; [|intros _; apply pr_ret].
  apply follow_all_preserves. intros i acct Hin. split; [exact He|].
  by exists me_id, (f :: fs), acct.
Qed.

Lemma run_cycle_preserves : preserves (run_cycle cfg mastodon).
Proof.
  unfold run_cycle.
  apply pr_bind; [by apply check_new_posts_loop_preserves|]. intros _.
  apply pr_bind; [apply check_likes_preserves|]. intros _.
  apply check_follow_back_preserves.
Qed.
End Evolve.

Section Complete.
Variable cfg : bot_config.
Variable mastodon : api.
Hypothesis Hapi : api_errors_only mastodon.

Lemma preserves_processed {A} (m : M A) (st : bot_state) (x : hashable) :
  preserves cfg mastodon m -> x ∈ processed_posts st -> x ∈ processed_posts (m st).2.
Proof. intros Hm Hx. destruct (Hm st) as (H & _). set_solver. Qed.

Lemma preserves_followed {A} (m : M A) (st : bot_state) (x : hashable) :
  preserves cfg mastodon m -> x ∈ followed_accounts st -> x ∈ followed_accounts (m st).2.
Proof. intros Hm Hx. destruct (Hm st) as (_ & _ & H & _). set_solver. Qed.

Lemma repost_status_complete (s : status) (st : bot_state) :
  status_reblog mastodon (status_id s) = Ok tt -> should_repost cfg s = true ->
  HStr (status_id s) ∈ processed_posts (repost_status cfg mastodon s st).2.
Proof.
  intros Hr Hs.
  unfold repost_status, try_api, bind, log_action, call, modify, gets, set_processed,
    save_processed_posts, write_file, ret; simpl.
  case_bool_decide as Hin; [exact Hin|]. rewrite Hs. simpl. rewrite Hr. simpl. set_solver.
Qed.

Lemma repost_statuses_complete (ss : list status) (c : Z) (st : bot_state) (s : status) :
  (forall i, status_reblog mastodon i = Ok tt) ->
  (forall s', In s' ss -> repost_candidate cfg mastodon s') ->
  In s ss -> should_repost cfg s = true ->
  HStr (status_id s) ∈ processed_posts (repost_statuses cfg mastodon ss c st).2.
Proof.
  intros Hr. revert c st. induction ss as [|s0 ss IH]; intros c st Hc Hin Hs; [done|].
  assert (Hc' : forall s', In s' ss -> repost_candidate cfg mastodon s')
    by (intros s' H; apply Hc; by right).
  simpl. unfold bind at 1.
  destruct (repost_status cfg mastodon s0 st) as [[b|e] st1] eqn:E.
  - destruct Hin as [<-|Hin]; [|by apply IH].
    apply preserves_processed; [by apply repost_statuses_preserves|].
    pose proof (repost_status_complete s0 st (Hr _) Hs) as H. by rewrite E in H.
  - exfalso. exact (repost_status_no_raise cfg mastodon Hapi s0 st e st1 E).
Qed.

Lemma fetch_and_repost_ok (a : string) (st : bot_state) :
  exists st1,
    try_api (statuses <- call (account_statuses mastodon a (exclude_replies cfg)
                                 (exclude_reblogs cfg)) ;;
             _ <- repost_statuses cfg mastodon statuses 0 ;;
             ret tt)
            (ret tt) st = (Ok tt, st1).
Proof.
  unfold try_api, bind at 1, call at 1.
  destruct (account_statuses mastodon a (exclude_replies cfg) (exclude_reblogs cfg))
    as [ss|e] eqn:E.
  - unfold bind. destruct (repost_statuses cfg mastodon ss 0 st) as [[c|e] st2] eqn:E2.
    + by exists st2.
    + exfalso. exact (repost_statuses_no_raise cfg mastodon Hapi ss 0 st e st2 E2).
  - destruct Hapi as (_ & H2 & _). rewrite (H2 _ _ _ e E). by exists st.
Qed.

Lemma check_new_posts_loop_complete (hs : list string) (st : bot_state) (h aid : string)
    (rest : list string) (ss : list status) (s : status) :
  (forall i, status_reblog mastodon i = Ok tt) ->
  (forall h', In h' hs -> In h' (accounts_to_monitor cfg)) ->
  In h hs -> account_search mastodon h = Ok (aid :: rest) -> aid <> ""%string ->
  account_statuses mastodon aid (exclude_replies cfg) (exclude_reblogs cfg) = Ok ss ->
  In s ss -> should_repost cfg s = true ->
  HStr (status_id s) ∈ processed_posts (check_new_posts_loop cfg mastodon hs st).2.
Proof.
  intros Hr Hhs Hh Hsearch Ha Hst Hs Hsr. revert st Hhs Hh.
  induction hs as [|h0 hs IH]; intros st Hhs Hh; [done|].
  assert (Hhs' : forall h', In h' hs -> In h' (accounts_to_monitor cfg))
    by (intros h' H; apply Hhs; by right).
  simpl. unfold bind at 1.
  destruct (get_account_id_state mastodon h0 st) as [o Eg]. rewrite Eg.
  destruct o as [x|e];
    [|exfalso; exact (get_account_id_no_raise mastodon Hapi h0 st e st Eg)].
  destruct Hh as [<-|Hh].
  - assert (Ex : x = Some aid).
    { unfold get_account_id, try_api, bind, call in Eg. rewrite Hsearch in Eg.
      simpl in Eg. congruence. }
    subst x.
    assert (Hc : forall s', In s' ss -> repost_candidate cfg mastodon s').
    { intros s' Hs'. exists h0, aid, rest, ss. split; [apply Hhs; by left|done]. }
    apply String.eqb_neq in Ha. rewrite Ha.
    unfold bind at 1.
    unfold try_api at 1, bind at 1, call at 1. rewrite Hst.
    unfold bind at 1.
    destruct (repost_statuses cfg mastodon ss 0 st) as [[c|e] st2] eqn:E2.
    + apply preserves_processed; [by apply check_new_posts_loop_preserves|].
      pose proof (repost_statuses_complete ss 0 st s Hr Hc Hs Hsr) as H. by rewrite E2 in H.
    + exfalso. exact (repost_statuses_no_raise cfg mastodon Hapi ss 0 st e st2 E2).
  - destruct x as [a|]; [|exact (IH st Hhs' Hh)].
    destruct (String.eqb a ""); [exact (IH st Hhs' Hh)|].
    unfold bind at 1. destruct (fetch_and_repost_ok a st) as [st1 ->]. exact (IH st1 Hhs' Hh).
Qed.

Lemma follow_all_complete (fs : list (string * string)) (c : Z) (st : bot_state)
    (i acct : string) :
  (forall j, account_follow mastodon j = Ok tt) ->
  (forall j acct', In (j, acct') fs -> follow_candidate cfg mastodon j) ->
  In (i, acct) fs ->
  HStr i ∈ followed_accounts (follow_all mastodon fs c st).2.
Proof.
  intros Hf. revert c st. induction fs as [|[aid acct0] fs IH]; intros c st Hfs Hin; [done|].
  assert (Hfs' : forall j acct', In (j, acct') fs -> follow_candidate cfg mastodon j)
    by (intros j a H; apply (Hfs j a); by right).
  simpl. unfold bind at 1, gets at 1. simpl.
  case_bool_decide as Hk.
  - destruct Hin as [[= <- _]|Hin]; [|by apply IH].
    apply preserves_followed; [by apply follow_all_preserves|exact Hk].
  - unfold try_api, bind, log_action, call, modify, gets, set_followed,
      save_followed_accounts, write_file, ret; simpl. rewrite Hf. simpl.
    destruct Hin as [[= <- _]|Hin]; [|by apply IH].
    apply preserves_followed; [by apply follow_all_preserves|simpl; set_solver].
Qed.

Lemma check_likes_ok (st : bot_state) : exists c st1, check_likes cfg mastodon st = (Ok c, st1).
Proof.
  destruct (check_likes cfg mastodon st) as [[c|e] st1] eqn:E; [by eexists _, _|].
  exfalso. unfold check_likes in E. destruct (like_accounts cfg); [discriminate|].
  exact (check_likes_loop_no_raise cfg mastodon Hapi _ 0 st e st1 E).
Qed.

Lemma check_new_posts_ok (st : bot_state) :
  exists st1, check_new_posts cfg mastodon st = (Ok tt, st1).
Proof.
  destruct (check_new_posts cfg mastodon st) as [[[]|e] st1] eqn:E; [by eexists|].
  exfalso. exact (check_new_posts_loop_no_raise cfg mastodon Hapi _ st e st1 E).
Qed.
End Complete.

Lemma check_follow_back_state (cfg : bot_config) (mastodon : api) (me_id : string)
    (f : string * string) (fs : list (string * string)) (st : bot_state) :
  enable_follow_back cfg = true -> me mastodon = Ok me_id ->
  account_followers mastodon me_id = Ok (f :: fs) ->
  (check_follow_back cfg mastodon st).2 = (follow_all mastodon (f :: fs) 0 st).2.
Proof.
  intros He Hm Hf. unfold check_follow_back. rewrite He.
  cbv [negb try_api bind call ret]. rewrite Hm, Hf.
  destruct (follow_all mastodon (f :: fs) 0 st) as [[c|e] st'];
    [reflexivity|by destruct (is_api_error e)].
Qed.

(** X12: a poll cycle never removes an id from the processed, liked or
    followed sets, and when the three JSON files matched the sets before
    the cycle they still match them afterwards, also when the cycle stops
    on an exception. *)
Theorem run_cycle_keeps_sets_and_files (cfg : bot_config) (mastodon : api) (st : bot_state) :
  let st' := (run_cycle cfg mastodon st).2 in
  processed_posts st ⊆ processed_posts st' /\
  liked_posts st ⊆ liked_posts st' /\
  followed_accounts st ⊆ followed_accounts st' /\
  (synced st -> synced st').
Proof.
  destruct (run_cycle_preserves cfg mastodon st) as (H1 & H2 & H3 & H4 & _). done.
Qed.

(** X13: every remote action a poll cycle issues is new with respect to the
    sets held when the cycle started and concerns what the client returned:
    a reblog is of a status fetched for a monitored account, not yet
    processed, that [_should_repost] accepts; a favourite is of a status
    fetched for the account of a like rule, not yet liked, that this rule
    accepts; a follow, made only with follow-back enabled, is of a listed
    follower of the bot's own account not yet followed. *)
Theorem run_cycle_actions_justified (cfg : bot_config) (mastodon : api) (st : bot_state) :
  exists new, actions (run_cycle cfg mastodon st).2 = new ++ actions st /\
              Forall (action_ok cfg mastodon st) new.
Proof.
  destruct (run_cycle_preserves cfg mastodon st) as (_ & _ & _ & _ & H). exact H.
Qed.

(** X14: when follow-back is enabled and the client's calls fail, if at
    all, only with [MastodonAPIError]s, a cycle in which the follower list
    is fetched and every follow succeeds leaves every listed follower in
    the followed set. *)
Theorem run_cycle_follows_back_all (cfg : bot_config) (mastodon : api) (st : bot_state)
    (me_id : string) (followers : list (string * string)) :
  api_errors_only mastodon ->
  enable_follow_back cfg = true ->
  me mastodon = Ok me_id ->
  account_followers mastodon me_id = Ok followers ->
  (forall i, account_follow mastodon i = Ok tt) ->
  forall i acct, In (i, acct) followers ->
    HStr i ∈ followed_accounts (run_cycle cfg mastodon st).2.
Proof.
  intros Hapi He Hm Hf Hfo i acct Hin.
  destruct followers as [|f fs]; [done|].
  destruct (check_new_posts_ok cfg mastodon Hapi st) as [st1 E1].
  destruct (check_likes_ok cfg mastodon Hapi st1) as (c & st2 & E2).
  unfold run_cycle, bind at 1. rewrite E1. unfold bind at 1. rewrite E2.
  rewrite (check_follow_back_state cfg mastodon me_id f fs st2 He Hm Hf).
  eapply (follow_all_complete cfg mastodon Hapi); [exact Hfo| |exact Hin].
  intros j a Hj. split; [exact He|]. by exists me_id, (f :: fs), a.
Qed.

(** X15: when the client's calls fail, if at all, only with
    [MastodonAPIError]s and every reblog succeeds, a cycle reposts every
    status that [_should_repost] accepts among those fetched for a
    monitored account found by the search. *)
Theorem run_cycle_reposts_all (cfg : bot_config) (mastodon : api) (st : bot_state)
    (h aid : string) (rest : list string) (ss : list status) (s : status) :
  api_errors_only mastodon ->
  (forall i, status_reblog mastodon i = Ok tt) ->
  In h (accounts_to_monitor cfg) ->
  account_search mastodon h = Ok (aid :: rest) -> aid <> ""%string ->
  account_statuses mastodon aid (exclude_replies cfg) (exclude_reblogs cfg) = Ok ss ->
  In s ss -> should_repost cfg s = true ->
  HStr (status_id s) ∈ processed_posts (run_cycle cfg mastodon st).2.
Proof.
  intros Hapi Hr Hh Hsearch Ha Hst Hs Hsr.
  destruct (check_new_posts_ok cfg mastodon Hapi st) as [st1 E1].
  unfold run_cycle, bind at 1. rewrite E1.
  apply (preserves_processed cfg mastodon Hapi).
  - apply pr_bind; [apply check_likes_preserves|intros _; apply check_follow_back_preserves].
  - pose proof (check_new_posts_loop_complete cfg mastodon Hapi (accounts_to_monitor cfg)
                  st h aid rest ss s Hr (fun _ H => H) Hh Hsearch Ha Hst Hs Hsr) as H.
    unfold check_new_posts in E1. by rewrite E1 in H.
Qed.

Definition ex_post (i : string) : status := mkStatus i "alice" "<p>hello</p>" PNone None [] [].

Definition ex_cycle_cfg : bot_config :=
  mkBotConfig ["alice"%string; "bob"%string] 60 false true false [] 50 true.

Definition ex_cycle_api : api :=
  mkApi (fun h => Ok [(h ++ "-id")%string])
        (fun a _ _ => Ok [ex_post (a ++ "-1")])
        (fun _ => Ok tt) (fun _ => Ok tt) (Ok "me"%string)
        (fun _ => Ok [("42"%string, "carol@example.org"%string)]) (fun _ => Ok tt).

Definition ex_cycle_state : bot_state := mkBotState ∅ ∅ ∅ ∅ [].

Lemma ex_cycle_api_errors : api_errors_only ex_cycle_api.
Proof. repeat split; repeat intro; simpl in *; discriminate. Qed.

Lemma run_cycle_follows_back_all_witness :
  api_errors_only ex_cycle_api /\ enable_follow_back ex_cycle_cfg = true /\
  me ex_cycle_api = Ok "me"%string /\
  account_followers ex_cycle_api "me" = Ok [("42"%string, "carol@example.org"%string)] /\
  (forall i, account_follow ex_cycle_api i = Ok tt) /\
  HStr "42" ∈ followed_accounts (run_cycle ex_cycle_cfg ex_cycle_api ex_cycle_state).2.
Proof.
  assert (Hf : forall i, account_follow ex_cycle_api i = Ok tt) by reflexivity.
  split; [exact ex_cycle_api_errors|]. split; [reflexivity|]. split; [reflexivity|].
  split; [reflexivity|]. split; [exact Hf|].
  exact (run_cycle_follows_back_all ex_cycle_cfg ex_cycle_api ex_cycle_state "me" _
           ex_cycle_api_errors eq_refl eq_refl eq_refl Hf "42" "carol@example.org"
           (or_introl eq_refl)).
Defined.

Lemma run_cycle_reposts_all_witness :
  api_errors_only ex_cycle_api /\ (forall i, status_reblog ex_cycle_api i = Ok tt) /\
  In "alice"%string (accounts_to_monitor ex_cycle_cfg) /\
  account_search ex_cycle_api "alice" = Ok ["alice-id"%string] /\
  "alice-id"%string <> ""%string /\
  account_statuses ex_cycle_api "alice-id" (exclude_replies ex_cycle_cfg)
    (exclude_reblogs ex_cycle_cfg) = Ok [ex_post "alice-id-1"] /\
  should_repost ex_cycle_cfg (ex_post "alice-id-1") = true /\
  HStr "alice-id-1" ∈ processed_posts (run_cycle ex_cycle_cfg ex_cycle_api ex_cycle_state).2.
Proof.
  assert (Hr : forall i, status_reblog ex_cycle_api i = Ok tt) by reflexivity.
  assert (Hh : In "alice"%string (accounts_to_monitor ex_cycle_cfg)) by (simpl; auto).
  assert (Ha : "alice-id"%string <> ""%string) by discriminate.
  split; [exact ex_cycle_api_errors|]. split; [exact Hr|]. split; [exact Hh|].
  split; [reflexivity|]. split; [exact Ha|]. split; [reflexivity|]. split; [reflexivity|].
  exact (run_cycle_reposts_all ex_cycle_cfg ex_cycle_api ex_cycle_state "alice" "alice-id" []
           [ex_post "alice-id-1"] (ex_post "alice-id-1") ex_cycle_api_errors Hr Hh eq_refl Ha
           eq_refl (or_introl eq_refl) eq_refl).
Defined.
